(** * Two-factor authentication of django-reusable-components

    A shallow embedding of [authentication/services.py] (class
    [TwoFactorService]), of the 2FA views of [authentication/views.py] and
    of the rows of [authentication/models.py] they read and write.

    The database is an explicit value of type [World]; every service method
    is a computation in a small state-and-exception monad [M] over it.
    What lives outside the repository is taken as a parameter of the
    section below: the TOTP check of django_otp ([TOTPDevice.verify_token]),
    which answers from the device row, the token and the time and saves its
    own bookkeeping on the row; the random key a new [TOTPDevice] receives
    and [secrets.token_hex(5)], two streams indexed by the number of draws
    made so far, which the world counts; Python's [str.upper]; and the
    template engine and mail backend behind [send_mail].

    Python strings are values of [string]; the services compare them for
    equality and hand them to [str.upper], nothing else.

    No service method opens a transaction, so every ORM call is a statement
    of its own: what has been written stays written when a later statement
    raises, and the world a computation hands back next to [Raise] is the
    one reached so far. *)

From Stdlib Require Import List String Ascii Bool Arith ZArith Lia.
Import ListNotations.
Local Open Scope string_scope.
Local Open Scope nat_scope.

(** ** Rows *)

(** [authentication.models.User]; of its columns the 2FA code reads and
    writes [is_2fa_enabled] only, and identifies the row by primary key. *)
Record User := mkUser {
  user_id : nat;
  is_2fa_enabled : bool }.

(** The columns of a [TOTPDevice] that django_otp keeps for itself: the
    last accepted time step and the drift, the throttling count and time
    stamp, and the time of the last use. *)
Record OtpState := mkOtp {
  last_t : Z;
  drift : Z;
  throttling_failure_count : nat;
  throttling_failure_timestamp : option nat;
  last_used_at : option nat }.

(** Their defaults on a new row. *)
Definition otp_defaults : OtpState := mkOtp (-1) 0 0 None None.

(** [django_otp.plugins.otp_totp.models.TOTPDevice]: the columns the
    services touch (owner, name, key and [confirmed]) and the ones
    [verify_token] reads and writes. *)
Record TOTPDevice := mkDevice {
  dev_id : nat;
  dev_user : nat;
  dev_name : string;
  dev_key : string;
  dev_confirmed : bool;
  dev_otp : OtpState }.

(** [device.confirmed = c] on an instance. *)
Definition set_confirmed (c : bool) (d : TOTPDevice) : TOTPDevice :=
  mkDevice (dev_id d) (dev_user d) (dev_name d) (dev_key d) c (dev_otp d).

(** The instance after [verify_token] has updated its own columns. *)
Definition set_otp (st : OtpState) (d : TOTPDevice) : TOTPDevice :=
  mkDevice (dev_id d) (dev_user d) (dev_name d) (dev_key d) (dev_confirmed d) st.

(** The row [get_or_create] inserts. *)
Definition new_device (pk uid : nat) (key : string) : TOTPDevice :=
  mkDevice pk uid "default" key false otp_defaults.

(** [authentication.models.TwoFactorBackupCode]. *)
Record TwoFactorBackupCode := mkCode {
  bc_id : nat;
  bc_user : nat;
  code : string;
  is_used : bool;
  created_at : nat;
  used_at : option nat }.

(** A message handed to [django.core.mail.send_mail]. *)
Record Email := mkEmail {
  recipient : nat;
  subject : string }.

(** ** The world: the tables, the primary-key counters, the number of
    random draws made, the wall clock and the mails sent. *)
Record World := mkWorld {
  users : list User;
  devices : list TOTPDevice;
  backup_codes : list TwoFactorBackupCode;
  next_device_id : nat;
  next_code_id : nat;
  draws : nat;
  clock : nat;
  outbox : list Email }.

Definition set_users (us : list User) (w : World) : World :=
  mkWorld us (devices w) (backup_codes w) (next_device_id w)
          (next_code_id w) (draws w) (clock w) (outbox w).

Definition set_devices (ds : list TOTPDevice) (w : World) : World :=
  mkWorld (users w) ds (backup_codes w) (next_device_id w)
          (next_code_id w) (draws w) (clock w) (outbox w).

Definition set_backup_codes (cs : list TwoFactorBackupCode) (w : World) : World :=
  mkWorld (users w) (devices w) cs (next_device_id w)
          (next_code_id w) (draws w) (clock w) (outbox w).

Definition set_next_device_id (n : nat) (w : World) : World :=
  mkWorld (users w) (devices w) (backup_codes w) n
          (next_code_id w) (draws w) (clock w) (outbox w).

Definition set_next_code_id (n : nat) (w : World) : World :=
  mkWorld (users w) (devices w) (backup_codes w) (next_device_id w)
          n (draws w) (clock w) (outbox w).

Definition set_draws (n : nat) (w : World) : World :=
  mkWorld (users w) (devices w) (backup_codes w) (next_device_id w)
          (next_code_id w) n (clock w) (outbox w).

Definition set_clock (now : nat) (w : World) : World :=
  mkWorld (users w) (devices w) (backup_codes w) (next_device_id w)
          (next_code_id w) (draws w) now (outbox w).

Definition set_outbox (ms : list Email) (w : World) : World :=
  mkWorld (users w) (devices w) (backup_codes w) (next_device_id w)
          (next_code_id w) (draws w) (clock w) ms.

(** ** Exceptions and the monad *)

(** The exceptions that can leave a service method or a view.
    [DoesNotExist] is not among them: both places that can meet it catch
    it.  [EmailError] stands for whatever [render_to_string] or
    [send_mail(..., fail_silently=False)] raises. *)
Inductive exn := MultipleObjectsReturned | IntegrityError | EmailError.

Inductive outcome (A : Type) :=
| Return (a : A)
| Raise (e : exn).
Arguments Return {A} a.
Arguments Raise {A} e.

Definition M (A : Type) : Type := World -> outcome A * World.

Definition ret {A} (a : A) : M A := fun w => (Return a, w).
Definition raise {A} (e : exn) : M A := fun w => (Raise e, w).
Definition bind {A B} (m : M A) (k : A -> M B) : M B :=
  fun w => match m w with
           | (Return a, w') => k a w'
           | (Raise e, w') => (Raise e, w')
           end.
Definition gets {A} (f : World -> A) : M A := fun w => (Return (f w), w).
Definition modify (f : World -> World) : M unit := fun w => (Return tt, f w).

Notation "x <- m ;; k" := (bind m (fun x => k))
  (at level 61, m at next level, right associativity).
Notation "m ;;; k" := (bind m (fun _ => k))
  (at level 61, right associativity).

(** ** Querysets *)

(** What [Model.objects.get(...)] can do. *)
Inductive lookup (A : Type) :=
| DoesNotExist
| Found (a : A)
| Multiple.
Arguments DoesNotExist {A}.
Arguments Found {A} a.
Arguments Multiple {A}.

Definition objects_get {A} (p : A -> bool) (tbl : list A) : lookup A :=
  match filter p tbl with
  | [] => DoesNotExist
  | [x] => Found x
  | _ :: _ :: _ => Multiple
  end.

(** [queryset.filter(...).delete()] keeps the rows the filter rejects. *)
Definition objects_delete {A} (p : A -> bool) (tbl : list A) : list A :=
  filter (fun x => negb (p x)) tbl.

(** [instance.save()] of an instance that has a primary key: UPDATE the row
    with that key, INSERT when there is none. *)
Definition save_row {A} (key : A -> nat) (x : A) (tbl : list A) : list A :=
  if existsb (fun y => key y =? key x) tbl
  then map (fun y => if key y =? key x then x else y) tbl
  else tbl ++ [x].

(** ** Filters used by the services *)

Definition by_user_name (uid : nat) (name : string) (d : TOTPDevice) : bool :=
  (dev_user d =? uid) && String.eqb (dev_name d) name.

Definition by_user_name_confirmed (uid : nat) (name : string) (c : bool)
    (d : TOTPDevice) : bool :=
  (dev_user d =? uid) && String.eqb (dev_name d) name
  && Bool.eqb (dev_confirmed d) c.

Definition device_of (uid : nat) (d : TOTPDevice) : bool := dev_user d =? uid.

Definition code_of (uid : nat) (b : TwoFactorBackupCode) : bool := bc_user b =? uid.

Definition by_user_code_used (uid : nat) (c : string) (u : bool)
    (b : TwoFactorBackupCode) : bool :=
  (bc_user b =? uid) && String.eqb (code b) c && Bool.eqb (is_used b) u.

(** ** Model methods *)

(** [TwoFactorBackupCode.mark_as_used]: set both fields on the instance and
    save it. *)
Definition mark_as_used (b : TwoFactorBackupCode) : M unit :=
  now <- gets clock ;;
  let b' := mkCode (bc_id b) (bc_user b) (code b) true (created_at b) (Some now) in
  modify (fun w => set_backup_codes (save_row bc_id b' (backup_codes w)) w).

(** [TwoFactorBackupCode.objects.create(user=user, code=code)]: the column
    [code] is [unique=True], so a code already in the table is refused. *)
Definition create_backup_code (uid : nat) (c : string) : M unit :=
  tbl <- gets backup_codes ;;
  if existsb (fun b => String.eqb (code b) c) tbl
  then raise IntegrityError
  else
    now <- gets clock ;;
    pk <- gets next_code_id ;;
    modify (fun w =>
      set_next_code_id (S pk)
        (set_backup_codes (tbl ++ [mkCode pk uid c false now None]) w)).

(** [user.save()] *)
Definition save_user (u : User) : M unit :=
  modify (fun w => set_users (save_row user_id u (users w)) w).

(** [device.save()] *)
Definition save_device (d : TOTPDevice) : M unit :=
  modify (fun w => set_devices (save_row dev_id d (devices w)) w).

(** The dict [enable_2fa] returns. *)
Record Enrollment := mkEnrollment {
  qr_code : string;
  secret_key : string;
  enrolled_backup_codes : list string }.

(** The mail [send_2fa_enabled_email] sends. *)
Definition mail_2fa_enabled (user : User) : Email :=
  mkEmail (user_id user) "Two-Factor Authentication Enabled".

Section TwoFactorService.

(** Python's [str.upper]. *)
Variable upper : string -> string.
(** [TOTPDevice.verify_token] of django_otp, for a device row, a token and
    the time of the call: the answer it gives, and the bookkeeping it saves
    on the row before it answers; [None] when it saves nothing, as for a
    throttled device. *)
Variable verify_token : TOTPDevice -> string -> nat -> bool * option OtpState.
(** The key a freshly created [TOTPDevice] gets, by draw number. *)
Variable default_key : nat -> string.
(** [secrets.token_hex(5)], by draw number. *)
Variable token_hex : nat -> string.
(** [device.config_url] and the PNG the [qrcode] package renders from it. *)
Variable config_url : TOTPDevice -> string.
Variable qr_png : string -> string.
(** Whether [render_to_string] and [send_mail] go through for a message,
    the world being what it is; they raise when not. *)
Variable delivers : World -> Email -> bool.

Definition draw (source : nat -> string) : M string :=
  n <- gets draws ;;
  modify (set_draws (S n)) ;;;
  ret (source n).

(** [TOTPDevice.objects.get_or_create(user=user, name='default',
    confirmed=False)] *)
Definition get_or_create_device (uid : nat) : M (TOTPDevice * bool) :=
  ds <- gets devices ;;
  match objects_get (by_user_name_confirmed uid "default" false) ds with
  | Found d => ret (d, false)
  | Multiple => raise MultipleObjectsReturned
  | DoesNotExist =>
      key <- draw default_key ;;
      pk <- gets next_device_id ;;
      let d := new_device pk uid key in
      modify (fun w => set_next_device_id (S pk) (set_devices (ds ++ [d]) w)) ;;;
      ret (d, true)
  end.

(** The loop of [generate_backup_codes]. *)
Fixpoint generate_loop (uid : nat) (n : nat) (codes : list string) : M (list string) :=
  match n with
  | O => ret codes
  | S n' =>
      hex <- draw token_hex ;;
      let c := upper hex in
      create_backup_code uid c ;;;
      generate_loop uid n' (codes ++ [c])
  end.

(** [TwoFactorService.generate_backup_codes]; [range(count)] is empty for
    a count that is zero or negative. *)
Definition generate_backup_codes (user : User) (count : Z) : M (list string) :=
  modify (fun w => set_backup_codes
                     (objects_delete (code_of (user_id user)) (backup_codes w)) w) ;;;
  generate_loop (user_id user) (Z.to_nat count) [].

(** [TwoFactorService.enable_2fa] *)
Definition enable_2fa (user : User) : M Enrollment :=
  dc <- get_or_create_device (user_id user) ;;
  let device := fst dc in
  let qr_code_data := qr_png (config_url device) in
  backup <- generate_backup_codes user 10 ;;
  ret (mkEnrollment qr_code_data (dev_key device) backup).

(** [TwoFactorService._verify_backup_code] *)
Definition _verify_backup_code (user : User) (c : string) : M bool :=
  tbl <- gets backup_codes ;;
  match objects_get (by_user_code_used (user_id user) (upper c) false) tbl with
  | Found backup_code => mark_as_used backup_code ;;; ret true
  | DoesNotExist => ret false
  | Multiple => raise MultipleObjectsReturned
  end.

(** [device.verify_token(token)]: django_otp answers, and where it has
    bookkeeping to record it saves the row; the instance carries the new
    values from then on. *)
Definition device_verify_token (device : TOTPDevice) (token : string)
    : M (bool * TOTPDevice) :=
  now <- gets clock ;;
  let answer := verify_token device token now in
  match snd answer with
  | Some st =>
      save_device (set_otp st device) ;;;
      ret (fst answer, set_otp st device)
  | None => ret (fst answer, device)
  end.

(** [TwoFactorService.verify_2fa_token] *)
Definition verify_2fa_token (user : User) (token : string) : M bool :=
  ds <- gets devices ;;
  match objects_get (by_user_name (user_id user) "default") ds with
  | Found device =>
      checked <- device_verify_token device token ;;
      let device := snd checked in
      if fst checked then
        (if negb (dev_confirmed device) then
           save_device (set_confirmed true device) ;;;
           save_user (mkUser (user_id user) true)
         else ret tt) ;;;
        ret true
      else _verify_backup_code user token
  | DoesNotExist => ret false
  | Multiple => raise MultipleObjectsReturned
  end.

(** [TwoFactorService.disable_2fa] *)
Definition disable_2fa (user : User) : M unit :=
  modify (fun w => set_devices (objects_delete (device_of (user_id user)) (devices w)) w) ;;;
  modify (fun w => set_backup_codes
                     (objects_delete (code_of (user_id user)) (backup_codes w)) w) ;;;
  save_user (mkUser (user_id user) false).

(** ** The boundary: [authentication/views.py] *)

(** [EmailService.send_2fa_enabled_email]: one message to the user, with
    [fail_silently=False]. *)
Definition send_2fa_enabled_email (user : User) : M unit :=
  sent <- gets (fun w => delivers w (mail_2fa_enabled user)) ;;
  if sent then
    modify (fun w => set_outbox (outbox w ++ [mail_2fa_enabled user]) w)
  else raise EmailError.

Inductive Body :=
| Message (m : string)
| Provisioning (m qr secret : string) (codes : list string)
| Regenerated (m : string) (codes : list string).

Record Response := mkResponse {
  status_code : nat;
  body : Body }.

Variable b64encode : string -> string.

(** [Enable2FAView.post] *)
Definition Enable2FAView_post (user : User) : M Response :=
  if is_2fa_enabled user then
    ret (mkResponse 400 (Message "2FA is already enabled."))
  else
    result <- enable_2fa user ;;
    ret (mkResponse 200
           (Provisioning "Scan the QR code with your authenticator app."
              ("data:image/png;base64," ++ b64encode (qr_code result))
              (secret_key result) (enrolled_backup_codes result))).

(** [Verify2FAView.post], from the validated token on. *)
Definition Verify2FAView_post (user : User) (token : string) : M Response :=
  is_valid <- verify_2fa_token user token ;;
  if is_valid then
    send_2fa_enabled_email user ;;;
    ret (mkResponse 200 (Message "2FA verified and enabled successfully."))
  else
    ret (mkResponse 400 (Message "Invalid 2FA token.")).

(** [Disable2FAView.post] *)
Definition Disable2FAView_post (user : User) : M Response :=
  if negb (is_2fa_enabled user) then
    ret (mkResponse 400 (Message "2FA is not enabled."))
  else
    disable_2fa user ;;;
    ret (mkResponse 200 (Message "2FA disabled successfully.")).

(** [RegenerateBackupCodesView.post] *)
Definition RegenerateBackupCodesView_post (user : User) : M Response :=
  if negb (is_2fa_enabled user) then
    ret (mkResponse 400 (Message "2FA is not enabled."))
  else
    backup <- generate_backup_codes user 10 ;;
    ret (mkResponse 200 (Regenerated "Backup codes regenerated successfully." backup)).

(** ** Every entry point, as one type of calls *)

Inductive Call :=
| call_enable_2fa (user : User)
| call_verify_2fa_token (user : User) (token : string)
| call_disable_2fa (user : User)
| call_generate_backup_codes (user : User) (count : Z)
| call_verify_backup_code (user : User) (c : string)
| post_enable (user : User)
| post_verify (user : User) (token : string)
| post_disable (user : User)
| post_regenerate (user : User).

(** The world a call leaves behind, whether it returned or raised. *)
Definition exec (c : Call) (w : World) : World :=
  match c with
  | call_enable_2fa u => snd (enable_2fa u w)
  | call_verify_2fa_token u t => snd (verify_2fa_token u t w)
  | call_disable_2fa u => snd (disable_2fa u w)
  | call_generate_backup_codes u n => snd (generate_backup_codes u n w)
  | call_verify_backup_code u c => snd (_verify_backup_code u c w)
  | post_enable u => snd (Enable2FAView_post u w)
  | post_verify u t => snd (Verify2FAView_post u t w)
  | post_disable u => snd (Disable2FAView_post u w)
  | post_regenerate u => snd (RegenerateBackupCodesView_post u w)
  end.

(** ** Two requests at once

    [_verify_backup_code] talks to the database twice: the SELECT of
    [objects.get] and the UPDATE of [save()].  A request in flight is at
    one of three points; the database runs one statement at a time, in the
    order a schedule gives. *)

Inductive Consume :=
| before_get (user : User) (c : string)
| before_save (backup_code : TwoFactorBackupCode)
| finished (r : outcome bool).

Definition consume_step (t : Consume) (w : World) : Consume * World :=
  match t with
  | before_get user c =>
      match objects_get (by_user_code_used (user_id user) (upper c) false)
                        (backup_codes w) with
      | Found b => (before_save b, w)
      | DoesNotExist => (finished (Return false), w)
      | Multiple => (finished (Raise MultipleObjectsReturned), w)
      end
  | before_save b =>
      (finished (Return true), snd (mark_as_used b w))
  | finished r => (finished r, w)
  end.

Fixpoint step_nth (i : nat) (ts : list Consume) (w : World) : list Consume * World :=
  match ts, i with
  | [], _ => ([], w)
  | t :: ts', O => let (t', w') := consume_step t w in (t' :: ts', w')
  | t :: ts', S j => let (ts'', w') := step_nth j ts' w in (t :: ts'', w')
  end.

(** Run the requests [ts] under a schedule: each entry names the request
    that gets the database next. *)
Fixpoint run (schedule : list nat) (ts : list Consume) (w : World)
    : list Consume * World :=
  match schedule with
  | [] => (ts, w)
  | i :: rest => let (ts', w') := step_nth i ts w in run rest ts' w'
  end.

(** The same requests one after the other, each call complete before the
    next begins. *)
Fixpoint consume_all (user : User) (c : string) (n : nat) (w : World)
    : list (outcome bool) * World :=
  match n with
  | O => ([], w)
  | S n' =>
      let (r, w') := _verify_backup_code user c w in
      let (rs, w'') := consume_all user c n' w' in
      (r :: rs, w'')
  end.

End TwoFactorService.

(** ** The states of the specification, read off the tables *)

Inductive TwoFactorState := DISABLED | PENDING | ENABLED.

(** The credential of a user is the device [verify_2fa_token] looks up.
    No state is assigned when that lookup is ambiguous. *)
Definition state_of (uid : nat) (w : World) : option TwoFactorState :=
  match objects_get (by_user_name uid "default") (devices w) with
  | DoesNotExist => Some DISABLED
  | Found d => Some (if dev_confirmed d then ENABLED else PENDING)
  | Multiple => None
  end.

(** [request.user]: the row of the authenticated user. *)
Definition request_user (uid : nat) (w : World) : option User :=
  find (fun u => user_id u =? uid) (users w).

(** The backup codes a user could still spend. *)
Definition unused_codes (uid : nat) (w : World) : list string :=
  map code (filter (fun b => code_of uid b && negb (is_used b)) (backup_codes w)).

(** The invariant of the backup-code table. *)
Definition used_at_iff_is_used (b : TwoFactorBackupCode) : Prop :=
  used_at b <> None <-> is_used b = true.

Definition codes_consistent (w : World) : Prop :=
  Forall used_at_iff_is_used (backup_codes w).

(** Primary keys: no two rows share one, and all lie below the counter. *)
Definition keys_ok (w : World) : Prop :=
  NoDup (map bc_id (backup_codes w)) /\
  Forall (fun b => bc_id b < next_code_id w) (backup_codes w).

(** How the backup-code table of [w'] may differ from that of [w]: the
    invariant is kept, the counter does not go back, and each row is used,
    or was created since, or is a row of [w] as it was. *)
Definition evolves (w w' : World) : Prop :=
  (codes_consistent w -> codes_consistent w') /\
  next_code_id w <= next_code_id w' /\
  (forall b, In b (backup_codes w') ->
     is_used b = true \/ next_code_id w <= bc_id b \/ In b (backup_codes w)).

Definition steady {A} (m : M A) : Prop := forall w, evolves w (snd (m w)).

(** ** What generation produces *)

(** The codes made of the draws [k], [k+1], ..., [k+n-1]. *)
Definition batch (upper : string -> string) (token_hex : nat -> string)
    (k n : nat) : list string :=
  map (fun i => upper (token_hex i)) (seq k n).

(** The rows [create] inserts for them, keys counting up from [pk]. *)
Fixpoint new_rows (pk uid now : nat) (cs : list string) : list TwoFactorBackupCode :=
  match cs with
  | [] => []
  | c :: cs' => mkCode pk uid c false now None :: new_rows (S pk) uid now cs'
  end.

Fixpoint distinct (cs : list string) : bool :=
  match cs with
  | [] => true
  | c :: cs' => negb (existsb (String.eqb c) cs') && distinct cs'
  end.

(** The draws neither repeat nor hit a code of the table: no [create]
    will meet the unique constraint. *)
Definition fresh_codes (cs : list string) (tbl : list TwoFactorBackupCode) : bool :=
  distinct cs &&
  forallb (fun c => negb (existsb (fun b => String.eqb (code b) c) tbl)) cs.

(** The number of the first [secrets.token_hex] draw of an enrollment: a
    user without a device spends one draw on the device key before. *)
Definition first_draw (uid : nat) (w : World) : nat :=
  match state_of uid w with
  | Some DISABLED => S (draws w)
  | _ => draws w
  end.

(** The schedule without overlap: requests [k], [k+1], ..., [k+n-1] in
    turn, each getting the database for its two statements. *)
Fixpoint serial (k n : nat) : list nat :=
  match n with
  | O => []
  | S n' => k :: k :: serial (S k) n'
  end.

(** The world after the codes of [uid] were deleted. *)
Definition delete_codes_of (uid : nat) (w : World) : World :=
  set_backup_codes (objects_delete (code_of uid) (backup_codes w)) w.

(** The world after [n] fresh codes were created for [uid]. *)
Definition after_generation (upper : string -> string)
    (token_hex : nat -> string) (uid n : nat) (w : World) : World :=
  mkWorld (users w) (devices w)
          (backup_codes w ++
             new_rows (next_code_id w) uid (clock w)
                      (batch upper token_hex (draws w) n))
          (next_device_id w) (next_code_id w + n) (draws w + n)
          (clock w) (outbox w).

(** The world after a device was created for [uid]. *)
Definition after_device (default_key : nat -> string) (uid : nat)
    (w : World) : World :=
  mkWorld (users w)
          (devices w ++ [new_device (next_device_id w) uid (default_key (draws w))])
          (backup_codes w) (S (next_device_id w)) (next_code_id w)
          (S (draws w)) (clock w) (outbox w).

(** The instance [device] after [device.verify_token(token)] at time
    [now], and the world after that call. *)
Definition checked
    (verify_token : TOTPDevice -> string -> nat -> bool * option OtpState)
    (device : TOTPDevice) (token : string) (now : nat) : TOTPDevice :=
  match snd (verify_token device token now) with
  | Some st => set_otp st device
  | None => device
  end.

Definition after_check
    (verify_token : TOTPDevice -> string -> nat -> bool * option OtpState)
    (device : TOTPDevice) (token : string) (w : World) : World :=
  match snd (verify_token device token (clock w)) with
  | Some st => set_devices (save_row dev_id (set_otp st device) (devices w)) w
  | None => w
  end.

(** ** Requests of authenticated users

    Every 2FA view has [permission_classes = [IsAuthenticated]]: [post]
    runs for the row of the authenticated user, freshly read, and a request
    without one is turned away before it. *)

Inductive Request :=
| enable_request (uid : nat)
| verify_request (uid : nat) (token : string)
| disable_request (uid : nat)
| regenerate_request (uid : nat).

(** What can happen to the database between two looks at it. *)
Inductive Event :=
| a_call (c : Call)
| late_update (backup_code : TwoFactorBackupCode)
| time_passes (seconds : nat).

Section Requests.

Variable upper : string -> string.
Variable verify_token : TOTPDevice -> string -> nat -> bool * option OtpState.
Variable default_key : nat -> string.
Variable token_hex : nat -> string.
Variable config_url : TOTPDevice -> string.
Variable qr_png : string -> string.
Variable delivers : World -> Email -> bool.
Variable b64encode : string -> string.

(** The world a request leaves behind. *)
Definition handle (r : Request) (w : World) : World :=
  match r with
  | enable_request uid =>
      match request_user uid w with
      | Some user =>
          snd (Enable2FAView_post upper default_key token_hex config_url qr_png
                                  b64encode user w)
      | None => w
      end
  | verify_request uid token =>
      match request_user uid w with
      | Some user =>
          snd (Verify2FAView_post upper verify_token delivers user token w)
      | None => w
      end
  | disable_request uid =>
      match request_user uid w with
      | Some user => snd (Disable2FAView_post user w)
      | None => w
      end
  | regenerate_request uid =>
      match request_user uid w with
      | Some user => snd (RegenerateBackupCodesView_post upper token_hex user w)
      | None => w
      end
  end.

(** A call runs to its end; or the UPDATE of a [_verify_backup_code] that
    read its row some time before is served, as for a request that
    overlaps others; or time passes. *)
Definition happen (e : Event) (w : World) : World :=
  match e with
  | a_call c =>
      exec upper verify_token default_key token_hex config_url qr_png delivers
           b64encode c w
  | late_update backup_code => snd (mark_as_used backup_code w)
  | time_passes seconds => set_clock (clock w + seconds) w
  end.

End Requests.

(** The stored flag of a user; a user without a row has none set. *)
Definition flag_of (uid : nat) (w : World) : bool :=
  match request_user uid w with
  | Some u => is_2fa_enabled u
  | None => false
  end.

(** Flag and device agree: every user has at most one device named
    "default", and the flag is set exactly when that device is confirmed.
    Device keys are unique and below the counter. *)
Definition coherent (w : World) : Prop :=
  NoDup (map dev_id (devices w)) /\
  Forall (fun d => dev_id d < next_device_id w) (devices w) /\
  forall uid,
    match state_of uid w with
    | Some ENABLED => flag_of uid w = true
    | Some _ => flag_of uid w = false
    | None => False
    end.

(** The columns of a device row that the services of this repository
    read or write; the rest is django_otp's. *)
Definition service_columns (d : TOTPDevice) : nat * nat * string * string * bool :=
  (dev_id d, dev_user d, dev_name d, dev_key d, dev_confirmed d).

(** Two worlds with the same devices, users and device counter. *)
Definition same_credentials (w w' : World) : Prop :=
  devices w' = devices w /\ users w' = users w /\
  next_device_id w' = next_device_id w.

Definition keeps_credentials {A} (m : M A) : Prop :=
  forall w, same_credentials w (snd (m w)).

(** No two backup-code rows share a code, as [unique=True] demands. *)
Definition codes_unique (w : World) : Prop :=
  NoDup (map code (backup_codes w)).


(** The backup-code table is sound: codes unique, keys unique and below the
    counter. *)
Definition table_sound (w : World) : Prop := codes_unique w /\ keys_ok w.

Definition tidy {A} (m : M A) : Prop :=
  forall w, table_sound w -> table_sound (snd (m w)).

(** ** Sample data for the worked examples *)

Module Sample.

Definition alice : User := mkUser 1 false.

(** [str.upper] on ASCII text; every string of the examples is ASCII. *)
Definition upper_ascii (c : ascii) : ascii :=
  let n := nat_of_ascii c in
  if (97 <=? n) && (n <=? 122) then ascii_of_nat (n - 32) else c.

Fixpoint upper (s : string) : string :=
  match s with
  | EmptyString => EmptyString
  | String c s' => String (upper_ascii c) (upper s')
  end.

(** Lower-case hexadecimal text of a draw number, ten digits wide. *)
Definition hex_digit (n : nat) : ascii :=
  if n <? 10 then ascii_of_nat (48 + n) else ascii_of_nat (87 + n).

Fixpoint hex_width (digits n : nat) : string :=
  match digits with
  | O => EmptyString
  | S d => hex_width d (n / 16) ++ String (hex_digit (n mod 16)) EmptyString
  end.

Definition token_hex (n : nat) : string := hex_width 10 (n + 2748).
Definition default_key (n : nat) : string := hex_width 40 (n + 3054).
Definition config_url (d : TOTPDevice) : string := "otpauth://totp/" ++ dev_key d.
Definition qr_png (s : string) : string := s.
Definition b64encode (s : string) : string := s.

(** A mail backend that is up. *)
Definition delivers (w : World) (m : Email) : bool := true.

(** What django_otp records for a failed and for a successful attempt. *)
Definition failed (st : OtpState) (now : nat) : OtpState :=
  mkOtp (last_t st) (drift st) (S (throttling_failure_count st)) (Some now)
        (last_used_at st).

Definition succeeded (st : OtpState) (now : nat) : OtpState :=
  mkOtp (Z.of_nat (now / 30)) (drift st) 0 None (Some now).

(** The good token of a time step of thirty seconds, standing in for the
    TOTP of the key. *)
Definition totp_at (step : nat) : string :=
  if Nat.even step then "654321" else "123456".

(** A TOTP check that takes the good token of the current time step and,
    like django_otp, no step twice; and one that takes nothing. *)
Definition totp_check (d : TOTPDevice) (t : string) (now : nat)
    : bool * option OtpState :=
  if String.eqb t (totp_at (now / 30))
     && (last_t (dev_otp d) <? Z.of_nat (now / 30))%Z
  then (true, Some (succeeded (dev_otp d) now))
  else (false, Some (failed (dev_otp d) now)).

Definition rejects_all (d : TOTPDevice) (t : string) (now : nat)
    : bool * option OtpState :=
  (false, Some (failed (dev_otp d) now)).

Definition empty : World := mkWorld [alice] [] [] 0 0 0 100 [].

(** Alice has enrolled (device 0, unconfirmed) and holds two backup codes. *)
Definition pending : World :=
  mkWorld [alice]
          [new_device 0 1 "00000000000000000000000000000000cafe"]
          [mkCode 0 1 "0000000ABC" false 90 None;
           mkCode 1 1 "0000000ABD" false 90 None]
          1 2 3 100 [].

(** Alice has confirmed her device, at time 60. *)
Definition enabled : World :=
  mkWorld [mkUser 1 true]
          [mkDevice 0 1 "default" "00000000000000000000000000000000cafe" true
                    (succeeded otp_defaults 60)]
          [mkCode 0 1 "0000000ABC" false 90 None;
           mkCode 1 1 "0000000ABD" true 90 (Some 95)]
          1 2 3 100 [].

(** A run through the service and the views. *)
Definition sample_calls : list Call :=
  [call_verify_backup_code alice "0000000abc";
   post_verify (mkUser 1 true) "123456";
   call_generate_backup_codes alice 3;
   post_disable (mkUser 1 true);
   post_enable alice].

(** The same with time passing and an overlapping request's UPDATE. *)
Definition sample_events : list Event :=
  [a_call (call_verify_backup_code alice "0000000abc");
   time_passes 40;
   a_call (post_verify (mkUser 1 true) "654321");
   late_update (mkCode 0 1 "0000000ABC" false 90 None);
   a_call (call_generate_backup_codes alice 3);
   time_passes 5;
   a_call (post_disable (mkUser 1 true));
   a_call (post_enable alice)].

End Sample.

(** * The user model: [authentication/models.py] *)

Module Accounts.

Local Open Scope list_scope.

(** A Python [str] whose characters matter, as the list of its code
    points. *)
Definition text := list nat.

(** A literal of the source; all of them are ASCII. *)
Definition lit (s : string) : text := map nat_of_ascii (list_ascii_of_string s).

(** ** [User.get_full_name] and [User.get_short_name] *)

(** The columns the two methods read. *)
Record Names := mkNames {
  email : text;
  first_name : text;
  last_name : text }.

(** [x or y] on strings: the empty string is false. *)
Definition str_or (x y : text) : text :=
  match x with
  | [] => y
  | _ => x
  end.

Definition get_short_name (u : Names) : text :=
  str_or (first_name u) (email u).

Section Unicode.

(** For a character beyond ASCII Python asks its Unicode database whether
    it is white space ([str.isspace]) and whether it is a decimal digit
    (category Nd). *)
Variable unicode_space : nat -> bool.
Variable unicode_digit : nat -> bool.

(** [str.isspace] on one character.  In ASCII: tab, line feed, vertical
    tab, form feed, carriage return, the four separators 28 to 31, and the
    space. *)
Definition is_space (c : nat) : bool :=
  if c <? 128 then ((9 <=? c) && (c <=? 13)) || ((28 <=? c) && (c <=? 32))
  else unicode_space c.

Fixpoint lstrip (s : text) : text :=
  match s with
  | [] => []
  | c :: s' => if is_space c then lstrip s' else s
  end.

Fixpoint rstrip (s : text) : text :=
  match s with
  | [] => []
  | c :: s' =>
      match rstrip s' with
      | [] => if is_space c then [] else [c]
      | r => c :: r
      end
  end.

(** [str.strip()] *)
Definition strip (s : text) : text := rstrip (lstrip s).

Definition get_full_name (u : Names) : text :=
  let full_name := first_name u ++ lit " " ++ last_name u in
  str_or (strip full_name) (email u).

Fixpoint blank (s : text) : bool :=
  match s with
  | [] => true
  | c :: s' => is_space c && blank s'
  end.

(** A string with no white space at either end. *)
Definition trimmed (s : text) : Prop := strip s = s.

(** ** [User.phone_regex] *)

(** The regular expressions the pattern is made of. *)
Inductive regex :=
| Char (c : nat)
| Digit
| Opt (r : regex)
| Cat (r1 r2 : regex)
| Repeat (r : regex) (lo hi : nat).

(** What [\d] matches in a [str] pattern compiled without [re.ASCII]. *)
Definition is_digit (c : nat) : bool :=
  if c <? 128 then (48 <=? c) && (c <=? 57) else unicode_digit c.

(** Between [lo] and [hi] rounds of [step], then [k]. *)
Fixpoint repeat_k (step : text -> (text -> bool) -> bool)
    (k : text -> bool) (lo hi : nat) (s : text) : bool :=
  match hi with
  | O => (lo =? 0) && k s
  | S hi' =>
      step s (fun s' => repeat_k step k (pred lo) hi' s') || ((lo =? 0) && k s)
  end.

(** A backtracking matcher: [accept r s k] holds when [r] matches a prefix
    of [s] whose remainder [k] accepts. *)
Fixpoint accept (r : regex) (s : text) (k : text -> bool) : bool :=
  match r with
  | Char c =>
      match s with
      | a :: s' => (a =? c) && k s'
      | [] => false
      end
  | Digit =>
      match s with
      | a :: s' => is_digit a && k s'
      | [] => false
      end
  | Opt r' => accept r' s k || k s
  | Cat r1 r2 => accept r1 s (fun s' => accept r2 s' k)
  | Repeat r' lo hi => repeat_k (accept r') k lo hi s
  end.

(** What a pattern matches: [matches r s rest] when [r] matches the part
    of [s] before [rest]. *)
Fixpoint iterate (R : text -> text -> Prop) (n : nat) (s rest : text) : Prop :=
  match n with
  | O => s = rest
  | S n' => exists mid, R s mid /\ iterate R n' mid rest
  end.

Fixpoint matches (r : regex) (s rest : text) : Prop :=
  match r with
  | Char c => s = c :: rest
  | Digit => exists a, is_digit a = true /\ s = a :: rest
  | Opt r' => matches r' s rest \/ s = rest
  | Cat r1 r2 => exists mid, matches r1 s mid /\ matches r2 mid rest
  | Repeat r' lo hi => exists n, lo <= n <= hi /\ iterate (matches r') n s rest
  end.

(** [$] without [re.MULTILINE]: the end of the string, or the line feed
    that ends it. *)
Definition at_end (s : text) : bool :=
  match s with
  | [] => true
  | [c] => c =? 10
  | _ => false
  end.

(** [\+?1?\d{9,15}], the plus sign being character 43 and the one 49. *)
Definition phone_pattern : regex :=
  Cat (Opt (Char 43)) (Cat (Opt (Char 49)) (Repeat Digit 9 15)).

(** [RegexValidator(regex=r'^\+?1?\d{9,15}$')] passes a value when
    [regex.search] finds a match; [^] pins it to the start. *)
Definition phone_regex (value : text) : bool :=
  accept phone_pattern value at_end.

Fixpoint all_digits (s : text) : bool :=
  match s with
  | [] => true
  | c :: s' => is_digit c && all_digits s'
  end.

(** The shape of an accepted phone number. *)
Definition phone_shape (value : text) : Prop :=
  exists sign one digits tail,
    value = sign ++ one ++ digits ++ tail /\
    (sign = [] \/ sign = lit "+") /\
    (one = [] \/ one = lit "1") /\
    all_digits digits = true /\
    9 <= List.length digits <= 15 /\
    (tail = [] \/ tail = [10]).

End Unicode.

(** ** [UserManager.create_user] and [UserManager.create_superuser]

    The manager only asks whether the email is empty and hands it to
    [normalize_email]; here a string is a value of [string]. *)

(** The values a keyword argument can carry here. *)
Inductive pyval :=
| PyNone
| PyBool (b : bool)
| PyInt (z : Z)
| PyStr (s : string).

(** [**extra_fields]: keyword arguments in the order given. *)
Definition kwargs := list (string * pyval).

Fixpoint lookup_kw (k : string) (d : kwargs) : option pyval :=
  match d with
  | [] => None
  | (k', v) :: d' => if String.eqb k' k then Some v else lookup_kw k d'
  end.

(** [d.get(k)] *)
Definition dict_get (k : string) (d : kwargs) : pyval :=
  match lookup_kw k d with
  | Some v => v
  | None => PyNone
  end.

(** [d.setdefault(k, v)] *)
Definition setdefault (k : string) (v : pyval) (d : kwargs) : kwargs :=
  match lookup_kw k d with
  | Some _ => d
  | None => d ++ [(k, v)]
  end.

(** [extra_fields] after the four [setdefault] calls. *)
Definition with_defaults (extra_fields : kwargs) : kwargs :=
  setdefault "is_email_verified" (PyBool true)
    (setdefault "is_active" (PyBool true)
       (setdefault "is_superuser" (PyBool true)
          (setdefault "is_staff" (PyBool true) extra_fields))).

(** [x is not True] *)
Definition is_not_True (v : pyval) : bool :=
  match v with
  | PyBool true => false
  | _ => true
  end.

(** [not email] for an argument that is [None] or a string. *)
Definition email_missing (e : option string) : bool :=
  match e with
  | None => true
  | Some EmptyString => true
  | Some _ => false
  end.

(** The instance [create_user] builds and saves: the normalised email, the
    password handed to [set_password], and the other keyword arguments.
    Whether those name columns of the model, and whether the row can be
    inserted, is settled by the ORM afterwards and not decided here. *)
Record NewUser := mkNewUser {
  new_email : string;
  new_password : option string;
  new_fields : kwargs }.

Inductive created :=
| ValueError (message : string)
| Saved (u : NewUser).

Section Manager.

(** [BaseUserManager.normalize_email] of Django. *)
Variable normalize_email : string -> string.

Definition create_user (e : option string) (password : option string)
    (extra_fields : kwargs) : created :=
  if email_missing e then ValueError "The Email field must be set"
  else
    let e' := normalize_email (match e with Some s => s | None => EmptyString end) in
    Saved (mkNewUser e' password extra_fields).

Definition create_superuser (e : option string) (password : option string)
    (extra_fields : kwargs) : created :=
  let extra_fields := setdefault "is_staff" (PyBool true) extra_fields in
  let extra_fields := setdefault "is_superuser" (PyBool true) extra_fields in
  let extra_fields := setdefault "is_active" (PyBool true) extra_fields in
  let extra_fields := setdefault "is_email_verified" (PyBool true) extra_fields in
  if is_not_True (dict_get "is_staff" extra_fields) then
    ValueError "Superuser must have is_staff=True."
  else if is_not_True (dict_get "is_superuser" extra_fields) then
    ValueError "Superuser must have is_superuser=True."
  else create_user e password extra_fields.

End Manager.

End Accounts.


(** * Login, logout and password change: [authentication/views.py] *)

Module Sessions.

(** [rest_framework.authtoken.models.Token]: [key] is the primary key and
    [user] a one-to-one field. *)
Record Token := mkToken {
  key : string;
  token_user : nat }.

(** The 2FA world together with the token table, the user the session of
    the current client is logged in as, and the password column. *)
Record Site := mkSite {
  world : World;
  tokens : list Token;
  session : option nat;
  passwords : list (nat * string) }.

Definition token_of (uid : nat) (t : Token) : bool := token_user t =? uid.

Inductive LoginBody :=
| Requires2FA (message temp_token : string)
| LoggedIn (user_data token message : string).

Section Views.

(** [Token.generate_key], by draw number. *)
Variable generate_key : nat -> string.
(** [make_password], which [set_password] stores. *)
Variable make_password : string -> string.
(** [UserSerializer(user).data] *)
Variable user_data : User -> string.

(** [Token.objects.create(user=user)]: a key that exists, or a second
    token for the user, violates a unique constraint. *)
Definition token_create (uid : nat) (s : Site) : outcome Token * Site :=
  let k := generate_key (draws (world s)) in
  let w := set_draws (S (draws (world s))) (world s) in
  if existsb (fun t => String.eqb (key t) k) (tokens s)
     || existsb (token_of uid) (tokens s)
  then (Raise IntegrityError, mkSite w (tokens s) (session s) (passwords s))
  else (Return (mkToken k uid),
        mkSite w (tokens s ++ [mkToken k uid]) (session s) (passwords s)).

(** [Token.objects.get_or_create(user=user)] *)
Definition token_get_or_create (uid : nat) (s : Site) : outcome Token * Site :=
  match objects_get (token_of uid) (tokens s) with
  | Found t => (Return t, s)
  | Multiple => (Raise MultipleObjectsReturned, s)
  | DoesNotExist => token_create uid s
  end.

(** [django.contrib.auth.login] and [logout], as far as the session goes. *)
Definition login (uid : nat) (s : Site) : Site :=
  mkSite (world s) (tokens s) (Some uid) (passwords s).

Definition logout (s : Site) : Site :=
  mkSite (world s) (tokens s) None (passwords s).

(** [UserLoginView.post], from the validated user on. *)
Definition UserLoginView_post (user : User) (s : Site)
    : outcome (nat * LoginBody) * Site :=
  if is_2fa_enabled user then
    match token_get_or_create (user_id user) s with
    | (Return t, s1) =>
        (Return (200, Requires2FA "Please enter your 2FA code." (key t)), s1)
    | (Raise e, s1) => (Raise e, s1)
    end
  else
    match token_get_or_create (user_id user) (login (user_id user) s) with
    | (Return t, s1) =>
        (Return (200, LoggedIn (user_data user) (key t) "Login successful."), s1)
    | (Raise e, s1) => (Raise e, s1)
    end.

(** [request.user.auth_token.delete()] inside [try: ... except: pass]: the
    token is deleted by primary key when the accessor finds it, and any
    exception is dropped. *)
Definition delete_auth_token (uid : nat) (s : Site) : Site :=
  match objects_get (token_of uid) (tokens s) with
  | Found t =>
      mkSite (world s)
             (objects_delete (fun x => String.eqb (key x) (key t)) (tokens s))
             (session s) (passwords s)
  | _ => s
  end.

(** [UserLogoutView.post] *)
Definition UserLogoutView_post (user : User) (s : Site) : (nat * string) * Site :=
  ((200, "Logout successful."), logout (delete_auth_token (user_id user) s)).

(** [user.set_password(raw); user.save()] *)
Definition set_password_and_save (user : User) (raw : string) (s : Site) : Site :=
  mkSite (snd (save_user user (world s))) (tokens s) (session s)
         (save_row fst (user_id user, make_password raw) (passwords s)).

(** [PasswordChangeView.post], from the validated new password on. *)
Definition PasswordChangeView_post (user : User) (new_password : string) (s : Site)
    : outcome (nat * (string * string)) * Site :=
  let s1 := set_password_and_save user new_password s in
  let s2 := mkSite (world s1) (objects_delete (token_of (user_id user)) (tokens s1))
                   (session s1) (passwords s1) in
  match token_create (user_id user) s2 with
  | (Return t, s3) =>
      (Return (200, ("Password changed successfully.", key t)), s3)
  | (Raise e, s3) => (Raise e, s3)
  end.

End Views.

End Sessions.


(** ** More sample data *)

Module MoreSample.

(** User 1 has a confirmed device and the flag set, user 2 has enrolled
    and not confirmed yet; each holds one backup code. *)
Definition two_users : World :=
  mkWorld [mkUser 1 true; mkUser 2 false]
          [mkDevice 0 1 "default" "00000000000000000000000000000000cafe" true
                    (Sample.succeeded otp_defaults 60);
           new_device 1 2 "00000000000000000000000000000000beef"]
          [mkCode 0 1 "0000000ABC" false 90 None;
           mkCode 1 2 "0000000ABD" false 90 None]
          2 2 3 100 [].

Definition some_requests : list Request :=
  [enable_request 2; verify_request 2 "123456"; disable_request 1;
   regenerate_request 2; verify_request 1 "0000000abc"; enable_request 1].

(** A random source that always draws the same value. *)
Definition stuck (n : nat) : string := "aaaaaaaaaa".

(** A mail backend that is down. *)
Definition mail_down (w : World) (m : Email) : bool := false.

(** White space and decimal digits beyond ASCII, as far as the examples
    go: the next line mark and the no-break space; the Arabic-Indic and
    the Devanagari digits. *)
Definition unicode_space (c : nat) : bool := (c =? 133) || (c =? 160).

Definition unicode_digit (c : nat) : bool :=
  ((1632 <=? c) && (c <=? 1641)) || ((2406 <=? c) && (c <=? 2415)).

Definition ann : Accounts.Names :=
  Accounts.mkNames (Accounts.lit "ann@example.org") (Accounts.lit "Ann")
                   (Accounts.lit "Lee").

Definition key_of_draw (n : nat) : string := Sample.hex_width 40 (n + 4011).
Definition hashed (raw : string) : string := ("pbkdf2$" ++ raw)%string.
Definition shown (u : User) : string := Sample.hex_width 4 (user_id u).

(** Nobody is logged in and user 1 already has a token. *)
Definition site : Sessions.Site :=
  Sessions.mkSite two_users
                  [Sessions.mkToken "000000000000000000000000000000000000feed" 1]
                  None [].

End MoreSample.


(** * Proofs *)

(** ** Lists and lookups *)

Ltac unfold_m := unfold bind, ret, raise, gets, modify.

Lemma objects_get_none {A} (p : A -> bool) (tbl : list A) :
  filter p tbl = [] -> objects_get p tbl = DoesNotExist.
Proof. unfold objects_get. intros ->. reflexivity. Qed.

Lemma objects_get_one {A} (p : A -> bool) (tbl : list A) (x : A) :
  filter p tbl = [x] -> objects_get p tbl = Found x.
Proof. unfold objects_get. intros ->. reflexivity. Qed.

Lemma objects_get_found {A} (p : A -> bool) (tbl : list A) (x : A) :
  objects_get p tbl = Found x -> filter p tbl = [x].
Proof.
  unfold objects_get. destruct (filter p tbl) as [|y [|z l]]; try discriminate.
  intros H. injection H as ->. reflexivity.
Qed.

Lemma objects_get_missing {A} (p : A -> bool) (tbl : list A) :
  objects_get p tbl = DoesNotExist -> filter p tbl = [].
Proof.
  unfold objects_get. destruct (filter p tbl) as [|y [|z l]]; try discriminate.
  reflexivity.
Qed.

Lemma filter_nil_iff {A} (p : A -> bool) (l : list A) :
  filter p l = [] <-> (forall x, In x l -> p x = false).
Proof.
  induction l as [|a l IH]; simpl.
  - split; [intros _ x [] | reflexivity].
  - destruct (p a) eqn:E.
    + split; [discriminate|]. intros H. rewrite (H a) in E by auto. discriminate.
    + rewrite IH. split.
      * intros H x [<-|Hx]; auto.
      * intros H x Hx. auto.
Qed.

Lemma filter_weaken_nil {A} (p q : A -> bool) (l : list A) :
  (forall x, q x = true -> p x = true) -> filter p l = [] -> filter q l = [].
Proof.
  intros Hpq Hp. apply filter_nil_iff. intros x Hx.
  destruct (q x) eqn:E; [|reflexivity].
  rewrite filter_nil_iff in Hp. specialize (Hpq x E).
  rewrite (Hp x Hx) in Hpq. discriminate.
Qed.

Lemma filter_delete_same {A} (p : A -> bool) (l : list A) :
  filter p (objects_delete p l) = [].
Proof.
  apply filter_nil_iff. intros x Hx. unfold objects_delete in Hx.
  apply filter_In in Hx. destruct Hx as [_ Hx]. now destruct (p x).
Qed.

Lemma find_save_row {A} (key : A -> nat) (x : A) (tbl : list A) :
  find (fun y => key y =? key x) (save_row key x tbl) = Some x.
Proof.
  unfold save_row. destruct (existsb _ tbl) eqn:E.
  - induction tbl as [|a l IH]; [discriminate|]. simpl in *.
    destruct (key a =? key x) eqn:K.
    + rewrite Nat.eqb_refl. reflexivity.
    + rewrite K. apply IH. exact E.
  - induction tbl as [|a l IH]; simpl in *.
    + rewrite Nat.eqb_refl. reflexivity.
    + apply orb_false_iff in E. destruct E as [K E]. rewrite K. now apply IH.
Qed.

(** A saved row replaces every row of its key; what matched a filter only
    through the old row matches no more when the new row fails it. *)
Lemma filter_save_row_nil {A} (key : A -> nat) (p : A -> bool) (x x' : A)
    (tbl : list A) :
  filter p tbl = [x] -> key x' = key x -> p x' = false ->
  filter p (save_row key x' tbl) = [].
Proof.
  intros Hf Hk Hp.
  assert (Hin : In x tbl).
  { assert (In x (filter p tbl)) as H by (rewrite Hf; left; reflexivity).
    apply filter_In in H. tauto. }
  unfold save_row.
  assert (E : existsb (fun y => key y =? key x') tbl = true).
  { apply existsb_exists. exists x. split; [exact Hin|]. rewrite Hk. apply Nat.eqb_refl. }
  rewrite E. apply filter_nil_iff. intros y Hy.
  apply in_map_iff in Hy. destruct Hy as [z [Hz Hzin]].
  destruct (key z =? key x') eqn:K.
  - subst y. exact Hp.
  - subst y. destruct (p z) eqn:Pz; [|reflexivity].
    assert (In z (filter p tbl)) as H by (apply filter_In; tauto).
    rewrite Hf in H. destruct H as [<-|[]].
    rewrite Hk, Nat.eqb_refl in K. discriminate.
Qed.

(** ** Saving rows *)

Lemma in_save_row {A} (key : A -> nat) (x y : A) (tbl : list A) :
  In y (save_row key x tbl) -> y = x \/ In y tbl.
Proof.
  unfold save_row. destruct (existsb _ tbl).
  - intros H. apply in_map_iff in H. destruct H as [z [Hz Hin]].
    destruct (key z =? key x); subst; auto.
  - intros H. apply in_app_or in H. destruct H as [H|[H|[]]]; auto.
Qed.

Lemma filter_save_row_one {A} (key : A -> nat) (p : A -> bool) (x x' : A)
    (tbl : list A) :
  NoDup (map key tbl) -> filter p tbl = [x] -> key x' = key x -> p x' = true ->
  filter p (save_row key x' tbl) = [x'].
Proof.
  intros Hnd Hf Hk Hp.
  assert (Hin : In x tbl /\ p x = true).
  { apply filter_In. rewrite Hf. now left. }
  destruct Hin as [Hin Hpx]. unfold save_row.
  assert (E : existsb (fun y => key y =? key x') tbl = true).
  { apply existsb_exists. exists x. split; [exact Hin|]. rewrite Hk. apply Nat.eqb_refl. }
  rewrite E. rewrite Hk. clear E.
  induction tbl as [|a l IH]; [destruct Hin|].
  simpl in Hnd. inversion Hnd as [|k ks Hnot Hnd']; subst. simpl.
  destruct (key a =? key x) eqn:K.
  - apply Nat.eqb_eq in K.
    assert (a = x).
    { destruct Hin as [Ha|Hl]; [exact Ha|].
      exfalso. apply Hnot. rewrite K. now apply in_map. }
    subst a. rewrite Hp. simpl in Hf. rewrite Hpx in Hf.
    injection Hf as Hf. f_equal.
    assert (M : map (fun y => if key y =? key x then x' else y) l = l).
    { clear -Hnot. induction l as [|b l IH]; simpl; [reflexivity|].
      destruct (key b =? key x) eqn:Kb.
      - exfalso. apply Hnot. left. now apply Nat.eqb_eq.
      - f_equal. apply IH. intros H. apply Hnot. now right. }
    rewrite M. exact Hf.
  - simpl in Hf. destruct (p a) eqn:Pa.
    + injection Hf as -> _. rewrite Nat.eqb_refl in K. discriminate.
    + destruct Hin as [->|Hl]; [rewrite Nat.eqb_refl in K; discriminate|].
      now apply IH.
Qed.

Lemma map_key_save_row {A} (key : A -> nat) (x : A) (tbl : list A) :
  existsb (fun y => key y =? key x) tbl = true ->
  map key (save_row key x tbl) = map key tbl.
Proof.
  intros E. unfold save_row. rewrite E, map_map. apply map_ext. intros y.
  destruct (key y =? key x) eqn:K; [|reflexivity].
  symmetry. now apply Nat.eqb_eq.
Qed.

Lemma filter_save_row_other {A} (key : A -> nat) (q : A -> bool) (x x' : A)
    (tbl : list A) :
  NoDup (map key tbl) -> In x tbl -> key x' = key x ->
  q x = false -> q x' = false ->
  filter q (save_row key x' tbl) = filter q tbl.
Proof.
  intros Hnd Hin Hk Hq Hq'. unfold save_row.
  assert (E : existsb (fun y => key y =? key x') tbl = true).
  { apply existsb_exists. exists x. split; [exact Hin|]. rewrite Hk. apply Nat.eqb_refl. }
  rewrite E, Hk. clear E.
  induction tbl as [|a l IH]; [reflexivity|].
  simpl in Hnd. inversion Hnd as [|k ks Hnot Hnd']; subst. simpl.
  destruct (key a =? key x) eqn:K.
  - apply Nat.eqb_eq in K.
    assert (a = x).
    { destruct Hin as [Ha|Hl]; [exact Ha|].
      exfalso. apply Hnot. rewrite K. now apply in_map. }
    subst a. rewrite Hq, Hq'. f_equal.
    clear -Hnot. induction l as [|b l IH]; simpl; [reflexivity|].
    destruct (key b =? key x) eqn:Kb.
    + exfalso. apply Hnot. left. now apply Nat.eqb_eq.
    + rewrite IH; [reflexivity|]. intros H. apply Hnot. now right.
  - destruct Hin as [->|Hl]; [rewrite Nat.eqb_refl in K; discriminate|].
    rewrite (IH Hnd' Hl). reflexivity.
Qed.

Lemma found_device_owner (uid : nat) (name : string) (ds : list TOTPDevice)
    (d : TOTPDevice) :
  filter (by_user_name uid name) ds = [d] ->
  In d ds /\ dev_user d = uid /\ by_user_name uid name d = true.
Proof.
  intros H.
  assert (In d (filter (by_user_name uid name) ds)) as I by (rewrite H; now left).
  apply filter_In in I. destruct I as [I P]. split; [exact I|]. split; [|exact P].
  unfold by_user_name in P. apply andb_true_iff in P.
  now apply Nat.eqb_eq.
Qed.

Lemma by_user_name_other (uid other : nat) (name : string) (d : TOTPDevice) :
  dev_user d = uid -> other <> uid -> by_user_name other name d = false.
Proof.
  intros Hd Hne. unfold by_user_name. rewrite Hd.
  apply Nat.eqb_neq in Hne. rewrite Nat.eqb_sym in Hne. rewrite Nat.eqb_sym.
  rewrite Nat.eqb_sym, Hne. reflexivity.
Qed.

Lemma unique_key_row {A} (key : A -> nat) (l : list A) (a b : A) :
  NoDup (map key l) -> In a l -> In b l -> key a = key b -> a = b.
Proof.
  induction l as [|x l IH]; simpl; [intros _ []|].
  intros Hnd Ha Hb Hk. inversion Hnd as [|k ks Hnot Hnd']; subst.
  destruct Ha as [->|Ha], Hb as [->|Hb]; auto.
  - exfalso. apply Hnot. rewrite Hk. now apply in_map.
  - exfalso. apply Hnot. rewrite <- Hk. now apply in_map.
Qed.

(** ** Unused codes and the lookup of [_verify_backup_code] *)

Lemma by_user_code_used_unused (uid : nat) (c : string) (b : TwoFactorBackupCode) :
  by_user_code_used uid c false b = true <->
  (code_of uid b && negb (is_used b) = true /\ code b = c).
Proof.
  unfold by_user_code_used, code_of.
  destruct (bc_user b =? uid), (is_used b); simpl;
    rewrite ?andb_true_r, ?andb_false_r; try rewrite String.eqb_eq;
    intuition discriminate.
Qed.

Lemma not_unused_filter_nil (uid : nat) (c : string) (w : World) :
  ~ In c (unused_codes uid w) ->
  filter (by_user_code_used uid c false) (backup_codes w) = [].
Proof.
  intros H. apply filter_nil_iff. intros b Hb.
  destruct (by_user_code_used uid c false b) eqn:E; [|reflexivity].
  exfalso. apply H. apply by_user_code_used_unused in E. destruct E as [E1 E2].
  unfold unused_codes. apply in_map_iff. exists b. split; [exact E2|].
  apply filter_In. tauto.
Qed.

Section Properties.

#[local] Set Default Proof Using "Type".

Variable upper : string -> string.
Variable verify_token : TOTPDevice -> string -> nat -> bool * option OtpState.
Variable default_key : nat -> string.
Variable token_hex : nat -> string.
Variable config_url : TOTPDevice -> string.
Variable qr_png : string -> string.
Variable delivers : World -> Email -> bool.
Variable b64encode : string -> string.

Local Abbreviation verify := (verify_2fa_token upper verify_token).
Local Abbreviation generate := (generate_backup_codes upper token_hex).
Local Abbreviation enable :=
  (enable_2fa upper default_key token_hex config_url qr_png).
Local Abbreviation run_call :=
  (exec upper verify_token default_key token_hex config_url qr_png delivers
        b64encode).
Local Abbreviation occur :=
  (happen upper verify_token default_key token_hex config_url qr_png delivers
          b64encode).

(** ** [verify_2fa_token], branch by branch *)

Lemma device_verify_token_run (d : TOTPDevice) (token : string) (w : World) :
  device_verify_token verify_token d token w =
  (Return (fst (verify_token d token (clock w)),
           checked verify_token d token (clock w)),
   after_check verify_token d token w).
Proof.
  unfold device_verify_token, checked, after_check. unfold_m.
  destruct (snd (verify_token d token (clock w))); reflexivity.
Qed.

Lemma checked_columns (d : TOTPDevice) (token : string) (now : nat) :
  service_columns (checked verify_token d token now) = service_columns d.
Proof. unfold checked. destruct (snd _); reflexivity. Qed.

Lemma checked_confirmed (d : TOTPDevice) (token : string) (now : nat) :
  dev_confirmed (checked verify_token d token now) = dev_confirmed d.
Proof. unfold checked. destruct (snd _); reflexivity. Qed.

(** [verify_token] writes the device table only. *)
Lemma after_check_keeps (d : TOTPDevice) (token : string) (w : World) :
  let w1 := after_check verify_token d token w in
  users w1 = users w /\ backup_codes w1 = backup_codes w /\
  outbox w1 = outbox w /\ next_device_id w1 = next_device_id w /\
  next_code_id w1 = next_code_id w /\ draws w1 = draws w /\ clock w1 = clock w.
Proof. unfold after_check. destruct (snd _); repeat split. Qed.

Lemma verify_unfold (user : User) (token : string) (w : World) :
  verify user token w =
  match objects_get (by_user_name (user_id user) "default") (devices w) with
  | DoesNotExist => (Return false, w)
  | Found d =>
      let w1 := after_check verify_token d token w in
      if fst (verify_token d token (clock w)) then
        if dev_confirmed d then (Return true, w1)
        else (Return true,
              set_users (save_row user_id (mkUser (user_id user) true) (users w1))
                (set_devices
                   (save_row dev_id
                      (set_confirmed true (checked verify_token d token (clock w)))
                      (devices w1)) w1))
      else _verify_backup_code upper user token w1
  | Multiple => (Raise MultipleObjectsReturned, w)
  end.
Proof.
  unfold verify_2fa_token. unfold bind at 1. unfold gets at 1.
  destruct (objects_get _ (devices w)) as [|d|]; try reflexivity.
  unfold bind at 1. rewrite device_verify_token_run. cbn [fst snd].
  rewrite checked_confirmed.
  destruct (fst (verify_token d token (clock w))); [|reflexivity].
  destruct (dev_confirmed d); reflexivity.
Qed.

(** ** Verification without a credential *)

Lemma no_device_no_default (uid : nat) (ds : list TOTPDevice) :
  filter (device_of uid) ds = [] ->
  objects_get (by_user_name uid "default") ds = DoesNotExist.
Proof.
  intros H. apply objects_get_none.
  apply (filter_weaken_nil (device_of uid)); [|exact H].
  intros d Hd. unfold by_user_name in Hd. unfold device_of.
  apply andb_true_iff in Hd. exact (proj1 Hd).
Qed.

(** The [except TOTPDevice.DoesNotExist] branch. *)
Lemma verify_device_missing (user : User) (token : string) (w : World) :
  objects_get (by_user_name (user_id user) "default") (devices w) = DoesNotExist ->
  verify user token w = (Return false, w).
Proof.
  intros H. unfold verify_2fa_token. unfold_m. rewrite H. reflexivity.
Qed.

(** C10.  A user without any TOTP device: [verify_2fa_token] returns
    [False] for every token, raises nothing and leaves the world as it
    was. *)
Theorem verify_2fa_token_without_device :
  forall (user : User) (token : string) (w : World),
    filter (device_of (user_id user)) (devices w) = [] ->
    verify user token w = (Return false, w).
Proof.
  intros user token w H.
  apply verify_device_missing, no_device_no_default, H.
Qed.

(** ** Disabling *)

Lemma disable_2fa_world (user : User) (w : World) :
  disable_2fa user w =
  (Return tt,
   mkWorld (save_row user_id (mkUser (user_id user) false) (users w))
           (objects_delete (device_of (user_id user)) (devices w))
           (objects_delete (code_of (user_id user)) (backup_codes w))
           (next_device_id w) (next_code_id w) (draws w) (clock w) (outbox w)).
Proof. reflexivity. Qed.

(** C7.  [disable_2fa] returns, and in the world it leaves the user has no
    device row, no backup-code row and a stored flag that is false; any
    later [verify_2fa_token] for that user, whatever the token, returns
    [False] and changes nothing. *)
Theorem disable_2fa_then_verify_fails :
  forall (user user' : User) (token : string) (w : World),
    user_id user' = user_id user ->
    let w' := snd (disable_2fa user w) in
    fst (disable_2fa user w) = Return tt /\
    filter (device_of (user_id user)) (devices w') = [] /\
    filter (code_of (user_id user)) (backup_codes w') = [] /\
    request_user (user_id user) w' = Some (mkUser (user_id user) false) /\
    verify user' token w' = (Return false, w').
Proof.
  intros user user' token w Hid. rewrite disable_2fa_world. simpl.
  assert (Hd : filter (device_of (user_id user))
                 (objects_delete (device_of (user_id user)) (devices w)) = [])
    by apply filter_delete_same.
  repeat split.
  - exact Hd.
  - apply filter_delete_same.
  - unfold request_user. simpl.
    apply (find_save_row user_id (mkUser (user_id user) false)).
  - apply verify_device_missing, no_device_no_default.
    simpl. rewrite Hid. exact Hd.
Qed.

(** ** Consuming a backup code *)

Lemma verify_backup_code_found (user : User) (c : string) (w : World)
    (b : TwoFactorBackupCode) :
  objects_get (by_user_code_used (user_id user) (upper c) false) (backup_codes w)
    = Found b ->
  _verify_backup_code upper user c w = (Return true, snd (mark_as_used b w)).
Proof. intros H. unfold _verify_backup_code. unfold_m. rewrite H. reflexivity. Qed.

Lemma verify_backup_code_true (user : User) (c : string) (w w1 : World) :
  _verify_backup_code upper user c w = (Return true, w1) ->
  exists b,
    filter (by_user_code_used (user_id user) (upper c) false) (backup_codes w) = [b]
    /\ w1 = snd (mark_as_used b w).
Proof.
  unfold _verify_backup_code. unfold_m.
  destruct (objects_get _ (backup_codes w)) as [|b|] eqn:E; try discriminate.
  intros H. exists b. split; [now apply objects_get_found|].
  injection H as <-. reflexivity.
Qed.

Lemma marked_row_not_unused (uid : nat) (c : string) (b : TwoFactorBackupCode)
    (now : nat) :
  by_user_code_used uid c false
    (mkCode (bc_id b) (bc_user b) (code b) true (created_at b) (Some now)) = false.
Proof. unfold by_user_code_used. simpl. apply andb_false_r. Qed.

Lemma consumed_code_gone (uid : nat) (c : string) (b : TwoFactorBackupCode)
    (w : World) :
  filter (by_user_code_used uid c false) (backup_codes w) = [b] ->
  filter (by_user_code_used uid c false) (backup_codes (snd (mark_as_used b w))) = [].
Proof.
  intros H. simpl.
  apply (filter_save_row_nil bc_id _ b); [exact H|reflexivity|].
  apply marked_row_not_unused.
Qed.

(** C8.  [_verify_backup_code] with no unused code of the user equal to the
    upper-cased submission returns [False] and leaves the world unchanged;
    once a call has returned [True], the next call with the same code (or
    any submission that [str.upper] maps to the same text) returns [False]
    and leaves the world unchanged; and a call does return [True], marking
    the row, when exactly one unused row of the user carries the code. *)
Theorem verify_backup_code_at_most_once :
  forall (user : User) (c : string) (w : World),
    (~ In (upper c) (unused_codes (user_id user) w) ->
     _verify_backup_code upper user c w = (Return false, w)) /\
    (forall w1,
       _verify_backup_code upper user c w = (Return true, w1) ->
       forall c', upper c' = upper c ->
         _verify_backup_code upper user c' w1 = (Return false, w1)) /\
    (forall b,
       objects_get (by_user_code_used (user_id user) (upper c) false)
                   (backup_codes w) = Found b ->
       _verify_backup_code upper user c w = (Return true, snd (mark_as_used b w))).
Proof.
  intros user c w. split; [|split].
  - intros H. unfold _verify_backup_code. unfold_m.
    rewrite (objects_get_none _ _ (not_unused_filter_nil _ _ _ H)). reflexivity.
  - intros w1 H c' Hc'. apply verify_backup_code_true in H.
    destruct H as [b [Hf ->]].
    unfold _verify_backup_code at 1. unfold_m. rewrite Hc'.
    rewrite (objects_get_none _ _ (consumed_code_gone _ _ _ _ Hf)). reflexivity.
  - intros b Hb. now apply verify_backup_code_found.
Qed.

(** ** The views *)

Lemma verify_backup_code_keeps_outbox (user : User) (c : string) (w : World) :
  outbox (snd (_verify_backup_code upper user c w)) = outbox w.
Proof.
  unfold _verify_backup_code. unfold_m.
  destruct (objects_get _ (backup_codes w)); reflexivity.
Qed.

Lemma verify_keeps_outbox (user : User) (token : string) (w : World) :
  outbox (snd (verify user token w)) = outbox w.
Proof.
  rewrite verify_unfold.
  destruct (objects_get _ (devices w)) as [|d|]; try reflexivity.
  destruct (after_check_keeps d token w) as [_ [_ [Ho _]]]. cbv zeta.
  destruct (fst (verify_token d token (clock w))).
  - destruct (dev_confirmed d); exact Ho.
  - now rewrite verify_backup_code_keeps_outbox.
Qed.

(** [Verify2FAView.post] sends the 2FA-enabled mail exactly when
    [verify_2fa_token] returned [True] and the mail went through: one mail
    per such request, none when the call returned [False] or raised.
    Whether the call confirmed a device plays no part. *)
Lemma Verify2FAView_post_mails (user : User) (token : string) (w : World) :
  outbox (snd (Verify2FAView_post upper verify_token delivers user token w)) =
  (outbox w ++
     match fst (verify user token w) with
     | Return true =>
         if delivers (snd (verify user token w)) (mail_2fa_enabled user)
         then [mail_2fa_enabled user] else []
     | _ => []
     end)%list.
Proof.
  unfold Verify2FAView_post, bind.
  pose proof (verify_keeps_outbox user token w) as Hout.
  destruct (verify user token w) as [[[|]|e] w1]; simpl in Hout |- *.
  - unfold send_2fa_enabled_email. unfold_m.
    destruct (delivers w1 (mail_2fa_enabled user)); simpl;
      now rewrite Hout, ?app_nil_r.
  - now rewrite Hout, app_nil_r.
  - now rewrite Hout, app_nil_r.
Qed.

(** C5, as the code has it.  [Disable2FAView.post] is gated on the flag
    [is_2fa_enabled] alone: with the flag set it runs [disable_2fa] and
    answers 200, with the flag clear it answers 400 and touches nothing,
    whether or not an unconfirmed device exists.  [disable_2fa] itself has
    no precondition and always returns. *)
Theorem Disable2FAView_post_gated_on_flag :
  forall (user : User) (w : World),
    fst (disable_2fa user w) = Return tt /\
    Disable2FAView_post user w =
      (if is_2fa_enabled user
       then (Return (mkResponse 200 (Message "2FA disabled successfully.")),
             snd (disable_2fa user w))
       else (Return (mkResponse 400 (Message "2FA is not enabled.")), w)).
Proof.
  intros user w. split; [reflexivity|].
  unfold Disable2FAView_post. destruct (is_2fa_enabled user); reflexivity.
Qed.

(** ** Backup code accepted while the device is unconfirmed *)

(** When the TOTP check fails, what is left of [verify_2fa_token] is the
    backup-code lookup. *)
Lemma verify_by_backup_code (user : User) (token : string) (w : World)
    (d : TOTPDevice) :
  objects_get (by_user_name (user_id user) "default") (devices w) = Found d ->
  fst (verify_token d token (clock w)) = false ->
  verify user token w
  = _verify_backup_code upper user token (after_check verify_token d token w).
Proof. intros Hd Ht. rewrite verify_unfold, Hd. cbv zeta. now rewrite Ht. Qed.

(** ** The backup-code table under every call *)

Lemma evolves_refl (w : World) : evolves w w.
Proof. unfold evolves. auto. Qed.

Lemma evolves_trans (w1 w2 w3 : World) :
  evolves w1 w2 -> evolves w2 w3 -> evolves w1 w3.
Proof.
  intros [C12 [N12 R12]] [C23 [N23 R23]]. repeat split.
  - auto.
  - lia.
  - intros b Hb. destruct (R23 b Hb) as [U|[K|I]].
    + now left.
    + right; left. lia.
    + apply R12. exact I.
Qed.

Lemma evolves_same_table (w w' : World) :
  backup_codes w' = backup_codes w -> next_code_id w' = next_code_id w ->
  evolves w w'.
Proof.
  intros Ht Hn. unfold evolves, codes_consistent. rewrite Ht, Hn. auto.
Qed.

Lemma steady_ret {A} (a : A) : steady (ret a).
Proof. intros w. apply evolves_refl. Qed.

Lemma steady_raise {A} (e : exn) : steady (@raise A e).
Proof. intros w. apply evolves_refl. Qed.

Lemma steady_gets {A} (f : World -> A) : steady (gets f).
Proof. intros w. apply evolves_refl. Qed.

Lemma steady_bind {A B} (m : M A) (k : A -> M B) :
  steady m -> (forall a, steady (k a)) -> steady (bind m k).
Proof.
  intros Hm Hk w. unfold bind. specialize (Hm w).
  destruct (m w) as [[a|e] w1]; simpl in Hm |- *.
  - apply (evolves_trans _ w1); [exact Hm|apply Hk].
  - exact Hm.
Qed.

Lemma steady_modify_same (f : World -> World) :
  (forall w, backup_codes (f w) = backup_codes w) ->
  (forall w, next_code_id (f w) = next_code_id w) ->
  steady (modify f).
Proof. intros Ht Hn w. apply evolves_same_table; simpl; auto. Qed.

Lemma steady_delete_codes (p : TwoFactorBackupCode -> bool) :
  steady (modify (fun w => set_backup_codes (objects_delete p (backup_codes w)) w)).
Proof.
  intros w. unfold evolves, codes_consistent, objects_delete. simpl.
  repeat split.
  - intros H. apply Forall_forall. intros b Hb. apply filter_In in Hb.
    rewrite Forall_forall in H. apply H. exact (proj1 Hb).
  - lia.
  - intros b Hb. apply filter_In in Hb. right; right; exact (proj1 Hb).
Qed.

Lemma steady_mark_as_used (b : TwoFactorBackupCode) : steady (mark_as_used b).
Proof.
  intros w. unfold evolves, codes_consistent. simpl. repeat split.
  - intros H. apply Forall_forall. intros x Hx.
    apply in_save_row in Hx. destruct Hx as [->|Hx].
    + unfold used_at_iff_is_used. simpl. split; [reflexivity|discriminate].
    + rewrite Forall_forall in H. auto.
  - lia.
  - intros x Hx. apply in_save_row in Hx. destruct Hx as [->|Hx]; auto.
Qed.

Lemma steady_create_backup_code (uid : nat) (c : string) :
  steady (create_backup_code uid c).
Proof.
  intros w. unfold create_backup_code. unfold_m.
  destruct (existsb _ (backup_codes w)); simpl; [apply evolves_refl|].
  unfold evolves, codes_consistent. simpl. repeat split.
  - intros H. apply Forall_app. split; [exact H|].
    constructor; [|constructor]. unfold used_at_iff_is_used. simpl.
    split; [intros K; now elim K|discriminate].
  - lia.
  - intros x Hx. apply in_app_or in Hx. destruct Hx as [Hx|[<-|[]]]; auto.
Qed.

Lemma steady_draw (source : nat -> string) : steady (draw source).
Proof.
  unfold draw. apply steady_bind; [apply steady_gets|]. intros n.
  apply steady_bind; [|intros; apply steady_ret].
  apply steady_modify_same; reflexivity.
Qed.

Lemma steady_generate_loop (uid n : nat) (codes : list string) :
  steady (generate_loop upper token_hex uid n codes).
Proof.
  revert codes. induction n as [|n IH]; intros codes; simpl.
  - apply steady_ret.
  - apply steady_bind; [apply steady_draw|]. intros hex.
    apply steady_bind; [apply steady_create_backup_code|]. intros _. apply IH.
Qed.

Lemma steady_generate (user : User) (count : Z) : steady (generate user count).
Proof.
  unfold generate_backup_codes. apply steady_bind.
  - apply steady_delete_codes.
  - intros _. apply steady_generate_loop.
Qed.

Lemma steady_get_or_create_device (uid : nat) :
  steady (get_or_create_device default_key uid).
Proof.
  unfold get_or_create_device. apply steady_bind; [apply steady_gets|].
  intros ds. destruct (objects_get _ ds).
  - apply steady_bind; [apply steady_draw|]. intros key.
    apply steady_bind; [apply steady_gets|]. intros pk.
    apply steady_bind; [|intros; apply steady_ret].
    apply steady_modify_same; reflexivity.
  - apply steady_ret.
  - apply steady_raise.
Qed.

Lemma steady_enable (user : User) : steady (enable user).
Proof.
  unfold enable_2fa. apply steady_bind; [apply steady_get_or_create_device|].
  intros dc. apply steady_bind; [apply steady_generate|].
  intros; apply steady_ret.
Qed.

Lemma steady_verify_backup_code (user : User) (c : string) :
  steady (_verify_backup_code upper user c).
Proof.
  unfold _verify_backup_code. apply steady_bind; [apply steady_gets|].
  intros tbl. destruct (objects_get _ tbl).
  - apply steady_ret.
  - apply steady_bind; [apply steady_mark_as_used|]. intros; apply steady_ret.
  - apply steady_raise.
Qed.

Lemma steady_save_user (u : User) : steady (save_user u).
Proof. apply steady_modify_same; reflexivity. Qed.

Lemma steady_save_device (d : TOTPDevice) : steady (save_device d).
Proof. apply steady_modify_same; reflexivity. Qed.

Lemma steady_device_verify_token (d : TOTPDevice) (token : string) :
  steady (device_verify_token verify_token d token).
Proof.
  unfold device_verify_token. apply steady_bind; [apply steady_gets|]. intros now.
  destruct (snd (verify_token d token now)).
  - apply steady_bind; [apply steady_save_device|]. intros; apply steady_ret.
  - apply steady_ret.
Qed.

Lemma steady_verify (user : User) (token : string) : steady (verify user token).
Proof.
  unfold verify_2fa_token. apply steady_bind; [apply steady_gets|].
  intros ds. destruct (objects_get _ ds) as [|d|].
  - apply steady_ret.
  - apply steady_bind; [apply steady_device_verify_token|]. intros [ok d'].
    cbn [fst snd]. destruct ok.
    + apply steady_bind; [|intros; apply steady_ret].
      destruct (negb (dev_confirmed d')); [|apply steady_ret].
      apply steady_bind; [apply steady_save_device|].
      intros; apply steady_save_user.
    + apply steady_verify_backup_code.
  - apply steady_raise.
Qed.

Lemma steady_disable (user : User) : steady (disable_2fa user).
Proof.
  unfold disable_2fa. apply steady_bind.
  - apply steady_modify_same; reflexivity.
  - intros _. apply steady_bind; [apply steady_delete_codes|].
    intros _. apply steady_save_user.
Qed.

Lemma steady_send_mail (user : User) :
  steady (send_2fa_enabled_email delivers user).
Proof.
  unfold send_2fa_enabled_email. apply steady_bind; [apply steady_gets|].
  intros [|]; [apply steady_modify_same; reflexivity|apply steady_raise].
Qed.

Lemma run_call_evolves (c : Call) (w : World) : evolves w (run_call c w).
Proof.
  destruct c; simpl.
  - apply steady_enable.
  - apply steady_verify.
  - apply steady_disable.
  - apply steady_generate.
  - apply steady_verify_backup_code.
  - unfold Enable2FAView_post. destruct (is_2fa_enabled user).
    + apply steady_ret.
    + apply steady_bind; [apply steady_enable|]. intros; apply steady_ret.
  - unfold Verify2FAView_post. apply steady_bind; [apply steady_verify|].
    intros [|]; [|apply steady_ret].
    apply steady_bind; [apply steady_send_mail|]. intros; apply steady_ret.
  - unfold Disable2FAView_post. destruct (negb (is_2fa_enabled user)).
    + apply steady_ret.
    + apply steady_bind; [apply steady_disable|]. intros; apply steady_ret.
  - unfold RegenerateBackupCodesView_post. destruct (negb (is_2fa_enabled user)).
    + apply steady_ret.
    + apply steady_bind; [apply steady_generate|]. intros; apply steady_ret.
Qed.

Lemma run_calls_evolve (calls : list Call) (w : World) :
  evolves w (fold_left (fun w c => run_call c w) calls w).
Proof.
  revert w. induction calls as [|c calls IH]; intros w; simpl.
  - apply evolves_refl.
  - apply (evolves_trans _ (run_call c w)); [apply run_call_evolves|apply IH].
Qed.

Lemma generated_rows_unused (uid n : nat) (codes : list string) (w : World) :
  Forall (fun b => is_used b = false /\ used_at b = None)
         (filter (code_of uid) (backup_codes w)) ->
  Forall (fun b => is_used b = false /\ used_at b = None)
         (filter (code_of uid)
            (backup_codes (snd (generate_loop upper token_hex uid n codes w)))).
Proof.
  revert codes w. induction n as [|n IH]; intros codes w H; simpl; [exact H|].
  unfold bind at 1. simpl. unfold bind at 1. unfold create_backup_code at 1.
  unfold_m. simpl.
  destruct (existsb _ (backup_codes w)); simpl; [exact H|].
  apply IH. simpl. rewrite filter_app. apply Forall_app. split; [exact H|].
  simpl. destruct (code_of uid _); repeat constructor.
Qed.

(** ** Generation when the draws are fresh *)

Lemma batch_succ (k n : nat) :
  batch upper token_hex k (S n) = upper (token_hex k) :: batch upper token_hex (S k) n.
Proof. reflexivity. Qed.

Lemma batch_length (k n : nat) : List.length (batch upper token_hex k n) = n.
Proof. unfold batch. now rewrite length_map, length_seq. Qed.

Lemma batch_app (k n m : nat) :
  batch upper token_hex k (n + m) = (batch upper token_hex k n ++ batch upper token_hex (k + n) m)%list.
Proof. unfold batch. now rewrite seq_app, map_app. Qed.

Lemma existsb_eqb_false (c : string) (cs : list string) :
  existsb (String.eqb c) cs = false <-> ~ In c cs.
Proof.
  split.
  - intros H Hin. assert (existsb (String.eqb c) cs = true) as E.
    { apply existsb_exists. exists c. split; [exact Hin|apply String.eqb_refl]. }
    congruence.
  - intros H. destruct (existsb _ cs) eqn:E; [|reflexivity].
    apply existsb_exists in E. destruct E as [x [Hx Hc]].
    apply String.eqb_eq in Hc. subst. contradiction.
Qed.

Lemma distinct_NoDup (cs : list string) : distinct cs = true <-> NoDup cs.
Proof.
  induction cs as [|c cs IH]; simpl.
  - split; [constructor|reflexivity].
  - rewrite andb_true_iff, negb_true_iff, existsb_eqb_false, IH. split.
    + intros [H1 H2]. now constructor.
    + intros H. inversion H; subst. split; assumption.
Qed.

Lemma code_absent (c : string) (tbl : list TwoFactorBackupCode) :
  existsb (fun b => String.eqb (code b) c) tbl = false <-> ~ In c (map code tbl).
Proof.
  split.
  - intros H Hin. apply in_map_iff in Hin. destruct Hin as [b [Hb Hin]].
    assert (existsb (fun b => String.eqb (code b) c) tbl = true) as E.
    { apply existsb_exists. exists b. split; [exact Hin|]. now apply String.eqb_eq. }
    congruence.
  - intros H. destruct (existsb _ tbl) eqn:E; [|reflexivity].
    apply existsb_exists in E. destruct E as [b [Hb Hc]].
    apply String.eqb_eq in Hc. exfalso. apply H. rewrite <- Hc. now apply in_map.
Qed.

Lemma fresh_codes_spec (cs : list string) (tbl : list TwoFactorBackupCode) :
  fresh_codes cs tbl = true <->
  NoDup cs /\ (forall c, In c cs -> ~ In c (map code tbl)).
Proof.
  unfold fresh_codes. rewrite andb_true_iff, distinct_NoDup, forallb_forall.
  split; intros [H1 H2]; split; auto.
  - intros c Hc. apply code_absent. apply negb_true_iff. auto.
  - intros c Hc. apply negb_true_iff, code_absent. auto.
Qed.

Lemma fresh_codes_cons (c : string) (cs : list string)
    (tbl : list TwoFactorBackupCode) (row : TwoFactorBackupCode) :
  fresh_codes (c :: cs) tbl = true -> code row = c ->
  existsb (fun b => String.eqb (code b) c) tbl = false /\
  fresh_codes cs (tbl ++ [row]) = true.
Proof.
  intros H Hrow. apply fresh_codes_spec in H. destruct H as [Hnd Hout].
  inversion Hnd as [|x xs Hnot Hnd']; subst. split.
  - apply code_absent. apply Hout. now left.
  - apply fresh_codes_spec. split; [exact Hnd'|].
    intros x Hx Hin. rewrite map_app in Hin. apply in_app_or in Hin.
    destruct Hin as [Hin|[Hin|[]]].
    + apply (Hout x); [now right|exact Hin].
    + simpl in Hin. rewrite <- Hin in Hx. contradiction.
Qed.

Lemma generate_loop_fresh (uid n : nat) :
  forall (codes : list string) (w : World),
    fresh_codes (batch upper token_hex (draws w) n) (backup_codes w) = true ->
    generate_loop upper token_hex uid n codes w =
    (Return (codes ++ batch upper token_hex (draws w) n)%list, after_generation upper token_hex uid n w).
Proof.
  induction n as [|n IH]; intros codes w Hfresh.
  - simpl. unfold ret, after_generation. simpl.
    rewrite !app_nil_r, !Nat.add_0_r. now destruct w.
  - rewrite batch_succ in Hfresh.
    destruct (fresh_codes_cons _ _ _
                (mkCode (next_code_id w) uid (upper (token_hex (draws w)))
                        false (clock w) None) Hfresh eq_refl) as [Habs Hrest].
    simpl. unfold bind at 1. unfold draw at 1. unfold_m. simpl.
    unfold create_backup_code at 1. unfold_m. simpl. rewrite Habs. simpl.
    rewrite IH by (simpl; exact Hrest).
    unfold after_generation. simpl. rewrite batch_succ. simpl.
    rewrite <- !app_assoc. simpl.
    now rewrite !Nat.add_succ_r.
Qed.

Lemma generate_fresh (user : User) (count : Z) (w : World) :
  fresh_codes (batch upper token_hex (draws w) (Z.to_nat count))
              (objects_delete (code_of (user_id user)) (backup_codes w)) = true ->
  generate user count w =
  (Return (batch upper token_hex (draws w) (Z.to_nat count)),
   after_generation upper token_hex (user_id user) (Z.to_nat count)
                    (delete_codes_of (user_id user) w)).
Proof.
  intros H. unfold generate_backup_codes. unfold bind at 1. simpl.
  fold (delete_codes_of (user_id user) w).
  rewrite generate_loop_fresh by exact H. reflexivity.
Qed.

Lemma new_rows_codes (pk uid now : nat) (cs : list string) :
  map code (new_rows pk uid now cs) = cs.
Proof. revert pk. induction cs as [|c cs IH]; intros pk; simpl; [|rewrite IH]; reflexivity. Qed.

Lemma new_rows_unused (pk uid now : nat) (cs : list string) :
  filter (fun b => code_of uid b && negb (is_used b)) (new_rows pk uid now cs)
  = new_rows pk uid now cs.
Proof.
  revert pk. induction cs as [|c cs IH]; intros pk; simpl; [reflexivity|].
  unfold code_of at 1. simpl. rewrite Nat.eqb_refl. simpl. now rewrite IH.
Qed.

(** After a generation the codes the user can spend are the batch. *)
Lemma unused_after_generation (uid n : nat) (w : World) :
  unused_codes uid (after_generation upper token_hex uid n (delete_codes_of uid w))
  = batch upper token_hex (draws w) n.
Proof.
  unfold unused_codes, after_generation. simpl. rewrite filter_app, map_app.
  rewrite new_rows_unused, new_rows_codes.
  assert (E : filter (fun b => code_of uid b && negb (is_used b))
                (objects_delete (code_of uid) (backup_codes w)) = []).
  { apply (filter_weaken_nil (code_of uid)).
    - intros b Hb. apply andb_true_iff in Hb. exact (proj1 Hb).
    - apply filter_delete_same. }
  rewrite E. reflexivity.
Qed.

(** C3, as the code has it.  [generate_backup_codes] never inspects
    [count]: it deletes the user's codes and then creates one code per
    element of [range(count)].  So with draws that meet no stored code it
    returns [Z.to_nat count] codes for every [count], which afterwards are
    the user's unused codes; and for [count <= 0] it returns the empty list
    with the old codes gone. *)
Theorem generate_backup_codes_takes_any_count :
  forall (user : User) (count : Z) (w : World),
    fresh_codes (batch upper token_hex (draws w) (Z.to_nat count))
                (objects_delete (code_of (user_id user)) (backup_codes w)) = true ->
    generate user count w =
      (Return (batch upper token_hex (draws w) (Z.to_nat count)),
       after_generation upper token_hex (user_id user) (Z.to_nat count)
                        (delete_codes_of (user_id user) w)) /\
    List.length (batch upper token_hex (draws w) (Z.to_nat count)) = Z.to_nat count /\
    unused_codes (user_id user) (snd (generate user count w))
      = batch upper token_hex (draws w) (Z.to_nat count) /\
    ((count <= 0)%Z ->
     fst (generate user count w) = Return [] /\
     backup_codes (snd (generate user count w))
       = objects_delete (code_of (user_id user)) (backup_codes w)).
Proof.
  intros user count w H. rewrite (generate_fresh _ _ _ H). simpl.
  repeat split.
  - apply batch_length.
  - apply unused_after_generation.
  - destruct count; simpl; try reflexivity. lia.
  - destruct count; simpl; try apply app_nil_r. lia.
Qed.

(** ** The backup-code table under everything that can happen *)

Lemma occur_evolves (e : Event) (w : World) : evolves w (occur e w).
Proof.
  destruct e as [c|b|n]; simpl.
  - apply run_call_evolves.
  - apply steady_mark_as_used.
  - apply evolves_same_table; reflexivity.
Qed.

Lemma events_evolve (events : list Event) (w : World) :
  evolves w (fold_left (fun w e => occur e w) events w).
Proof.
  revert w. induction events as [|e events IH]; intros w; simpl.
  - apply evolves_refl.
  - apply (evolves_trans _ (occur e w)); [apply occur_evolves|apply IH].
Qed.

Lemma verify_backup_code_refuses_used (user : User) (c : string) (w : World) :
  (forall b, In b (backup_codes w) -> bc_user b = user_id user ->
             code b = upper c -> is_used b = true) ->
  _verify_backup_code upper user c w = (Return false, w).
Proof.
  intros Hall. unfold _verify_backup_code. unfold_m.
  rewrite objects_get_none; [reflexivity|].
  apply filter_nil_iff. intros b Hb.
  destruct (by_user_code_used (user_id user) (upper c) false b) eqn:E; [|reflexivity].
  apply by_user_code_used_unused in E. destruct E as [E1 E2].
  apply andb_true_iff in E1. destruct E1 as [Ho Hu].
  unfold code_of in Ho. apply Nat.eqb_eq in Ho.
  rewrite (Hall b Hb Ho E2) in Hu. discriminate.
Qed.

Lemma new_rows_owned (pk uid now : nat) (cs : list string) :
  filter (code_of uid) (new_rows pk uid now cs) = new_rows pk uid now cs.
Proof.
  revert pk. induction cs as [|c cs IH]; intros pk; simpl; [reflexivity|].
  unfold code_of at 1. simpl. rewrite Nat.eqb_refl. now rewrite IH.
Qed.

Lemma new_rows_length (pk uid now : nat) (cs : list string) :
  List.length (new_rows pk uid now cs) = List.length cs.
Proof. revert pk. induction cs as [|c cs IH]; intros pk; simpl; [|rewrite IH]; reflexivity. Qed.

(** C9.  Take a table in which [used_at] is set exactly on the used rows
    and primary keys are sound, and let anything happen any number of
    times: service calls and view requests, the late UPDATE of a request
    that overlapped others, time passing.  Then:
    - [used_at] is still set exactly on the used rows;
    - a row that was used at the start is still used, if it is still there;
    - whenever [_verify_backup_code] returns [True] it has taken a row of
      the user with the submitted code (upper-cased) that was unused with
      [used_at] null, that is none of the rows used at the start, and that
      is stored afterwards with [is_used] true and [used_at] the time of
      the call, the invariant holding again;
    - a code of which every row is used is refused by
      [_verify_backup_code], the world unchanged, and is not accepted by
      [verify_2fa_token] either unless the TOTP check takes it;
    - a code with exactly one unused row is accepted;
    - after [generate_backup_codes] every row of the user is unused with
      [used_at] null, and with fresh draws these rows are exactly [count]
      new ones. *)
Theorem used_at_iff_is_used_invariant :
  forall (events : list Event) (w : World),
    codes_consistent w -> keys_ok w ->
    let w' := fold_left (fun w e => occur e w) events w in
    codes_consistent w' /\
    (forall b b',
       In b (backup_codes w) -> is_used b = true ->
       In b' (backup_codes w') -> bc_id b' = bc_id b -> is_used b' = true) /\
    (forall user c w'',
       _verify_backup_code upper user c w' = (Return true, w'') ->
       exists b',
         In b' (backup_codes w') /\
         bc_user b' = user_id user /\ code b' = upper c /\
         is_used b' = false /\ used_at b' = None /\
         (forall b, In b (backup_codes w) -> is_used b = true ->
                    bc_id b' <> bc_id b) /\
         w'' = snd (mark_as_used b' w') /\
         find (fun x => bc_id x =? bc_id b') (backup_codes w'')
           = Some (mkCode (bc_id b') (bc_user b') (code b') true (created_at b')
                          (Some (clock w'))) /\
         codes_consistent w'') /\
    (forall user c,
       (forall b', In b' (backup_codes w') -> bc_user b' = user_id user ->
                   code b' = upper c -> is_used b' = true) ->
       _verify_backup_code upper user c w' = (Return false, w') /\
       ((forall d now, fst (verify_token d c now) = false) ->
        fst (verify user c w') <> Return true)) /\
    (forall user c b',
       objects_get (by_user_code_used (user_id user) (upper c) false)
                   (backup_codes w') = Found b' ->
       _verify_backup_code upper user c w' = (Return true, snd (mark_as_used b' w'))) /\
    (forall user count,
       let rows := filter (code_of (user_id user))
                          (backup_codes (snd (generate user count w'))) in
       Forall (fun b => is_used b = false /\ used_at b = None) rows /\
       (fresh_codes (batch upper token_hex (draws w') (Z.to_nat count))
                    (objects_delete (code_of (user_id user)) (backup_codes w')) = true ->
        rows = new_rows (next_code_id w') (user_id user) (clock w')
                        (batch upper token_hex (draws w') (Z.to_nat count)) /\
        List.length rows = Z.to_nat count)).
Proof.
  intros events w Hc [Hnd Hlt] w'.
  destruct (events_evolve events w) as [C [N R]]. fold w' in C, N, R.
  specialize (C Hc).
  assert (Stay : forall b b',
             In b (backup_codes w) -> is_used b = true ->
             In b' (backup_codes w') -> bc_id b' = bc_id b -> is_used b' = true).
  { intros b b' Hb Hu Hb' Hk. destruct (R b' Hb') as [U|[K|I]].
    - exact U.
    - rewrite Forall_forall in Hlt. specialize (Hlt b Hb). lia.
    - now rewrite (unique_key_row bc_id _ _ _ Hnd I Hb Hk). }
  split; [exact C|]. split; [exact Stay|].
  split; [|split; [|split]].
  - intros user c w'' H. apply verify_backup_code_true in H.
    destruct H as [b' [Hf ->]].
    assert (Hin : In b' (filter (by_user_code_used (user_id user) (upper c) false)
                           (backup_codes w')))
      by (rewrite Hf; left; reflexivity).
    apply filter_In in Hin. destruct Hin as [Hin Hp].
    apply by_user_code_used_unused in Hp. destruct Hp as [Hp Hcode].
    apply andb_true_iff in Hp. destruct Hp as [Ho Hu].
    unfold code_of in Ho. apply Nat.eqb_eq in Ho.
    apply negb_true_iff in Hu.
    exists b'. split; [exact Hin|]. split; [exact Ho|]. split; [exact Hcode|].
    split; [exact Hu|]. split; [|split; [|split; [reflexivity|split]]].
    + unfold codes_consistent in C. rewrite Forall_forall in C.
      specialize (C b' Hin). unfold used_at_iff_is_used in C.
      destruct (used_at b') as [t|]; [|reflexivity].
      assert (is_used b' = true) as K by (apply C; discriminate).
      rewrite K in Hu. discriminate.
    + intros b Hb Hbu Hk. rewrite (Stay b b' Hb Hbu Hin Hk) in Hu. discriminate.
    + simpl.
      apply (find_save_row bc_id
               (mkCode (bc_id b') (bc_user b') (code b') true (created_at b')
                       (Some (clock w')))).
    + exact (proj1 (steady_mark_as_used b' w') C).
  - intros user c Hall. split; [now apply verify_backup_code_refuses_used|].
    intros Hrej Hv. rewrite verify_unfold in Hv.
    destruct (objects_get _ (devices w')) as [|d|]; try discriminate.
    cbv zeta in Hv. rewrite Hrej in Hv.
    rewrite verify_backup_code_refuses_used in Hv; [discriminate|].
    destruct (after_check_keeps d c w') as [_ [Hb _]]. rewrite Hb. exact Hall.
  - intros user c b' Hb. now apply verify_backup_code_found.
  - intros user count rows. split.
    + subst rows. unfold generate_backup_codes, bind at 1. simpl.
      apply generated_rows_unused. simpl. rewrite filter_delete_same. constructor.
    + intros Hfresh. subst rows. rewrite (generate_fresh _ _ _ Hfresh).
      cbn [snd after_generation delete_codes_of set_backup_codes backup_codes
           next_code_id clock draws].
      rewrite filter_app, filter_delete_same, new_rows_owned. cbn [app].
      split; [reflexivity|]. now rewrite new_rows_length, batch_length.
Qed.

(** ** Enrolling *)

Lemma filter_confirmed_split (uid : nat) (name : string) (c : bool)
    (ds : list TOTPDevice) :
  filter (by_user_name_confirmed uid name c) ds
  = filter (fun d => Bool.eqb (dev_confirmed d) c) (filter (by_user_name uid name) ds).
Proof.
  induction ds as [|d ds IH]; simpl; [reflexivity|].
  unfold by_user_name_confirmed at 1. unfold by_user_name at 1.
  destruct ((dev_user d =? uid) && String.eqb (dev_name d) name); simpl.
  - destruct (Bool.eqb (dev_confirmed d) c); now rewrite IH.
  - exact IH.
Qed.

(** The enrollment a user with the unconfirmed device [d] receives. *)
Lemma enable_pending (user : User) (w : World) (d : TOTPDevice) :
  objects_get (by_user_name (user_id user) "default") (devices w) = Found d ->
  dev_confirmed d = false ->
  fresh_codes (batch upper token_hex (draws w) 10)
              (objects_delete (code_of (user_id user)) (backup_codes w)) = true ->
  enable user w =
  (Return (mkEnrollment (qr_png (config_url d)) (dev_key d)
                        (batch upper token_hex (draws w) 10)),
   after_generation upper token_hex (user_id user) 10 (delete_codes_of (user_id user) w)).
Proof.
  intros Hd Hc Hfresh. apply objects_get_found in Hd.
  unfold enable_2fa. unfold bind at 1. unfold get_or_create_device.
  unfold bind at 1. unfold gets at 1.
  assert (E : objects_get (by_user_name_confirmed (user_id user) "default" false)
                (devices w) = Found d).
  { apply objects_get_one. rewrite filter_confirmed_split, Hd. simpl.
    now rewrite Hc. }
  rewrite E. unfold ret at 1. simpl. unfold bind.
  rewrite (generate_fresh user 10 w) by exact Hfresh. reflexivity.
Qed.

(** The enrollment a user without a device receives. *)
Lemma enable_disabled (user : User) (w : World) :
  objects_get (by_user_name (user_id user) "default") (devices w) = DoesNotExist ->
  fresh_codes (batch upper token_hex (S (draws w)) 10)
              (objects_delete (code_of (user_id user)) (backup_codes w)) = true ->
  enable user w =
  (Return (mkEnrollment
             (qr_png (config_url (new_device (next_device_id w) (user_id user)
                                        (default_key (draws w)))))
             (default_key (draws w))
             (batch upper token_hex (S (draws w)) 10)),
   after_generation upper token_hex (user_id user) 10
     (delete_codes_of (user_id user) (after_device default_key (user_id user) w))).
Proof.
  intros Hd Hfresh. apply objects_get_missing in Hd.
  unfold enable_2fa. unfold bind at 1. unfold get_or_create_device.
  unfold bind at 1. unfold gets at 1.
  assert (E : objects_get (by_user_name_confirmed (user_id user) "default" false)
                (devices w) = DoesNotExist).
  { apply objects_get_none. rewrite filter_confirmed_split, Hd. reflexivity. }
  rewrite E. unfold draw. unfold_m. simpl.
  pose proof (generate_fresh user 10 (after_device default_key (user_id user) w)) as G.
  simpl in G. specialize (G Hfresh). unfold after_device in G at 1.
  unfold set_next_device_id, set_devices, set_draws. simpl.
  rewrite G. reflexivity.
Qed.

Lemma after_device_pending (uid : nat) (w : World) :
  objects_get (by_user_name uid "default") (devices w) = DoesNotExist ->
  objects_get (by_user_name uid "default") (devices (after_device default_key uid w))
  = Found (new_device (next_device_id w) uid (default_key (draws w))).
Proof.
  intros H. apply objects_get_missing in H. apply objects_get_one.
  simpl. rewrite filter_app, H. simpl. unfold by_user_name. simpl.
  now rewrite Nat.eqb_refl.
Qed.

Lemma delete_generated (uid pk now : nat) (cs : list string)
    (tbl : list TwoFactorBackupCode) :
  objects_delete (code_of uid)
    (objects_delete (code_of uid) tbl ++ new_rows pk uid now cs)
  = objects_delete (code_of uid) tbl.
Proof.
  unfold objects_delete. rewrite filter_app.
  assert (E : filter (fun x => negb (code_of uid x)) (new_rows pk uid now cs) = []).
  { revert pk. induction cs as [|c cs IH]; intros pk; simpl; [reflexivity|].
    unfold code_of at 1. simpl. rewrite Nat.eqb_refl. simpl. apply IH. }
  rewrite E, app_nil_r.
  induction tbl as [|b tbl IH]; simpl; [reflexivity|].
  destruct (negb (code_of uid b)) eqn:K; simpl; [rewrite K, IH|]; auto.
Qed.

Lemma NoDup_app_apart {A} (l1 l2 : list A) (x : A) :
  NoDup (l1 ++ l2) -> In x l1 -> ~ In x l2.
Proof.
  induction l1 as [|a l1 IH]; simpl; [intros _ []|].
  intros Hnd Hin Hin2. inversion Hnd as [|y ys Hx Hl]; subst.
  destruct Hin as [->|Hin]; [|now apply IH].
  apply Hx. apply in_or_app. now right.
Qed.

Lemma new_rows_match_one (uid pk now : nat) (cs : list string) (c : string) :
  NoDup cs -> In c cs ->
  exists b,
    filter (by_user_code_used uid c false) (new_rows pk uid now cs) = [b] /\
    code b = c /\ bc_user b = uid.
Proof.
  revert pk. induction cs as [|x cs IH]; intros pk Hnd Hin; [destruct Hin|].
  inversion Hnd as [|y ys Hnot Hnd']; subst. simpl.
  unfold by_user_code_used at 1. simpl. rewrite Nat.eqb_refl. simpl.
  rewrite andb_true_r. destruct (String.eqb x c) eqn:E.
  - apply String.eqb_eq in E. subst x.
    exists (mkCode pk uid c false now None). split; [|split; reflexivity].
    f_equal. apply filter_nil_iff. intros b Hb.
    destruct (by_user_code_used uid c false b) eqn:P; [|reflexivity].
    apply by_user_code_used_unused in P. destruct P as [_ P].
    exfalso. apply Hnot. rewrite <- P, <- (new_rows_codes (S pk) uid now cs).
    now apply in_map.
  - destruct Hin as [->|Hin]; [rewrite String.eqb_refl in E; discriminate|].
    exact (IH (S pk) Hnd' Hin).
Qed.

(** After a generation each code of the batch has exactly one unused row
    of the user. *)
Lemma generated_code_found (uid n : nat) (w : World) (c : string) :
  NoDup (batch upper token_hex (draws w) n) ->
  In c (batch upper token_hex (draws w) n) ->
  exists b,
    filter (by_user_code_used uid c false)
           (backup_codes (after_generation upper token_hex uid n
                            (delete_codes_of uid w))) = [b].
Proof.
  intros Hnd Hin.
  destruct (new_rows_match_one uid (next_code_id w) (clock w) _ c Hnd Hin)
    as [b [Hb _]].
  exists b. unfold after_generation, delete_codes_of.
  cbn [backup_codes set_backup_codes next_code_id clock draws].
  rewrite filter_app, Hb.
  assert (E : filter (by_user_code_used uid c false)
                (objects_delete (code_of uid) (backup_codes w)) = []).
  { apply (filter_weaken_nil (code_of uid)).
    - intros x Hx. apply by_user_code_used_unused in Hx.
      destruct Hx as [Hx _]. apply andb_true_iff in Hx. exact (proj1 Hx).
    - apply filter_delete_same. }
  rewrite E. reflexivity.
Qed.

Lemma verify_backup_code_no_match (user : User) (c : string) (w : World) :
  ~ In (upper c) (unused_codes (user_id user) w) ->
  _verify_backup_code upper user c w = (Return false, w).
Proof.
  intros H. unfold _verify_backup_code. unfold_m.
  rewrite (objects_get_none _ _ (not_unused_filter_nil _ _ _ H)). reflexivity.
Qed.

(** A second enrollment, after a first one that found or made the
    unconfirmed device [d] in [w0] and then generated its codes. *)
Lemma enable_again (user : User) (w0 : World) (d : TOTPDevice) :
  objects_get (by_user_name (user_id user) "default") (devices w0) = Found d ->
  dev_confirmed d = false ->
  fresh_codes (batch upper token_hex (draws w0) 20)
              (objects_delete (code_of (user_id user)) (backup_codes w0)) = true ->
  (forall c, In c (batch upper token_hex (draws w0) 20) -> upper c = c) ->
  let w1 := after_generation upper token_hex (user_id user) 10
              (delete_codes_of (user_id user) w0) in
  let w2 := after_generation upper token_hex (user_id user) 10
              (delete_codes_of (user_id user) w1) in
  let codes1 := batch upper token_hex (draws w0) 10 in
  let codes2 := batch upper token_hex (draws w0 + 10) 10 in
  fresh_codes codes1
              (objects_delete (code_of (user_id user)) (backup_codes w0)) = true /\
  enable user w1
    = (Return (mkEnrollment (qr_png (config_url d)) (dev_key d) codes2), w2) /\
  objects_get (by_user_name (user_id user) "default") (devices w2) = Found d /\
  NoDup (codes1 ++ codes2) /\
  unused_codes (user_id user) w1 = codes1 /\
  unused_codes (user_id user) w2 = codes2 /\
  (forall c, In c codes1 ->
     fst (_verify_backup_code upper user c w1) = Return true /\
     ~ In c codes2 /\
     _verify_backup_code upper user c w2 = (Return false, w2) /\
     ((forall d' now, fst (verify_token d' c now) = false) ->
      fst (verify user c w2) = Return false)) /\
  (forall c, In c codes2 ->
     fst (_verify_backup_code upper user c w2) = Return true).
Proof.
  intros Hd Hc Hfresh Hup w1 w2 codes1 codes2.
  change 20 with (10 + 10) in Hfresh, Hup. rewrite batch_app in Hfresh, Hup.
  fold codes1 codes2 in Hfresh, Hup.
  apply fresh_codes_spec in Hfresh. destruct Hfresh as [Hnd Hout].
  assert (Hnd1 : NoDup codes1) by now apply NoDup_app_remove_r in Hnd.
  assert (Hnd2 : NoDup codes2) by now apply NoDup_app_remove_l in Hnd.
  assert (F1 : fresh_codes codes1
                 (objects_delete (code_of (user_id user)) (backup_codes w0)) = true).
  { apply fresh_codes_spec. split; [exact Hnd1|].
    intros c Hin. apply Hout. apply in_or_app. now left. }
  assert (Hdr : draws w1 = draws w0 + 10) by reflexivity.
  assert (F2 : fresh_codes (batch upper token_hex (draws w1) 10)
                 (objects_delete (code_of (user_id user)) (backup_codes w1)) = true).
  { assert (Hb : backup_codes w1 =
                  (objects_delete (code_of (user_id user)) (backup_codes w0) ++
                   new_rows (next_code_id w0) (user_id user) (clock w0) codes1)%list)
      by reflexivity.
    apply fresh_codes_spec. rewrite Hb, Hdr, delete_generated. split.
    - exact Hnd2.
    - intros c Hin. apply Hout. apply in_or_app. now right. }
  assert (Hd1 : objects_get (by_user_name (user_id user) "default") (devices w1)
                = Found d) by exact Hd.
  assert (Hd2 : objects_get (by_user_name (user_id user) "default") (devices w2)
                = Found d) by exact Hd.
  assert (U1 : unused_codes (user_id user) w1 = codes1)
    by apply unused_after_generation.
  assert (U2 : unused_codes (user_id user) w2 = codes2)
    by (unfold codes2; rewrite <- Hdr; apply unused_after_generation).
  split; [exact F1|].
  split. { unfold codes2. rewrite <- Hdr. apply (enable_pending user w1 d Hd1 Hc F2). }
  split; [exact Hd2|]. split; [exact Hnd|]. split; [exact U1|]. split; [exact U2|].
  split.
  - intros c Hin.
    assert (Hc1 : upper c = c) by (apply Hup; apply in_or_app; now left).
    assert (Hnot : ~ In c codes2) by exact (NoDup_app_apart _ _ _ Hnd Hin).
    assert (Hv : _verify_backup_code upper user c w2 = (Return false, w2)).
    { apply verify_backup_code_no_match. rewrite U2, Hc1. exact Hnot. }
    split; [|split; [exact Hnot|split; [exact Hv|]]].
    + destruct (generated_code_found (user_id user) 10 w0 c Hnd1 Hin) as [b Hb].
      rewrite <- Hc1 in Hb.
      now rewrite (verify_backup_code_found user c w1 b (objects_get_one _ _ _ Hb)).
    + intros Hrej.
      rewrite (verify_by_backup_code user c w2 d Hd2 (Hrej d (clock w2))).
      rewrite verify_backup_code_no_match; [reflexivity|].
      unfold unused_codes.
      destruct (after_check_keeps d c w2) as [_ [Hb _]]. rewrite Hb.
      fold (unused_codes (user_id user) w2). rewrite U2, Hc1. exact Hnot.
  - intros c Hin.
    assert (Hc2 : upper c = c) by (apply Hup; apply in_or_app; now right).
    assert (Hin' : In c (batch upper token_hex (draws w1) 10))
      by (rewrite Hdr; exact Hin).
    assert (Hnd' : NoDup (batch upper token_hex (draws w1) 10))
      by (rewrite Hdr; exact Hnd2).
    destruct (generated_code_found (user_id user) 10 w1 c Hnd' Hin') as [b Hb].
    rewrite <- Hc2 in Hb.
    now rewrite (verify_backup_code_found user c w2 b (objects_get_one _ _ _ Hb)).
Qed.

(** C6.  A user whose state is DISABLED or PENDING enrolls twice in a row;
    the twenty draws of the two batches are distinct, unknown to the table,
    and left alone by [str.upper] (as upper-cased hexadecimal text is).
    Both calls return, with the same secret key, which is the key of the
    user's device, still unconfirmed.  Each call returns ten codes, the
    upper-cased next ten draws, no code twice among the twenty; after each
    call the user's unused codes are exactly the batch that call returned.
    Every code of the first batch is accepted by [_verify_backup_code]
    after the first call, is absent from the second batch, and after the
    second call is refused by [_verify_backup_code], which changes
    nothing, and by [verify_2fa_token] where the TOTP check does not take
    it.  Every code of the second batch is accepted after the second
    call. *)
Theorem enable_2fa_twice_same_secret_fresh_codes :
  forall (user : User) (w : World),
    state_of (user_id user) w = Some DISABLED \/
    state_of (user_id user) w = Some PENDING ->
    fresh_codes (batch upper token_hex (first_draw (user_id user) w) 20)
                (objects_delete (code_of (user_id user)) (backup_codes w)) = true ->
    (forall c, In c (batch upper token_hex (first_draw (user_id user) w) 20) ->
               upper c = c) ->
    exists e1 w1 e2 w2 d,
      enable user w = (Return e1, w1) /\
      enable user w1 = (Return e2, w2) /\
      secret_key e1 = secret_key e2 /\
      objects_get (by_user_name (user_id user) "default") (devices w2) = Found d /\
      dev_key d = secret_key e1 /\ dev_confirmed d = false /\
      state_of (user_id user) w1 = Some PENDING /\
      state_of (user_id user) w2 = Some PENDING /\
      enrolled_backup_codes e1
        = batch upper token_hex (first_draw (user_id user) w) 10 /\
      enrolled_backup_codes e2
        = batch upper token_hex (first_draw (user_id user) w + 10) 10 /\
      List.length (enrolled_backup_codes e1) = 10 /\
      List.length (enrolled_backup_codes e2) = 10 /\
      NoDup (enrolled_backup_codes e1 ++ enrolled_backup_codes e2) /\
      unused_codes (user_id user) w1 = enrolled_backup_codes e1 /\
      unused_codes (user_id user) w2 = enrolled_backup_codes e2 /\
      (forall c, In c (enrolled_backup_codes e1) ->
         fst (_verify_backup_code upper user c w1) = Return true /\
         ~ In c (enrolled_backup_codes e2) /\
         _verify_backup_code upper user c w2 = (Return false, w2) /\
         ((forall d' now, fst (verify_token d' c now) = false) ->
          fst (verify user c w2) = Return false)) /\
      (forall c, In c (enrolled_backup_codes e2) ->
         fst (_verify_backup_code upper user c w2) = Return true).
Proof.
  intros user w Hstate Hfresh Hup. unfold first_draw in *.
  unfold state_of in Hstate, Hfresh, Hup |- *.
  destruct (objects_get (by_user_name (user_id user) "default") (devices w))
    as [|d|] eqn:Hd.
  - (* DISABLED: the first call creates the device *)
    pose proof (after_device_pending _ _ Hd) as Hd'.
    destruct (enable_again user (after_device default_key (user_id user) w) _
                Hd' eq_refl Hfresh Hup)
      as [F1 [H2 [Hd2 [Hnd [Hu1 [Hu2 [Hold Hnew]]]]]]].
    eexists. eexists. eexists. eexists.
    exists (new_device (next_device_id w) (user_id user) (default_key (draws w))).
    split; [apply (enable_disabled user w Hd F1)|].
    split; [exact H2|]. cbn [secret_key enrolled_backup_codes].
    split; [reflexivity|]. split; [exact Hd2|].
    split; [reflexivity|]. split; [reflexivity|].
    split. { cbn [devices after_generation delete_codes_of set_backup_codes].
             now rewrite Hd'. }
    split. { now rewrite Hd2. }
    split; [reflexivity|]. split; [reflexivity|].
    split; [apply batch_length|]. split; [apply batch_length|].
    split; [exact Hnd|]. split; [exact Hu1|]. split; [exact Hu2|].
    split; [exact Hold|exact Hnew].
  - (* PENDING: the first call finds the device *)
    destruct (dev_confirmed d) eqn:Hc.
    { destruct Hstate as [Hstate|Hstate]; discriminate. }
    destruct (enable_again user w d Hd Hc Hfresh Hup)
      as [F1 [H2 [Hd2 [Hnd [Hu1 [Hu2 [Hold Hnew]]]]]]].
    eexists. eexists. eexists. eexists. exists d.
    split; [apply (enable_pending user w d Hd Hc F1)|].
    split; [exact H2|]. cbn [secret_key enrolled_backup_codes].
    split; [reflexivity|]. split; [exact Hd2|].
    split; [reflexivity|]. split; [exact Hc|].
    split. { cbn [devices after_generation delete_codes_of set_backup_codes].
             now rewrite Hd, Hc. }
    split. { now rewrite Hd2, Hc. }
    split; [reflexivity|]. split; [reflexivity|].
    split; [apply batch_length|]. split; [apply batch_length|].
    split; [exact Hnd|]. split; [exact Hu1|]. split; [exact Hu2|].
    split; [exact Hold|exact Hnew].
  - destruct Hstate as [Hstate|Hstate]; discriminate.
Qed.

(** ** Requests that do not overlap *)

Lemma step_nth_at (done : list Consume) (t : Consume) (rest : list Consume)
    (w : World) :
  step_nth upper (List.length done) (done ++ t :: rest) w
  = ((done ++ fst (consume_step upper t w) :: rest)%list, snd (consume_step upper t w)).
Proof.
  induction done as [|d done IH]; simpl.
  - now destruct (consume_step upper t w).
  - rewrite IH. reflexivity.
Qed.

(** The two statements of one request, run back to back, are the call. *)
Lemma consume_step_twice (user : User) (c : string) (w : World) :
  consume_step upper (fst (consume_step upper (before_get user c) w))
               (snd (consume_step upper (before_get user c) w))
  = (finished (fst (_verify_backup_code upper user c w)),
     snd (_verify_backup_code upper user c w)).
Proof.
  unfold _verify_backup_code. unfold_m. simpl.
  destruct (objects_get _ (backup_codes w)); reflexivity.
Qed.

Lemma run_serial (user : User) (c : string) (n : nat) :
  forall (done : list Consume) (w : World),
    run upper (serial (List.length done) n)
        (done ++ repeat (before_get user c) n) w
    = ((done ++ map finished (fst (consume_all upper user c n w)))%list,
       snd (consume_all upper user c n w)).
Proof.
  induction n as [|n IH]; intros done w.
  - reflexivity.
  - cbn [serial repeat run]. rewrite step_nth_at.
    pose proof (step_nth_at done (fst (consume_step upper (before_get user c) w))
                  (repeat (before_get user c) n)
                  (snd (consume_step upper (before_get user c) w))) as S2.
    rewrite S2, consume_step_twice. cbn [fst snd].
    replace (done ++ finished (fst (_verify_backup_code upper user c w))
                  :: repeat (before_get user c) n)%list
      with ((done ++ [finished (fst (_verify_backup_code upper user c w))])
              ++ repeat (before_get user c) n)%list
      by (rewrite <- app_assoc; reflexivity).
    replace (S (List.length done))
      with (List.length (done ++ [finished (fst (_verify_backup_code upper user c w))]))
      by (rewrite length_app; simpl; lia).
    rewrite IH. cbn [consume_all].
    destruct (_verify_backup_code upper user c w) as [r w1]. cbn [fst snd].
    destruct (consume_all upper user c n w1) as [rs w2]. cbn [fst snd map].
    now rewrite <- app_assoc.
Qed.

Lemma consume_all_spent (user : User) (c : string) (n : nat) (w : World) :
  filter (by_user_code_used (user_id user) (upper c) false) (backup_codes w) = [] ->
  consume_all upper user c n w = (repeat (Return false) n, w).
Proof.
  intros H. induction n as [|n IH]; simpl; [reflexivity|].
  unfold _verify_backup_code. unfold_m.
  rewrite (objects_get_none _ _ H), IH. reflexivity.
Qed.

(** C2, as the code has it.  The code has no atomic conditional update:
    a call is a SELECT followed by an UPDATE.  What holds is the serial
    case: when [S n] requests for one unused code run without overlap,
    each SELECT directly followed by its UPDATE, the first returns [True],
    the other [n] return [False], and the world is the one in which the
    row was marked once. *)
Theorem serial_requests_one_success :
  forall (user : User) (c : string) (n : nat) (w : World)
         (b : TwoFactorBackupCode),
    objects_get (by_user_code_used (user_id user) (upper c) false)
                (backup_codes w) = Found b ->
    run upper (serial 0 (S n)) (repeat (before_get user c) (S n)) w
    = (finished (Return true) :: repeat (finished (Return false)) n,
       snd (mark_as_used b w)).
Proof.
  intros user c n w b Hb.
  change (run upper (serial 0 (S n)) (repeat (before_get user c) (S n)) w)
    with (run upper (serial (List.length (@nil Consume)) (S n))
              ([] ++ repeat (before_get user c) (S n)) w).
  rewrite (run_serial user c (S n) [] w). cbn [consume_all app].
  rewrite (verify_backup_code_found _ _ _ _ Hb).
  rewrite consume_all_spent
    by (apply consumed_code_gone; now apply objects_get_found).
  cbn [fst snd map]. f_equal. f_equal.
  induction n as [|n IH]; simpl; [reflexivity|now rewrite IH].
Qed.

(** * Further properties of the 2FA service *)

(** ** What [verify_2fa_token] writes *)

Lemma columns_after_save (d d' : TOTPDevice) (tbl : list TOTPDevice) :
  NoDup (map dev_id tbl) -> In d tbl -> service_columns d' = service_columns d ->
  map service_columns (save_row dev_id d' tbl) = map service_columns tbl.
Proof.
  intros Hnd Hin Hcol.
  assert (Hk : dev_id d' = dev_id d) by (unfold service_columns in Hcol; congruence).
  assert (E : existsb (fun y => dev_id y =? dev_id d') tbl = true).
  { apply existsb_exists. exists d. split; [exact Hin|]. rewrite Hk. apply Nat.eqb_refl. }
  unfold save_row. rewrite E, map_map. apply map_ext_in. intros y Hy.
  destruct (dev_id y =? dev_id d') eqn:K; [|reflexivity].
  apply Nat.eqb_eq in K. rewrite Hk in K.
  now rewrite (unique_key_row dev_id _ _ _ Hnd Hy Hin K).
Qed.

(** After [device.verify_token] the lookup finds the instance it left, and
    keys are still unique. *)
Lemma after_check_lookup (uid : nat) (d : TOTPDevice) (token : string) (w : World) :
  NoDup (map dev_id (devices w)) ->
  objects_get (by_user_name uid "default") (devices w) = Found d ->
  objects_get (by_user_name uid "default")
              (devices (after_check verify_token d token w))
    = Found (checked verify_token d token (clock w)) /\
  NoDup (map dev_id (devices (after_check verify_token d token w))).
Proof.
  intros Hnd Hd. unfold after_check, checked.
  destruct (snd (verify_token d token (clock w))) as [st|]; [|now split].
  apply objects_get_found in Hd.
  destruct (found_device_owner _ _ _ _ Hd) as [Hin [_ Hp]].
  cbn [devices set_devices]. split.
  - apply objects_get_one.
    exact (filter_save_row_one dev_id _ d (set_otp st d) _ Hnd Hd eq_refl Hp).
  - rewrite (map_key_save_row dev_id (set_otp st d)); [exact Hnd|].
    apply existsb_exists. exists d. split; [exact Hin|apply Nat.eqb_refl].
Qed.

(** What [verify_token] leaves of the device table: the columns of this
    repository as they were, and the rows of other users untouched. *)
Lemma after_check_columns (uid : nat) (d : TOTPDevice) (token : string) (w : World) :
  NoDup (map dev_id (devices w)) ->
  objects_get (by_user_name uid "default") (devices w) = Found d ->
  let w1 := after_check verify_token d token w in
  w1 = set_devices (devices w1) w /\
  map service_columns (devices w1) = map service_columns (devices w) /\
  (forall x, In x (devices w1) -> dev_user x <> uid -> In x (devices w)).
Proof.
  intros Hnd Hd. apply objects_get_found in Hd.
  destruct (found_device_owner _ _ _ _ Hd) as [Hin [Hown _]].
  unfold after_check.
  destruct (snd (verify_token d token (clock w))) as [st|]; cbn [devices set_devices].
  - split; [reflexivity|]. split.
    + now apply (columns_after_save d).
    + intros x Hx Hne. apply in_save_row in Hx. destruct Hx as [->|Hx]; [|exact Hx].
      now elim Hne.
  - split; [now destruct w|]. split; [reflexivity|auto].
Qed.

(** X1.  Unless it returns [True], [verify_2fa_token] changes nothing but the
    device table, and of that no column this repository reads or writes:
    users, backup codes, mails, counters and clock are as they were, every
    device row has its key, owner, name, secret and [confirmed] as before,
    and the rows of other users are untouched.  What may change is the
    bookkeeping django_otp keeps on the user's own device. *)
Theorem verify_2fa_token_failure_keeps_service_data :
  forall (user : User) (token : string) (w : World),
    NoDup (map dev_id (devices w)) ->
    fst (verify user token w) <> Return true ->
    let w' := snd (verify user token w) in
    w' = set_devices (devices w') w /\
    map service_columns (devices w') = map service_columns (devices w) /\
    (forall x, In x (devices w') -> dev_user x <> user_id user -> In x (devices w)).
Proof.
  intros user token w Hnd. rewrite verify_unfold.
  destruct (objects_get _ (devices w)) as [|d|] eqn:Hd.
  - intros _. cbn [snd]. split; [now destruct w|]. split; [reflexivity|auto].
  - cbv zeta. pose proof (after_check_columns _ d token w Hnd Hd) as K.
    cbv zeta in K.
    destruct (fst (verify_token d token (clock w))).
    + destruct (dev_confirmed d); intros H; now elim H.
    + unfold _verify_backup_code. unfold_m.
      destruct (objects_get _ (backup_codes _)); cbn [fst snd]; intros H;
        [exact K|now elim H|exact K].
  - intros _. cbn [snd]. split; [now destruct w|]. split; [reflexivity|auto].
Qed.

(** X2.  The TOTP path: a good token for an unconfirmed device confirms it.
    [verify_2fa_token] returns [True], the user's state becomes ENABLED, the
    stored flag becomes true, and backup codes and mails are untouched.
    Device rows are told apart by primary key, which must be unique. *)
Theorem verify_2fa_token_confirms_pending_device :
  forall (user : User) (token : string) (w : World) (d : TOTPDevice),
    NoDup (map dev_id (devices w)) ->
    objects_get (by_user_name (user_id user) "default") (devices w) = Found d ->
    dev_confirmed d = false ->
    fst (verify_token d token (clock w)) = true ->
    fst (verify user token w) = Return true /\
    state_of (user_id user) (snd (verify user token w)) = Some ENABLED /\
    request_user (user_id user) (snd (verify user token w))
      = Some (mkUser (user_id user) true) /\
    backup_codes (snd (verify user token w)) = backup_codes w /\
    outbox (snd (verify user token w)) = outbox w.
Proof.
  intros user token w d Hnd Hd Hc Ht.
  rewrite verify_unfold, Hd. cbv zeta. rewrite Ht, Hc. cbn [fst snd].
  destruct (after_check_keeps d token w) as [_ [Hb [Ho _]]].
  destruct (after_check_lookup _ d token w Hnd Hd) as [Hd1 Hnd1].
  split; [reflexivity|]. split; [|split; [|split; assumption]].
  - unfold state_of. cbn [devices set_users set_devices].
    apply objects_get_found in Hd1.
    destruct (found_device_owner _ _ _ _ Hd1) as [_ [_ Hp]].
    rewrite (objects_get_one _ _ _
               (filter_save_row_one dev_id _ _
                  (set_confirmed true (checked verify_token d token (clock w)))
                  _ Hnd1 Hd1 eq_refl Hp)).
    reflexivity.
  - unfold request_user. cbn [users set_users].
    apply (find_save_row user_id (mkUser (user_id user) true)).
Qed.

(** ** One user's calls and another user's rows *)

Lemma filter_delete_other {A} (p q : A -> bool) (l : list A) :
  (forall x, q x = true -> p x = false) ->
  filter q (objects_delete p l) = filter q l.
Proof.
  intros H. unfold objects_delete. induction l as [|a l IH]; simpl; [reflexivity|].
  destruct (p a) eqn:Pa; simpl.
  - destruct (q a) eqn:Qa; [|exact IH].
    rewrite (H a Qa) in Pa. discriminate.
  - now rewrite IH.
Qed.

Lemma find_save_row_other {A} (key : A -> nat) (x : A) (k : nat) (tbl : list A) :
  key x <> k ->
  find (fun y => key y =? k) (save_row key x tbl) = find (fun y => key y =? k) tbl.
Proof.
  intros Hk. apply Nat.eqb_neq in Hk. unfold save_row.
  destruct (existsb _ tbl).
  - induction tbl as [|a l IH]; simpl; [reflexivity|].
    destruct (key a =? key x) eqn:K.
    + apply Nat.eqb_eq in K. rewrite K, Hk. exact IH.
    + destruct (key a =? k); [reflexivity|exact IH].
  - induction tbl as [|a l IH]; simpl.
    + now rewrite Hk.
    + destruct (key a =? k); [reflexivity|exact IH].
Qed.

(** X3.  [disable_2fa] for one user leaves every other user's devices, backup
    codes and stored row exactly as they were. *)
Theorem disable_2fa_spares_other_users :
  forall (user : User) (w : World) (other : nat),
    other <> user_id user ->
    filter (device_of other) (devices (snd (disable_2fa user w)))
      = filter (device_of other) (devices w) /\
    filter (code_of other) (backup_codes (snd (disable_2fa user w)))
      = filter (code_of other) (backup_codes w) /\
    request_user other (snd (disable_2fa user w)) = request_user other w.
Proof.
  intros user w other Hne. rewrite disable_2fa_world. simpl.
  assert (Q : forall a b : nat, (a =? other) = true -> (a =? user_id user) = false).
  { intros a b Ha. apply Nat.eqb_eq in Ha. subst a. now apply Nat.eqb_neq. }
  split; [|split].
  - apply filter_delete_other. intros d Hd. unfold device_of in *. now apply (Q _ 0).
  - apply filter_delete_other. intros b Hb. unfold code_of in *. now apply (Q _ 0).
  - unfold request_user. simpl.
    apply (find_save_row_other user_id (mkUser (user_id user) false)).
    simpl. congruence.
Qed.

Lemma objects_delete_idem {A} (p : A -> bool) (l : list A) :
  objects_delete p (objects_delete p l) = objects_delete p l.
Proof.
  unfold objects_delete. induction l as [|a l IH]; simpl; [reflexivity|].
  destruct (negb (p a)) eqn:E; simpl; [rewrite E, IH|]; auto.
Qed.

Lemma save_row_idem {A} (key : A -> nat) (x : A) (tbl : list A) :
  save_row key x (save_row key x tbl) = save_row key x tbl.
Proof.
  assert (E : existsb (fun y => key y =? key x) (save_row key x tbl) = true).
  { apply existsb_exists. exists x. split; [|apply Nat.eqb_refl].
    assert (F := find_save_row key x tbl). apply find_some in F. exact (proj1 F). }
  assert (M : forall y, In y (save_row key x tbl) ->
                        (if key y =? key x then x else y) = y).
  { intros y Hy. destruct (key y =? key x) eqn:K; [|reflexivity].
    unfold save_row in Hy. destruct (existsb _ tbl) eqn:E0.
    - apply in_map_iff in Hy. destruct Hy as [z [Hz _]].
      destruct (key z =? key x) eqn:Kz; [now symmetry|].
      subst z. rewrite K in Kz. discriminate.
    - apply in_app_or in Hy. destruct Hy as [Hy|[Hy|[]]]; [|now symmetry].
      exfalso. assert (existsb (fun y => key y =? key x) tbl = true) as C.
      { apply existsb_exists. now exists y. }
      congruence. }
  unfold save_row at 1. rewrite E.
  rewrite <- (map_id (save_row key x tbl)) at 2.
  apply map_ext_in. exact M.
Qed.

(** X4.  [disable_2fa] is idempotent: a retry returns again and leaves the very
    world the first call left. *)
Theorem disable_2fa_idempotent :
  forall (user : User) (w : World),
    disable_2fa user (snd (disable_2fa user w)) = disable_2fa user w.
Proof.
  intros user w. rewrite !disable_2fa_world. simpl.
  now rewrite !objects_delete_idem, save_row_idem.
Qed.

(** ** Generated codes are accepted *)

(** X5.  Round trip.  When [generate_backup_codes] has returned its batch, each
    code of the batch, submitted in any letter case, is accepted by
    [_verify_backup_code] once and refused when submitted again. *)
Theorem generated_code_is_accepted_once :
  forall (user : User) (count : Z) (w : World) (c c' : string),
    fresh_codes (batch upper token_hex (draws w) (Z.to_nat count))
                (objects_delete (code_of (user_id user)) (backup_codes w)) = true ->
    In c (batch upper token_hex (draws w) (Z.to_nat count)) ->
    upper c' = c ->
    let w1 := snd (generate user count w) in
    let w2 := snd (_verify_backup_code upper user c' w1) in
    fst (generate user count w) = Return (batch upper token_hex (draws w) (Z.to_nat count)) /\
    fst (_verify_backup_code upper user c' w1) = Return true /\
    _verify_backup_code upper user c' w2 = (Return false, w2).
Proof.
  intros user count w c c' Hfresh Hin Hup.
  rewrite (generate_fresh _ _ _ Hfresh). cbn [fst snd].
  set (w1 := after_generation upper token_hex (user_id user) (Z.to_nat count)
               (delete_codes_of (user_id user) w)).
  apply fresh_codes_spec in Hfresh. destruct Hfresh as [Hnd _].
  destruct (new_rows_match_one (user_id user) (next_code_id w) (clock w) _ c Hnd Hin)
    as [b [Hb _]].
  assert (F : filter (by_user_code_used (user_id user) (upper c') false)
                (backup_codes w1) = [b]).
  { rewrite Hup. subst w1. unfold after_generation, delete_codes_of.
    cbn [backup_codes set_backup_codes next_code_id clock draws].
    rewrite filter_app, Hb.
    assert (E : filter (by_user_code_used (user_id user) c false)
                  (objects_delete (code_of (user_id user)) (backup_codes w)) = []).
    { apply (filter_weaken_nil (code_of (user_id user))).
      - intros x Hx. apply by_user_code_used_unused in Hx.
        destruct Hx as [Hx _]. apply andb_true_iff in Hx. exact (proj1 Hx).
      - apply filter_delete_same. }
    rewrite E. reflexivity. }
  split; [reflexivity|].
  rewrite (verify_backup_code_found user c' w1 b (objects_get_one _ _ _ F)).
  cbn [fst snd]. split; [reflexivity|].
  unfold _verify_backup_code at 1. unfold_m.
  rewrite (objects_get_none _ _ (consumed_code_gone _ _ _ _ F)). reflexivity.
Qed.

(** ** When the random draws collide *)

Lemma generate_loop_collision (uid n : nat) :
  forall (codes : list string) (w : World),
    fresh_codes (batch upper token_hex (draws w) n) (backup_codes w) = false ->
    exists k,
      k < n /\
      generate_loop upper token_hex uid n codes w
      = (Raise IntegrityError,
         set_draws (S (draws w + k)) (after_generation upper token_hex uid k w)).
Proof.
  induction n as [|n IH]; intros codes w Hfresh; [discriminate|].
  rewrite batch_succ in Hfresh. simpl.
  unfold bind at 1. unfold draw at 1. unfold_m. simpl.
  unfold create_backup_code at 1. unfold_m. simpl.
  destruct (existsb (fun b => String.eqb (code b) (upper (token_hex (draws w))))
                    (backup_codes w)) eqn:Habs.
  - exists 0. split; [lia|]. simpl. unfold after_generation, set_draws. simpl.
    rewrite app_nil_r, !Nat.add_0_r. reflexivity.
  - set (row := mkCode (next_code_id w) uid (upper (token_hex (draws w)))
                       false (clock w) None).
    set (w1 := set_next_code_id (S (next_code_id w))
                 (set_backup_codes (backup_codes w ++ [row])
                                   (set_draws (S (draws w)) w))).
    assert (Hrest : fresh_codes (batch upper token_hex (draws w1) n) (backup_codes w1) = false).
    { destruct (fresh_codes (batch upper token_hex (draws w1) n) (backup_codes w1)) eqn:F;
        [|reflexivity].
      exfalso. apply fresh_codes_spec in F. destruct F as [Fnd Fout]. simpl in Fnd, Fout.
      assert (fresh_codes (upper (token_hex (draws w)) :: batch upper token_hex (S (draws w)) n)
                          (backup_codes w) = true) as C; [|congruence].
      apply fresh_codes_spec. split.
      - constructor; [|exact Fnd]. intros Hin. apply (Fout _ Hin).
        rewrite map_app. apply in_or_app. right. now left.
      - intros c [<-|Hc].
        + now apply code_absent.
        + intros Hin. apply (Fout c Hc). rewrite map_app. apply in_or_app. now left. }
    destruct (IH (codes ++ [upper (token_hex (draws w))])%list w1 Hrest) as [k [Hk Hrun]].
    exists (S k). split; [lia|].
    change (generate_loop upper token_hex uid n (codes ++ [upper (token_hex (draws w))]) w1
            = (Raise IntegrityError,
               set_draws (S (draws w + S k))
                         (after_generation upper token_hex uid (S k) w))).
    rewrite Hrun. f_equal. unfold after_generation, set_draws.
    cbn [users devices backup_codes next_device_id next_code_id draws clock
         outbox w1 set_next_code_id set_backup_codes set_draws].
    rewrite batch_succ. cbn [new_rows]. rewrite <- !app_assoc. cbn [app].
    now rewrite !Nat.add_succ_r.
Qed.

(** X6.  [generate_backup_codes] returns exactly when its draws are fresh.  When
    a draw repeats or hits a stored code, the call raises [IntegrityError]
    after the user's old codes were deleted and the codes drawn before the
    collision were stored: the user is left with an incomplete new batch. *)
Theorem generate_backup_codes_collision_raises :
  forall (user : User) (count : Z) (w : World),
    fresh_codes (batch upper token_hex (draws w) (Z.to_nat count))
                (objects_delete (code_of (user_id user)) (backup_codes w)) = false ->
    exists k,
      k < Z.to_nat count /\
      fst (generate user count w) = Raise IntegrityError /\
      unused_codes (user_id user) (snd (generate user count w))
        = batch upper token_hex (draws w) k.
Proof.
  intros user count w H.
  assert (G : generate user count w
              = generate_loop upper token_hex (user_id user) (Z.to_nat count) []
                              (delete_codes_of (user_id user) w)) by reflexivity.
  destruct (generate_loop_collision (user_id user) (Z.to_nat count) []
              (delete_codes_of (user_id user) w) H) as [k [Hk Hrun]].
  exists k. split; [exact Hk|]. rewrite G, Hrun. cbn [fst snd].
  split; [reflexivity|].
  exact (unused_after_generation (user_id user) k w).
Qed.

(** ** Enrolling over a confirmed device *)

Lemma enable_creates (user : User) (w : World) :
  objects_get (by_user_name_confirmed (user_id user) "default" false) (devices w)
    = DoesNotExist ->
  fresh_codes (batch upper token_hex (S (draws w)) 10)
              (objects_delete (code_of (user_id user)) (backup_codes w)) = true ->
  enable user w =
  (Return (mkEnrollment
             (qr_png (config_url (new_device (next_device_id w) (user_id user)
                                        (default_key (draws w)))))
             (default_key (draws w))
             (batch upper token_hex (S (draws w)) 10)),
   after_generation upper token_hex (user_id user) 10
     (delete_codes_of (user_id user) (after_device default_key (user_id user) w))).
Proof.
  intros E Hfresh.
  unfold enable_2fa. unfold bind at 1. unfold get_or_create_device.
  unfold bind at 1. unfold gets at 1.
  rewrite E. unfold draw. unfold_m. simpl.
  pose proof (generate_fresh user 10 (after_device default_key (user_id user) w)) as G.
  simpl in G. specialize (G Hfresh). unfold after_device in G at 1.
  unfold set_next_device_id, set_devices, set_draws. simpl.
  rewrite G. reflexivity.
Qed.

(** X7.  [enable_2fa] looks for an unconfirmed device only.  Called for a user
    whose device is confirmed, it does not reuse that device: it stores a
    second one with a new key and returns that key, and from then on
    [verify_2fa_token] raises [MultipleObjectsReturned] for every token. *)
Theorem enable_2fa_over_confirmed_device_locks_out :
  forall (user : User) (w : World) (d : TOTPDevice),
    objects_get (by_user_name (user_id user) "default") (devices w) = Found d ->
    dev_confirmed d = true ->
    fresh_codes (batch upper token_hex (S (draws w)) 10)
                (objects_delete (code_of (user_id user)) (backup_codes w)) = true ->
    exists e w',
      enable user w = (Return e, w') /\
      secret_key e = default_key (draws w) /\
      List.length (filter (device_of (user_id user)) (devices w'))
        = S (List.length (filter (device_of (user_id user)) (devices w))) /\
      forall token, verify user token w' = (Raise MultipleObjectsReturned, w').
Proof.
  intros user w d Hd Hc Hfresh. apply objects_get_found in Hd.
  assert (E : objects_get (by_user_name_confirmed (user_id user) "default" false)
                (devices w) = DoesNotExist).
  { apply objects_get_none. rewrite filter_confirmed_split, Hd. simpl.
    now rewrite Hc. }
  eexists. eexists. split; [exact (enable_creates user w E Hfresh)|].
  cbn [secret_key]. split; [reflexivity|].
  assert (D : devices (after_generation upper token_hex (user_id user) 10
                 (delete_codes_of (user_id user)
                    (after_device default_key (user_id user) w)))
              = (devices w ++
                 [new_device (next_device_id w) (user_id user)
                             (default_key (draws w))])%list) by reflexivity.
  split.
  - rewrite D, filter_app, length_app. simpl. unfold device_of at 2. simpl.
    rewrite Nat.eqb_refl. simpl. lia.
  - intros token. unfold verify_2fa_token. unfold_m. rewrite D.
    unfold objects_get. rewrite filter_app, Hd. simpl.
    unfold by_user_name at 1. simpl. rewrite Nat.eqb_refl. reflexivity.
Qed.

(** ** Regenerating through the view *)

(** X8.  [RegenerateBackupCodesView.post] is gated on the flag.  With the flag
    clear (so also for a user whose device is still unconfirmed) it answers
    400 and changes nothing.  With the flag set and fresh draws it answers
    200 with ten codes, which are then exactly the user's unused codes,
    while devices and user rows stay as they were. *)
Theorem RegenerateBackupCodesView_post_replaces_batch :
  forall (user : User) (w : World),
    (is_2fa_enabled user = false ->
     RegenerateBackupCodesView_post upper token_hex user w
       = (Return (mkResponse 400 (Message "2FA is not enabled.")), w)) /\
    (is_2fa_enabled user = true ->
     fresh_codes (batch upper token_hex (draws w) 10)
                 (objects_delete (code_of (user_id user)) (backup_codes w)) = true ->
     let w' := snd (RegenerateBackupCodesView_post upper token_hex user w) in
     fst (RegenerateBackupCodesView_post upper token_hex user w)
       = Return (mkResponse 200
                   (Regenerated "Backup codes regenerated successfully."
                                (batch upper token_hex (draws w) 10))) /\
     List.length (batch upper token_hex (draws w) 10) = 10 /\
     unused_codes (user_id user) w' = batch upper token_hex (draws w) 10 /\
     devices w' = devices w /\ users w' = users w).
Proof.
  intros user w. unfold RegenerateBackupCodesView_post. split.
  - intros ->. reflexivity.
  - intros Hflag Hfresh. rewrite Hflag. cbn [negb]. unfold bind.
    rewrite (generate_fresh user 10 w Hfresh). unfold ret. cbn [fst snd].
    split; [reflexivity|]. split; [apply batch_length|].
    split; [apply (unused_after_generation (user_id user) 10 w)|].
    split; reflexivity.
Qed.

(** ** Flag and device stay in step *)

Lemma same_credentials_refl (w : World) : same_credentials w w.
Proof. unfold same_credentials. auto. Qed.

Lemma same_credentials_trans (w1 w2 w3 : World) :
  same_credentials w1 w2 -> same_credentials w2 w3 -> same_credentials w1 w3.
Proof. unfold same_credentials. intros [A [B C]] [D [E F]]. repeat split; congruence. Qed.

Lemma keeps_ret {A} (a : A) : keeps_credentials (ret a).
Proof. intros w. apply same_credentials_refl. Qed.

Lemma keeps_raise {A} (e : exn) : keeps_credentials (@raise A e).
Proof. intros w. apply same_credentials_refl. Qed.

Lemma keeps_gets {A} (f : World -> A) : keeps_credentials (gets f).
Proof. intros w. apply same_credentials_refl. Qed.

Lemma keeps_modify (f : World -> World) :
  (forall w, same_credentials w (f w)) -> keeps_credentials (modify f).
Proof. intros H w. apply H. Qed.

(** Whatever [m] did, a continuation that keeps the credentials leaves
    them as [m] left them. *)
Lemma after_bind {A B} (m : M A) (k : A -> M B) (w : World) :
  (forall a, keeps_credentials (k a)) ->
  same_credentials (snd (m w)) (snd (bind m k w)).
Proof.
  intros Hk. unfold bind. destruct (m w) as [[a|e] w1]; simpl.
  - apply Hk.
  - apply same_credentials_refl.
Qed.

Lemma keeps_bind {A B} (m : M A) (k : A -> M B) :
  keeps_credentials m -> (forall a, keeps_credentials (k a)) ->
  keeps_credentials (bind m k).
Proof.
  intros Hm Hk w.
  apply (same_credentials_trans _ (snd (m w))); [apply Hm|now apply after_bind].
Qed.

Lemma keeps_draw (source : nat -> string) : keeps_credentials (draw source).
Proof.
  unfold draw. apply keeps_bind; [apply keeps_gets|]. intros n.
  apply keeps_bind; [|intros; apply keeps_ret].
  apply keeps_modify. intros w. repeat split.
Qed.

Lemma keeps_create_backup_code (uid : nat) (c : string) :
  keeps_credentials (create_backup_code uid c).
Proof.
  unfold create_backup_code. apply keeps_bind; [apply keeps_gets|]. intros tbl.
  destruct (existsb _ tbl); [apply keeps_raise|].
  apply keeps_bind; [apply keeps_gets|]. intros now.
  apply keeps_bind; [apply keeps_gets|]. intros pk.
  apply keeps_modify. intros w. repeat split.
Qed.

Lemma keeps_generate_loop (uid n : nat) (codes : list string) :
  keeps_credentials (generate_loop upper token_hex uid n codes).
Proof.
  revert codes. induction n as [|n IH]; intros codes; simpl.
  - apply keeps_ret.
  - apply keeps_bind; [apply keeps_draw|]. intros hex.
    apply keeps_bind; [apply keeps_create_backup_code|]. intros _. apply IH.
Qed.

Lemma keeps_generate (user : User) (count : Z) :
  keeps_credentials (generate user count).
Proof.
  unfold generate_backup_codes. apply keeps_bind.
  - apply keeps_modify. intros w. repeat split.
  - intros _. apply keeps_generate_loop.
Qed.

Lemma keeps_verify_backup_code (user : User) (c : string) :
  keeps_credentials (_verify_backup_code upper user c).
Proof.
  unfold _verify_backup_code. apply keeps_bind; [apply keeps_gets|].
  intros tbl. destruct (objects_get _ tbl).
  - apply keeps_ret.
  - apply keeps_bind; [|intros; apply keeps_ret].
    unfold mark_as_used. apply keeps_bind; [apply keeps_gets|]. intros now.
    apply keeps_modify. intros w. repeat split.
  - apply keeps_raise.
Qed.

Lemma keeps_send_mail (user : User) :
  keeps_credentials (send_2fa_enabled_email delivers user).
Proof.
  unfold send_2fa_enabled_email. apply keeps_bind; [apply keeps_gets|].
  intros [|]; [|apply keeps_raise]. apply keeps_modify. intros w. repeat split.
Qed.

Lemma coherent_same (w w' : World) :
  same_credentials w w' -> coherent w -> coherent w'.
Proof.
  intros [D [U N]]. unfold coherent, state_of, flag_of, request_user.
  now rewrite D, U, N.
Qed.

Lemma request_user_id (uid : nat) (w : World) (u : User) :
  request_user uid w = Some u -> user_id u = uid.
Proof.
  unfold request_user. intros H. apply find_some in H.
  now apply Nat.eqb_eq.
Qed.

Lemma NoDup_snoc {A} (l : list A) (x : A) :
  NoDup l -> ~ In x l -> NoDup (l ++ [x]).
Proof.
  induction l as [|a l IH]; simpl; intros Hnd Hx.
  - repeat constructor. intros [].
  - inversion Hnd; subst. constructor.
    + intros Hin. apply in_app_or in Hin. destruct Hin as [Hin|[->|[]]]; auto.
    + apply IH; auto.
Qed.

(** Deleting rows keeps a column free of repeats. *)
Lemma unique_after_delete {A B} (column : A -> B) (tbl : list A) (p : A -> bool)
    (Hnd : NoDup (map column tbl)) :
  NoDup (map column (objects_delete p tbl)).
Proof.
  unfold objects_delete. induction tbl as [|row tbl IH]; simpl; [constructor|].
  simpl in Hnd. inversion Hnd as [|x xs Hnot Hnd']; subst.
  destruct (negb (p row)); simpl; [|now apply IH].
  constructor; [|now apply IH]. intros Hin. apply in_map_iff in Hin.
  destruct Hin as [y [Hy Hin]]. apply filter_In in Hin.
  apply Hnot. rewrite <- Hy. apply in_map. exact (proj1 Hin).
Qed.

Lemma coherent_after_device (uid : nat) (w : World) :
  coherent w -> state_of uid w = Some DISABLED ->
  coherent (after_device default_key uid w).
Proof.
  intros [Hnd [Hlt Hst]] Hdis. unfold coherent. simpl. split; [|split].
  - rewrite map_app. simpl. apply NoDup_snoc; [exact Hnd|].
    intros Hin. apply in_map_iff in Hin. destruct Hin as [d [Hd Hin]].
    rewrite Forall_forall in Hlt. specialize (Hlt d Hin). lia.
  - apply Forall_app. split.
    + eapply Forall_impl; [|exact Hlt]. simpl. intros; lia.
    + repeat constructor.
  - intros other. specialize (Hst other).
    unfold state_of, flag_of, request_user in *. simpl.
    unfold objects_get in *. rewrite filter_app. simpl.
    unfold by_user_name at 2. simpl.
    destruct (uid =? other) eqn:E.
    + apply Nat.eqb_eq in E. subst other. simpl.
      destruct (filter (by_user_name uid "default") (devices w)) as [|d [|d' l]];
        try discriminate; [|destruct (dev_confirmed d); discriminate].
      simpl. exact Hst.
    + simpl. rewrite app_nil_r. exact Hst.
Qed.

Lemma pending_found_unconfirmed (uid : nat) (w : World) :
  state_of uid w = Some PENDING ->
  exists d, objects_get (by_user_name_confirmed uid "default" false) (devices w)
            = Found d.
Proof.
  unfold state_of. destruct (objects_get _ (devices w)) as [|d|] eqn:Hd;
    try discriminate.
  destruct (dev_confirmed d) eqn:Hc; [discriminate|]. intros _.
  exists d. apply objects_get_found in Hd. apply objects_get_one.
  rewrite filter_confirmed_split, Hd. simpl. now rewrite Hc.
Qed.

(** [enable_2fa] after its device lookup. *)
Lemma enable_unfold (user : User) (w : World) :
  enable user w =
  let rest (device : TOTPDevice) :=
    bind (generate user 10)
         (fun backup => ret (mkEnrollment (qr_png (config_url device))
                                          (dev_key device) backup)) in
  match objects_get (by_user_name_confirmed (user_id user) "default" false)
                    (devices w) with
  | DoesNotExist =>
      rest (new_device (next_device_id w) (user_id user) (default_key (draws w)))
           (after_device default_key (user_id user) w)
  | Found d => rest d w
  | Multiple => (Raise MultipleObjectsReturned, w)
  end.
Proof.
  unfold enable_2fa, get_or_create_device. unfold bind at 1 2. unfold gets at 1.
  destruct (objects_get _ (devices w)); reflexivity.
Qed.

Lemma enable_credentials (user : User) (w : World) :
  same_credentials w (snd (enable user w)) \/
  (objects_get (by_user_name_confirmed (user_id user) "default" false) (devices w)
     = DoesNotExist /\
   same_credentials (after_device default_key (user_id user) w)
                    (snd (enable user w))).
Proof.
  assert (K : forall device : TOTPDevice,
            keeps_credentials
              (bind (generate user 10)
                    (fun backup => ret (mkEnrollment (qr_png (config_url device))
                                                     (dev_key device) backup)))).
  { intros dc. apply keeps_bind; [apply keeps_generate|]. intros; apply keeps_ret. }
  rewrite enable_unfold. cbv zeta.
  destruct (objects_get _ (devices w)) as [|d|] eqn:E.
  - right. split; [reflexivity|]. apply K.
  - left. apply K.
  - left. apply same_credentials_refl.
Qed.

Lemma coherent_enable_view (user : User) (w : World) :
  coherent w -> request_user (user_id user) w = Some user ->
  coherent (snd (Enable2FAView_post upper default_key token_hex config_url qr_png
                                    b64encode user w)).
Proof.
  intros Hc Hu. unfold Enable2FAView_post.
  destruct (is_2fa_enabled user) eqn:Hflag; [exact Hc|].
  assert (A : same_credentials (snd (enable user w))
                (snd (bind (enable user)
                           (fun result =>
                              ret (mkResponse 200
                                (Provisioning "Scan the QR code with your authenticator app."
                                   ("data:image/png;base64," ++ b64encode (qr_code result))
                                   (secret_key result) (enrolled_backup_codes result)))) w))).
  { apply after_bind. intros; apply keeps_ret. }
  apply (coherent_same _ _ A).
  destruct (enable_credentials user w) as [S|[E S]].
  - exact (coherent_same _ _ S Hc).
  - apply (coherent_same _ _ S). apply coherent_after_device; [exact Hc|].
    pose proof Hc as [_ [_ Hst]]. specialize (Hst (user_id user)).
    unfold flag_of in Hst. rewrite Hu, Hflag in Hst.
    destruct (state_of (user_id user) w) as [[| |]|] eqn:St;
      [reflexivity| |discriminate|destruct Hst].
    destruct (pending_found_unconfirmed _ _ St) as [d Hd]. congruence.
Qed.

(** [verify_2fa_token] keeps flag and device in step. *)
Lemma filter_map_update {A} (key : A -> nat) (p : A -> bool) (x' : A)
    (tbl : list A) :
  (forall y, In y tbl -> key y = key x' -> p y = p x') ->
  filter p (map (fun y => if key y =? key x' then x' else y) tbl)
  = map (fun y => if key y =? key x' then x' else y) (filter p tbl).
Proof.
  induction tbl as [|a l IH]; intros H; [reflexivity|]. simpl.
  assert (IH' := IH (fun y Hy => H y (or_intror Hy))).
  destruct (key a =? key x') eqn:K.
  - apply Nat.eqb_eq in K. rewrite <- (H a (or_introl eq_refl) K).
    destruct (p a); simpl; [rewrite <- K, Nat.eqb_refl, K|]; now rewrite IH'.
  - destruct (p a); simpl; [rewrite K|]; now rewrite IH'.
Qed.

(** Saving a device row with its owner, name and [confirmed] as stored
    changes nobody's state. *)
Lemma state_of_save_same (other : nat) (d d' : TOTPDevice) (w : World) :
  NoDup (map dev_id (devices w)) -> In d (devices w) ->
  dev_id d' = dev_id d -> dev_user d' = dev_user d -> dev_name d' = dev_name d ->
  dev_confirmed d' = dev_confirmed d ->
  state_of other (set_devices (save_row dev_id d' (devices w)) w) = state_of other w.
Proof.
  intros Hnd Hin Hk Hu Hn Hc. unfold state_of, objects_get.
  cbn [devices set_devices]. unfold save_row.
  assert (E : existsb (fun y => dev_id y =? dev_id d') (devices w) = true).
  { apply existsb_exists. exists d. split; [exact Hin|]. rewrite Hk. apply Nat.eqb_refl. }
  rewrite E, filter_map_update.
  - destruct (filter (by_user_name other "default") (devices w)) as [|x [|y l]] eqn:F;
      try reflexivity.
    cbn [map]. destruct (dev_id x =? dev_id d') eqn:K; [|reflexivity].
    apply Nat.eqb_eq in K. rewrite Hk in K.
    assert (Hx : In x (devices w)).
    { assert (In x (filter (by_user_name other "default") (devices w))) as I
        by (rewrite F; now left).
      apply filter_In in I. exact (proj1 I). }
    rewrite (unique_key_row dev_id _ _ _ Hnd Hx Hin K). now rewrite Hc.
  - intros y Hy K. rewrite Hk in K.
    rewrite (unique_key_row dev_id _ _ _ Hnd Hy Hin K).
    unfold by_user_name. now rewrite Hu, Hn.
Qed.

Lemma coherent_after_check (uid : nat) (d : TOTPDevice) (token : string) (w : World) :
  coherent w ->
  objects_get (by_user_name uid "default") (devices w) = Found d ->
  coherent (after_check verify_token d token w).
Proof.
  intros Hc Hd. unfold after_check.
  destruct (snd (verify_token d token (clock w))) as [st|]; [|exact Hc].
  destruct Hc as [Hnd [Hlt Hst]]. apply objects_get_found in Hd.
  destruct (found_device_owner _ _ _ _ Hd) as [Hin _].
  unfold coherent. split; [|split].
  - cbn [devices set_devices].
    rewrite (map_key_save_row dev_id (set_otp st d)); [exact Hnd|].
    apply existsb_exists. exists d. split; [exact Hin|apply Nat.eqb_refl].
  - cbn [devices set_devices next_device_id]. apply Forall_forall. intros x Hx.
    apply in_save_row in Hx. rewrite Forall_forall in Hlt.
    destruct Hx as [->|Hx]; [exact (Hlt d Hin)|auto].
  - intros other.
    rewrite (state_of_save_same other d (set_otp st d) w Hnd Hin
               eq_refl eq_refl eq_refl eq_refl).
    exact (Hst other).
Qed.

Lemma coherent_confirm (user : User) (w w' : World) (d d' : TOTPDevice) :
  coherent w ->
  objects_get (by_user_name (user_id user) "default") (devices w) = Found d ->
  dev_id d' = dev_id d -> dev_user d' = dev_user d -> dev_name d' = dev_name d ->
  dev_confirmed d' = true ->
  devices w' = save_row dev_id d' (devices w) ->
  users w' = save_row user_id (mkUser (user_id user) true) (users w) ->
  next_device_id w' = next_device_id w ->
  coherent w'.
Proof.
  intros [Hnd [Hlt Hst]] Hd Hk Hu Hn Hconf HD HU HN. apply objects_get_found in Hd.
  destruct (found_device_owner _ _ _ _ Hd) as [Hin [Hown Hp]].
  assert (Hp' : by_user_name (user_id user) "default" d' = true).
  { unfold by_user_name in Hp |- *. now rewrite Hu, Hn. }
  assert (Hown' : dev_user d' = user_id user) by congruence.
  assert (E : existsb (fun y => dev_id y =? dev_id d') (devices w) = true).
  { apply existsb_exists. exists d. split; [exact Hin|]. rewrite Hk. apply Nat.eqb_refl. }
  unfold coherent. rewrite HD, HN. split; [|split].
  - now rewrite (map_key_save_row dev_id d' _ E).
  - apply Forall_forall. intros x Hx. apply in_save_row in Hx.
    rewrite Forall_forall in Hlt. destruct Hx as [->|Hx]; [|auto].
    rewrite Hk. exact (Hlt d Hin).
  - intros other. unfold state_of, flag_of, request_user. rewrite HD, HU.
    destruct (Nat.eq_dec other (user_id user)) as [->|Hne].
    + rewrite (objects_get_one _ _ _
                 (filter_save_row_one dev_id _ d d' _ Hnd Hd Hk Hp')).
      rewrite Hconf. now rewrite (find_save_row user_id (mkUser (user_id user) true)).
    + unfold objects_get.
      rewrite (filter_save_row_other dev_id _ d d' _ Hnd Hin Hk
                 (by_user_name_other _ _ _ _ Hown Hne)
                 (by_user_name_other _ _ _ d' Hown' Hne)).
      rewrite (find_save_row_other user_id (mkUser (user_id user) true) other)
        by (simpl; congruence).
      exact (Hst other).
Qed.

Lemma coherent_verify (user : User) (token : string) (w : World) :
  coherent w -> coherent (snd (verify user token w)).
Proof.
  intros Hc. rewrite verify_unfold.
  destruct (objects_get _ (devices w)) as [|d|] eqn:Hd; [exact Hc| |exact Hc].
  cbv zeta. pose proof (coherent_after_check _ d token w Hc Hd) as Hc1.
  destruct (fst (verify_token d token (clock w))).
  - destruct (dev_confirmed d) eqn:Hconf; [exact Hc1|]. cbn [snd].
    destruct (after_check_lookup _ d token w (proj1 Hc) Hd) as [Hd1 _].
    apply (coherent_confirm user (after_check verify_token d token w) _
             (checked verify_token d token (clock w))
             (set_confirmed true (checked verify_token d token (clock w)))
             Hc1 Hd1); reflexivity.
  - exact (coherent_same _ _ (keeps_verify_backup_code user token _) Hc1).
Qed.

Lemma coherent_verify_view (user : User) (token : string) (w : World) :
  coherent w ->
  coherent (snd (Verify2FAView_post upper verify_token delivers user token w)).
Proof.
  intros Hc. unfold Verify2FAView_post.
  match goal with |- coherent (snd (bind ?m ?k w)) =>
    assert (A : same_credentials (snd (m w)) (snd (bind m k w))) end.
  { apply after_bind. intros [|]; [|apply keeps_ret].
    apply keeps_bind; [apply keeps_send_mail|]. intros; apply keeps_ret. }
  apply (coherent_same _ _ A). now apply coherent_verify.
Qed.

Lemma coherent_disable (user : User) (w : World) :
  coherent w -> coherent (snd (disable_2fa user w)).
Proof.
  intros [Hnd [Hlt Hst]]. rewrite disable_2fa_world. unfold coherent. simpl.
  split; [|split].
  - now apply unique_after_delete.
  - unfold objects_delete. apply Forall_forall. intros d Hd.
    apply filter_In in Hd. rewrite Forall_forall in Hlt. apply Hlt. exact (proj1 Hd).
  - intros other. unfold state_of, flag_of, request_user. simpl.
    destruct (Nat.eq_dec other (user_id user)) as [->|Hne].
    + assert (F : filter (by_user_name (user_id user) "default")
                    (objects_delete (device_of (user_id user)) (devices w)) = []).
      { apply (filter_weaken_nil (device_of (user_id user))).
        - intros d Hd. unfold by_user_name in Hd. apply andb_true_iff in Hd.
          exact (proj1 Hd).
        - apply filter_delete_same. }
      rewrite (objects_get_none _ _ F).
      now rewrite (find_save_row user_id (mkUser (user_id user) false)).
    + unfold objects_get. rewrite filter_delete_other.
      * rewrite (find_save_row_other user_id (mkUser (user_id user) false) other)
          by (simpl; congruence).
        exact (Hst other).
      * intros d Hd. unfold by_user_name in Hd. apply andb_true_iff in Hd.
        destruct Hd as [Hd _]. apply Nat.eqb_eq in Hd. unfold device_of.
        rewrite Hd. now apply Nat.eqb_neq.
Qed.

Lemma coherent_handle (r : Request) (w : World) :
  coherent w ->
  coherent (handle upper verify_token default_key token_hex config_url qr_png delivers b64encode r w).
Proof.
  intros Hc. destruct r as [uid|uid token|uid|uid]; simpl;
    destruct (request_user uid w) as [user|] eqn:Hu; try exact Hc.
  - apply coherent_enable_view; [exact Hc|].
    now rewrite (request_user_id _ _ _ Hu).
  - now apply coherent_verify_view.
  - unfold Disable2FAView_post. destruct (negb (is_2fa_enabled user)); [exact Hc|].
    match goal with |- coherent (snd (bind ?m ?k w)) =>
      assert (A : same_credentials (snd (m w)) (snd (bind m k w))) end.
    { apply after_bind. intros; apply keeps_ret. }
    apply (coherent_same _ _ A). now apply coherent_disable.
  - unfold RegenerateBackupCodesView_post.
    destruct (negb (is_2fa_enabled user)); [exact Hc|].
    refine (coherent_same _ _ _ Hc).
    apply keeps_bind; [apply keeps_generate|]. intros; apply keeps_ret.
Qed.

(** X9.  Flag and device stay in step.  From a world in which every user has at
    most one "default" device and the stored flag [is_2fa_enabled] is set
    exactly when that device is confirmed, any sequence of requests to the
    four 2FA views, by any users, leads to such a world again.  So the flag
    never claims 2FA for a user without a confirmed device, and no request
    leaves a user with two devices. *)
Theorem requests_keep_flag_and_device_coherent :
  forall (requests : list Request) (w : World),
    coherent w ->
    coherent (fold_left
                (fun w r => handle upper verify_token default_key token_hex config_url
                                   qr_png delivers b64encode r w)
                requests w).
Proof.
  induction requests as [|r rs IH]; intros w Hc; simpl; [exact Hc|].
  apply IH. now apply coherent_handle.
Qed.

(** ** Lookups stay unambiguous *)

Lemma tidy_ret {A} (a : A) : tidy (ret a).
Proof. intros w H. exact H. Qed.

Lemma tidy_raise {A} (e : exn) : tidy (@raise A e).
Proof. intros w H. exact H. Qed.

Lemma tidy_gets {A} (f : World -> A) : tidy (gets f).
Proof. intros w H. exact H. Qed.

Lemma tidy_bind {A B} (m : M A) (k : A -> M B) :
  tidy m -> (forall a, tidy (k a)) -> tidy (bind m k).
Proof.
  intros Hm Hk w H. unfold bind. specialize (Hm w H).
  destruct (m w) as [[a|e] w1]; simpl in Hm |- *; [now apply Hk|exact Hm].
Qed.

Lemma tidy_modify_same (f : World -> World) :
  (forall w, backup_codes (f w) = backup_codes w) ->
  (forall w, next_code_id (f w) = next_code_id w) ->
  tidy (modify f).
Proof.
  intros Ht Hn w H. unfold table_sound, codes_unique, keys_ok in *. simpl.
  now rewrite Ht, Hn.
Qed.

Lemma tidy_delete_codes (p : TwoFactorBackupCode -> bool) :
  tidy (modify (fun w => set_backup_codes (objects_delete p (backup_codes w)) w)).
Proof.
  intros w [Hc [Hk Hlt]]. unfold table_sound, codes_unique, keys_ok, objects_delete.
  simpl. split; [|split].
  - now apply unique_after_delete.
  - now apply unique_after_delete.
  - apply Forall_forall. intros b Hb. apply filter_In in Hb.
    rewrite Forall_forall in Hlt. apply Hlt. exact (proj1 Hb).
Qed.

Lemma tidy_create_backup_code (uid : nat) (c : string) :
  tidy (create_backup_code uid c).
Proof.
  intros w [Hc [Hk Hlt]]. unfold create_backup_code. unfold_m.
  destruct (existsb _ (backup_codes w)) eqn:E; simpl; [now repeat split|].
  unfold table_sound, codes_unique, keys_ok. simpl. rewrite !map_app. simpl.
  split; [|split].
  - apply NoDup_snoc; [exact Hc|]. now apply code_absent.
  - apply NoDup_snoc; [exact Hk|]. intros Hin. apply in_map_iff in Hin.
    destruct Hin as [b [Hb Hin]]. rewrite Forall_forall in Hlt.
    specialize (Hlt b Hin). lia.
  - apply Forall_app. split.
    + eapply Forall_impl; [|exact Hlt]. simpl. intros; lia.
    + repeat constructor.
Qed.

Lemma tidy_draw (source : nat -> string) : tidy (draw source).
Proof.
  unfold draw. apply tidy_bind; [apply tidy_gets|]. intros n.
  apply tidy_bind; [|intros; apply tidy_ret].
  apply tidy_modify_same; reflexivity.
Qed.

Lemma tidy_generate (user : User) (count : Z) : tidy (generate user count).
Proof.
  unfold generate_backup_codes. apply tidy_bind; [apply tidy_delete_codes|].
  intros _. generalize (@nil string).
  induction (Z.to_nat count) as [|n IH]; intros codes; simpl.
  - apply tidy_ret.
  - apply tidy_bind; [apply tidy_draw|]. intros hex.
    apply tidy_bind; [apply tidy_create_backup_code|]. intros _. apply IH.
Qed.

(** Marking a row that is in the table changes neither its code nor its
    key. *)
Lemma tidy_mark_found (b : TwoFactorBackupCode) (w : World) :
  In b (backup_codes w) -> table_sound w -> table_sound (snd (mark_as_used b w)).
Proof.
  intros Hin [Hc [Hk Hlt]]. simpl.
  set (b' := mkCode (bc_id b) (bc_user b) (code b) true (created_at b)
                    (Some (clock w))).
  assert (E : existsb (fun y => bc_id y =? bc_id b') (backup_codes w) = true).
  { apply existsb_exists. exists b. split; [exact Hin|apply Nat.eqb_refl]. }
  unfold table_sound, codes_unique, keys_ok. simpl. split; [|split].
  - unfold save_row. rewrite E, map_map.
    rewrite (map_ext_in _ code); [exact Hc|].
    intros y Hy. destruct (bc_id y =? bc_id b') eqn:K; [|reflexivity].
    apply Nat.eqb_eq in K. simpl in K.
    now rewrite (unique_key_row bc_id _ _ _ Hk Hy Hin K).
  - now rewrite (map_key_save_row bc_id b' _ E).
  - apply Forall_forall. intros x Hx. apply in_save_row in Hx.
    rewrite Forall_forall in Hlt. destruct Hx as [->|Hx]; [|auto].
    exact (Hlt b Hin).
Qed.

Lemma tidy_verify_backup_code (user : User) (c : string) :
  tidy (_verify_backup_code upper user c).
Proof.
  intros w H. unfold _verify_backup_code. unfold_m.
  destruct (objects_get _ (backup_codes w)) as [|b|] eqn:E; simpl; try exact H.
  apply objects_get_found in E.
  assert (In b (filter (by_user_code_used (user_id user) (upper c) false)
                       (backup_codes w))) as I by (rewrite E; now left).
  apply filter_In in I. exact (tidy_mark_found b w (proj1 I) H).
Qed.

Lemma tidy_verify (user : User) (token : string) : tidy (verify user token).
Proof.
  intros w H. rewrite verify_unfold.
  destruct (objects_get _ (devices w)) as [|d|]; try exact H.
  assert (H1 : table_sound (after_check verify_token d token w)).
  { destruct (after_check_keeps d token w) as [_ [Hb [_ [_ [Hn _]]]]].
    unfold table_sound, codes_unique, keys_ok in *. now rewrite Hb, Hn. }
  cbv zeta.
  destruct (fst (verify_token d token (clock w)));
    [|now apply tidy_verify_backup_code].
  destruct (dev_confirmed d); exact H1.
Qed.

Lemma tidy_call (c : Call) (w : World) :
  table_sound w -> table_sound (run_call c w).
Proof.
  assert (G : forall user w, table_sound w -> table_sound (snd (enable user w))).
  { intros user w0 H. rewrite enable_unfold. cbv zeta.
    assert (K : forall device : TOTPDevice,
              tidy (bind (generate user 10)
                         (fun backup => ret (mkEnrollment (qr_png (config_url device))
                                                          (dev_key device) backup)))).
    { intros dv. apply tidy_bind; [apply tidy_generate|]. intros; apply tidy_ret. }
    destruct (objects_get _ (devices w0)); [|now apply K|exact H].
    apply K. exact H. }
  intros H. destruct c; unfold exec.
  - now apply G.
  - now apply tidy_verify.
  - rewrite disable_2fa_world. simpl.
    exact (tidy_delete_codes (code_of (user_id user)) w H).
  - now apply tidy_generate.
  - now apply tidy_verify_backup_code.
  - unfold Enable2FAView_post. destruct (is_2fa_enabled user); [exact H|].
    unfold bind. specialize (G user w H).
    destruct (enable user w) as [[e|e] w1]; exact G.
  - unfold Verify2FAView_post, bind. pose proof (tidy_verify user token w H) as V.
    destruct (verify user token w) as [[[|]|e] w1]; try exact V.
    unfold send_2fa_enabled_email. unfold_m.
    destruct (delivers w1 (mail_2fa_enabled user)); exact V.
  - unfold Disable2FAView_post. destruct (negb (is_2fa_enabled user)); [exact H|].
    unfold bind. rewrite disable_2fa_world. simpl.
    exact (tidy_delete_codes (code_of (user_id user)) w H).
  - unfold RegenerateBackupCodesView_post.
    destruct (negb (is_2fa_enabled user)); [exact H|].
    unfold bind. pose proof (tidy_generate user 10 w H) as V.
    destruct (generate user 10 w) as [[e|e] w1]; exact V.
Qed.

Lemma unique_code_one_match (uid : nat) (c : string) (u : bool)
    (l : list TwoFactorBackupCode) :
  NoDup (map code l) ->
  List.length (filter (by_user_code_used uid c u) l) <= 1.
Proof.
  induction l as [|a l IH]; simpl; intros Hnd; [lia|].
  inversion Hnd as [|x xs Hnot Hnd']; subst.
  destruct (by_user_code_used uid c u a) eqn:P; [|auto].
  assert (F : filter (by_user_code_used uid c u) l = []).
  { apply filter_nil_iff. intros b Hb.
    destruct (by_user_code_used uid c u b) eqn:Q; [|reflexivity].
    exfalso. apply Hnot.
    unfold by_user_code_used in P, Q.
    apply andb_true_iff in P. destruct P as [P _].
    apply andb_true_iff in P. destruct P as [_ P].
    apply andb_true_iff in Q. destruct Q as [Q _].
    apply andb_true_iff in Q. destruct Q as [_ Q].
    apply String.eqb_eq in P, Q. rewrite P, <- Q. now apply in_map. }
  rewrite F. simpl. lia.
Qed.

(** X10.  From a table with unique codes and sound keys, whatever sequence of
    service calls and view requests has run, [_verify_backup_code] finds at
    most one row and so never raises [MultipleObjectsReturned]: it returns
    [True] or [False].  The table stays sound throughout. *)
Theorem verify_backup_code_never_ambiguous :
  forall (calls : list Call) (w : World) (user : User) (c : string),
    codes_unique w -> keys_ok w ->
    let w' := fold_left (fun w c => run_call c w) calls w in
    codes_unique w' /\ keys_ok w' /\
    exists r, fst (_verify_backup_code upper user c w') = Return r.
Proof.
  intros calls w user c Hc Hk w'.
  assert (S : table_sound w').
  { subst w'. assert (H : table_sound w) by (split; assumption).
    clear Hc Hk. revert w H.
    induction calls as [|x calls IH]; intros w H; simpl; [exact H|].
    apply IH. now apply tidy_call. }
  destruct S as [Hc' Hk']. split; [exact Hc'|]. split; [exact Hk'|].
  unfold _verify_backup_code. unfold_m. unfold objects_get.
  pose proof (unique_code_one_match (user_id user) (upper c) false _ Hc') as L.
  destruct (filter _ (backup_codes w')) as [|b [|b' l]]; simpl in L |- *.
  - now exists false.
  - now exists true.
  - lia.
Qed.

(** X11.  In a coherent world with unique codes [verify_2fa_token] never
    raises, so [Verify2FAView.post] can fail in one way only.  It answers
    400 when the verification returned [False].  When it returned [True]
    the view answers 200 if the mail goes out, and otherwise lets the
    error of [send_mail] escape: then no mail was sent and what the
    verification wrote stays written. *)
Theorem Verify2FAView_post_fails_only_on_mail :
  forall (user : User) (token : string) (w : World),
    coherent w -> codes_unique w ->
    let w1 := snd (verify user token w) in
    exists is_valid,
      fst (verify user token w) = Return is_valid /\
      Verify2FAView_post upper verify_token delivers user token w =
      if is_valid then
        if delivers w1 (mail_2fa_enabled user) then
          (Return (mkResponse 200 (Message "2FA verified and enabled successfully.")),
           set_outbox (outbox w1 ++ [mail_2fa_enabled user]) w1)
        else (Raise EmailError, w1)
      else (Return (mkResponse 400 (Message "Invalid 2FA token.")), w1).
Proof.
  intros user token w [_ [_ Hst]] Hc. specialize (Hst (user_id user)).
  assert (V : exists is_valid, fst (verify user token w) = Return is_valid).
  { rewrite verify_unfold. unfold state_of in Hst.
    destruct (objects_get _ (devices w)) as [|d|]; [| |destruct Hst].
    - now exists false.
    - cbv zeta. destruct (fst (verify_token d token (clock w))).
      + destruct (dev_confirmed d); now exists true.
      + unfold _verify_backup_code. unfold_m. unfold objects_get.
        destruct (after_check_keeps d token w) as [_ [Hb _]]. rewrite Hb.
        pose proof (unique_code_one_match (user_id user) (upper token) false _ Hc) as L.
        destruct (filter _ (backup_codes w)) as [|b [|b' l]]; simpl in L |- *.
        * now exists false.
        * now exists true.
        * lia. }
  destruct V as [is_valid V]. exists is_valid. split; [exact V|].
  unfold Verify2FAView_post, bind.
  destruct (verify user token w) as [r w1]. cbn [fst snd] in V |- *. subst r.
  destruct is_valid; [|reflexivity].
  unfold send_2fa_enabled_email. unfold_m.
  destruct (delivers w1 (mail_2fa_enabled user)); reflexivity.
Qed.

End Properties.

(** * Properties of the user model *)

Module AccountFacts.
Import Accounts.

Local Open Scope list_scope.

Section Text.

Variable unicode_space : nat -> bool.
Variable unicode_digit : nat -> bool.

Local Abbreviation is_space := (Accounts.is_space unicode_space).
Local Abbreviation lstrip := (Accounts.lstrip unicode_space).
Local Abbreviation rstrip := (Accounts.rstrip unicode_space).
Local Abbreviation strip := (Accounts.strip unicode_space).
Local Abbreviation blank := (Accounts.blank unicode_space).
Local Abbreviation trimmed := (Accounts.trimmed unicode_space).
Local Abbreviation get_full_name := (Accounts.get_full_name unicode_space).
Local Abbreviation is_digit := (Accounts.is_digit unicode_digit).
Local Abbreviation all_digits := (Accounts.all_digits unicode_digit).
Local Abbreviation accept := (Accounts.accept unicode_digit).
Local Abbreviation matches := (Accounts.matches unicode_digit).
Local Abbreviation phone_regex := (Accounts.phone_regex unicode_digit).
Local Abbreviation phone_shape := (Accounts.phone_shape unicode_digit).

(** ** White space *)

Lemma lstrip_cons (c : nat) (s : text) :
  lstrip (c :: s) = if is_space c then lstrip s else c :: s.
Proof. reflexivity. Qed.

Lemma rstrip_cons (c : nat) (s : text) :
  rstrip (c :: s) =
  match rstrip s with
  | [] => if is_space c then [] else [c]
  | r => c :: r
  end.
Proof. reflexivity. Qed.

Lemma blank_cons (c : nat) (s : text) : blank (c :: s) = is_space c && blank s.
Proof. reflexivity. Qed.

Lemma blank_app (a b : text) : blank (a ++ b) = blank a && blank b.
Proof.
  induction a as [|c a IH]; [reflexivity|].
  cbn [app]. now rewrite !blank_cons, IH, andb_assoc.
Qed.

Lemma lstrip_empty (s : text) : lstrip s = [] <-> blank s = true.
Proof.
  induction s as [|c s IH]; [split; reflexivity|].
  rewrite lstrip_cons, blank_cons.
  destruct (is_space c); cbn [andb]; [exact IH|]. split; discriminate.
Qed.

Lemma rstrip_empty (s : text) : rstrip s = [] <-> blank s = true.
Proof.
  induction s as [|c s IH]; [split; reflexivity|].
  rewrite rstrip_cons, blank_cons.
  destruct (rstrip s) eqn:R.
  - destruct (is_space c); cbn [andb].
    + split; [intros _; now apply IH|reflexivity].
    + split; discriminate.
  - split; [discriminate|]. intros H. apply andb_true_iff in H.
    destruct H as [_ H]. apply IH in H. discriminate.
Qed.

Lemma blank_lstrip (s : text) : blank (lstrip s) = blank s.
Proof.
  induction s as [|c s IH]; [reflexivity|].
  rewrite lstrip_cons, blank_cons.
  destruct (is_space c) eqn:E; cbn [andb]; [exact IH|].
  now rewrite blank_cons, E.
Qed.

Lemma strip_empty (s : text) : strip s = [] <-> blank s = true.
Proof. unfold Accounts.strip. now rewrite rstrip_empty, blank_lstrip. Qed.

Lemma rstrip_idem (s : text) : rstrip (rstrip s) = rstrip s.
Proof.
  induction s as [|c s IH]; [reflexivity|].
  rewrite rstrip_cons.
  destruct (rstrip s) as [|a r] eqn:R.
  - destruct (is_space c) eqn:E; [reflexivity|].
    rewrite rstrip_cons. cbn [Accounts.rstrip]. now rewrite E.
  - rewrite rstrip_cons, IH. reflexivity.
Qed.

(** [rstrip] keeps the first character of what it returns. *)
Lemma rstrip_head (c : nat) (s : text) :
  is_space c = false -> exists r, rstrip (c :: s) = c :: r.
Proof.
  intros E. rewrite rstrip_cons. destruct (rstrip s); [rewrite E|]; eauto.
Qed.

Lemma lstrip_head (s : text) :
  lstrip s = [] \/ exists c r, lstrip s = c :: r /\ is_space c = false.
Proof.
  induction s as [|c s IH]; [now left|].
  rewrite lstrip_cons.
  destruct (is_space c) eqn:E; [exact IH|]. right. eauto.
Qed.

Lemma strip_idem (s : text) : strip (strip s) = strip s.
Proof.
  unfold Accounts.strip.
  destruct (lstrip_head s) as [->|[c [r [-> E]]]]; [reflexivity|].
  destruct (rstrip_head c r E) as [r' Hr]. rewrite Hr, lstrip_cons, E.
  rewrite <- Hr. apply rstrip_idem.
Qed.

Lemma rstrip_app_blank (a b : text) :
  blank b = true -> rstrip (a ++ b) = rstrip a.
Proof.
  intros Hb. induction a as [|c a IH].
  - now apply rstrip_empty.
  - cbn [app]. now rewrite !rstrip_cons, IH.
Qed.

Lemma rstrip_app_keep (a b : text) :
  rstrip b <> [] -> rstrip (a ++ b) = a ++ rstrip b.
Proof.
  intros Hb. induction a as [|c a IH]; [reflexivity|].
  cbn [app]. rewrite rstrip_cons, IH.
  destruct (a ++ rstrip b) eqn:E; [|reflexivity].
  exfalso. destruct a; simpl in E; [contradiction|discriminate].
Qed.

Lemma length_lstrip (s : text) : List.length (lstrip s) <= List.length s.
Proof.
  induction s as [|c s IH]; [reflexivity|].
  rewrite lstrip_cons. destruct (is_space c); simpl; lia.
Qed.

Lemma length_rstrip (s : text) : List.length (rstrip s) <= List.length s.
Proof.
  induction s as [|c s IH]; [reflexivity|].
  rewrite rstrip_cons.
  destruct (rstrip s); [destruct (is_space c)|]; simpl in *; lia.
Qed.

(** A trimmed string is untouched by either strip, and starts with a
    character that is not white space unless it is empty. *)
Lemma trimmed_parts (s : text) :
  trimmed s ->
  lstrip s = s /\ rstrip s = s /\
  (s = [] \/ exists c r, s = c :: r /\ is_space c = false).
Proof.
  unfold Accounts.trimmed, Accounts.strip. intros H.
  pose proof (length_lstrip s) as L1. pose proof (length_rstrip (lstrip s)) as L2.
  assert (E : List.length (lstrip s) = List.length s).
  { rewrite H in L2. lia. }
  assert (Hl : lstrip s = s).
  { destruct s as [|c s]; [reflexivity|]. rewrite lstrip_cons in E |- *.
    destruct (is_space c); [|reflexivity].
    pose proof (length_lstrip s). simpl in E. lia. }
  rewrite Hl in H. split; [exact Hl|]. split; [exact H|].
  destruct (lstrip_head s) as [K|[c [r [K Hc]]]]; rewrite Hl in K; eauto.
Qed.

(** ** Display names *)

Lemma blank_joined (u : Names) :
  blank (first_name u ++ lit " " ++ last_name u)
  = blank (first_name u) && blank (last_name u).
Proof. now rewrite !blank_app. Qed.

Lemma full_name_blank (u : Names) :
  blank (first_name u) && blank (last_name u) = true ->
  get_full_name u = email u.
Proof.
  intros H. rewrite <- blank_joined in H. unfold Accounts.get_full_name.
  apply strip_empty in H. now rewrite H.
Qed.

(** X12.  [get_full_name] falls back to the email exactly when both names are
    blank (empty, or made of characters that [str.isspace] counts as white
    space); otherwise it is the two names joined and stripped, which is
    not empty and has no white space at either end. *)
Theorem get_full_name_blank_or_stripped :
  forall u : Names,
    (blank (first_name u) && blank (last_name u) = true ->
     get_full_name u = email u) /\
    (blank (first_name u) && blank (last_name u) = false ->
     get_full_name u = strip (first_name u ++ lit " " ++ last_name u) /\
     get_full_name u <> [] /\
     trimmed (get_full_name u)).
Proof.
  intros u. split; [apply full_name_blank|].
  intros H. rewrite <- blank_joined in H. unfold Accounts.get_full_name.
  destruct (strip (first_name u ++ lit " " ++ last_name u)) eqn:S.
  - apply strip_empty in S. congruence.
  - cbn [str_or]. split; [reflexivity|]. split; [discriminate|].
    unfold Accounts.trimmed. rewrite <- S. apply strip_idem.
Qed.

(** X13.  With names stored trimmed, [get_full_name] leaves no dangling space:
    it is the first name, a space and the last name when both are present,
    the one that is present when the other is empty, and the email when
    both are empty. *)
Theorem get_full_name_of_trimmed_names :
  forall u : Names,
    trimmed (first_name u) -> trimmed (last_name u) ->
    get_full_name u =
    match first_name u, last_name u with
    | [], [] => email u
    | [], l => l
    | f, [] => f
    | f, l => f ++ lit " " ++ l
    end.
Proof.
  intros [e f l]. cbn [first_name last_name email]. intros Hf Hl.
  destruct (trimmed_parts f Hf) as [Lf [Rf Sf]].
  destruct (trimmed_parts l Hl) as [Ll [Rl Sl]].
  unfold Accounts.get_full_name. cbn [first_name last_name email].
  assert (Sp : forall s, lstrip (lit " " ++ s) = lstrip s) by reflexivity.
  assert (Bl : blank (lit " ") = true) by reflexivity.
  destruct Sf as [->|[c [r [-> Ec]]]].
  - (* no first name *)
    unfold Accounts.strip. cbn [app]. rewrite Sp, Ll, Rl. now destruct l.
  - destruct Sl as [->|[c' [r' [-> Ec']]]].
    + (* no last name *)
      unfold Accounts.strip. rewrite app_nil_r.
      change ((c :: r) ++ lit " ") with (c :: (r ++ lit " ")).
      rewrite lstrip_cons, Ec.
      change (c :: (r ++ lit " ")) with ((c :: r) ++ lit " ").
      rewrite rstrip_app_blank by exact Bl. now rewrite Rf.
    + unfold Accounts.strip.
      change ((c :: r) ++ lit " " ++ c' :: r')
        with (c :: (r ++ lit " " ++ c' :: r')).
      rewrite lstrip_cons, Ec.
      change (c :: (r ++ lit " " ++ c' :: r'))
        with ((c :: r) ++ (lit " " ++ c' :: r')).
      assert (K : rstrip (lit " " ++ c' :: r') = lit " " ++ c' :: r').
      { rewrite rstrip_app_keep; rewrite Rl; [reflexivity|discriminate]. }
      rewrite rstrip_app_keep; rewrite K; [reflexivity|discriminate].
Qed.

(** X14.  [get_short_name] does not strip.  For a first name that is not empty
    but made of white space only (and a blank last name), it returns that
    white space, where [get_full_name] falls back to the email. *)
Theorem get_short_name_keeps_blank_first_name :
  forall u : Names,
    first_name u <> [] ->
    blank (first_name u) = true -> blank (last_name u) = true ->
    get_short_name u = first_name u /\ get_full_name u = email u.
Proof.
  intros u Hne Hf Hl. split.
  - unfold get_short_name, str_or. destruct (first_name u); [now elim Hne|reflexivity].
  - apply full_name_blank. now rewrite Hf, Hl.
Qed.

(** ** The phone number pattern *)

Lemma repeat_k_spec (step : text -> (text -> bool) -> bool)
    (R : text -> text -> Prop) (k : text -> bool) :
  (forall s k', step s k' = true <-> exists rest, R s rest /\ k' rest = true) ->
  forall hi lo s,
    repeat_k step k lo hi s = true <->
    exists n rest, lo <= n <= hi /\ iterate R n s rest /\ k rest = true.
Proof.
  intros Hstep. induction hi as [|hi IH]; intros lo s; simpl.
  - rewrite andb_true_iff, Nat.eqb_eq. split.
    + intros [-> Hk]. exists 0, s. simpl. repeat split; auto.
    + intros [n [rest [Hn [Hi Hk]]]]. assert (n = 0) by lia. subst n.
      simpl in Hi. subst rest. split; [lia|exact Hk].
  - rewrite orb_true_iff, andb_true_iff, Nat.eqb_eq, Hstep. split.
    + intros [[mid [Hm Hr]]|[-> Hk]].
      * apply IH in Hr. destruct Hr as [n [rest [Hn [Hi Hk]]]].
        exists (S n), rest. simpl. split; [lia|]. split; [|exact Hk].
        exists mid. split; assumption.
      * exists 0, s. simpl. repeat split; auto. lia.
    + intros [[|n] [rest [Hn [Hi Hk]]]]; simpl in Hi.
      * right. subst rest. split; [lia|exact Hk].
      * left. destruct Hi as [mid [Hm Hi]]. exists mid. split; [exact Hm|].
        apply IH. exists n, rest. split; [lia|]. split; assumption.
Qed.

(** The matcher decides the pattern. *)
Lemma accept_spec (r : regex) :
  forall s k,
    accept r s k = true <-> exists rest, matches r s rest /\ k rest = true.
Proof.
  induction r as [c| |r IH|r1 IH1 r2 IH2|r IH lo hi]; intros s k;
    cbn [Accounts.accept Accounts.matches].
  - destruct s as [|a s]; [split; [discriminate|intros [rest [H _]]; discriminate]|].
    rewrite andb_true_iff, Nat.eqb_eq. split.
    + intros [-> Hk]. now exists s.
    + intros [rest [H Hk]]. injection H as -> ->. now split.
  - destruct s as [|a s].
    + split; [discriminate|]. intros [rest [[b [_ H]] _]]. discriminate.
    + rewrite andb_true_iff. split.
      * intros [Hd Hk]. exists s. split; [|exact Hk]. now exists a.
      * intros [rest [[b [Hd H]] Hk]]. injection H as -> ->. now split.
  - rewrite orb_true_iff, IH. split.
    + intros [[rest [Hm Hk]]|Hk]; [exists rest|exists s]; auto.
    + intros [rest [[Hm | ->] Hk]]; [left; now exists rest|now right].
  - rewrite IH1. split.
    + intros [mid [H1 H2]]. apply IH2 in H2. destruct H2 as [rest [H2 Hk]].
      exists rest. split; [|exact Hk]. now exists mid.
    + intros [rest [[mid [H1 H2]] Hk]]. exists mid. split; [exact H1|].
      apply IH2. now exists rest.
  - rewrite (repeat_k_spec (accept r) (matches r) k IH). split.
    + intros [n [rest [Hn [Hi Hk]]]]. exists rest. split; [|exact Hk]. now exists n.
    + intros [rest [[n [Hn Hi]] Hk]]. now exists n, rest.
Qed.

Lemma all_digits_cons (c : nat) (s : text) :
  all_digits (c :: s) = is_digit c && all_digits s.
Proof. reflexivity. Qed.

Lemma iterate_digits (n : nat) :
  forall s rest,
    iterate (matches Digit) n s rest <->
    exists ds, s = ds ++ rest /\ List.length ds = n /\ all_digits ds = true.
Proof.
  induction n as [|n IH]; intros s rest; cbn [iterate].
  - split.
    + intros ->. exists []. auto.
    + intros [ds [-> [L _]]]. destruct ds; [reflexivity|discriminate].
  - split.
    + intros [mid [[a [Ha ->]] Hi]]. apply IH in Hi.
      destruct Hi as [ds [-> [L D]]]. exists (a :: ds).
      rewrite all_digits_cons, Ha, D. cbn [List.length app]. rewrite L. auto.
    + intros [[|a ds] [-> [L D]]]; [discriminate|].
      rewrite all_digits_cons in D. cbn [List.length] in L.
      apply andb_true_iff in D. destruct D as [Ha D].
      exists (ds ++ rest). split; [now exists a|].
      apply IH. exists ds. split; [reflexivity|]. split; [lia|exact D].
Qed.

Lemma at_end_spec (s : text) : at_end s = true <-> s = [] \/ s = [10].
Proof.
  destruct s as [|c [|c' s]]; cbn [at_end].
  - split; auto.
  - rewrite Nat.eqb_eq. split.
    + intros ->. now right.
    + intros [H|H]; [discriminate|]. now injection H.
  - split; [discriminate|]. intros [H|H]; discriminate.
Qed.

Lemma phone_regex_sound (value : text) :
  phone_regex value = true -> phone_shape value.
Proof.
  unfold Accounts.phone_regex. rewrite accept_spec. unfold phone_pattern.
  intros [rest [[m1 [H1 [m2 [H2 [n [Hn Hi]]]]]] Hk]].
  apply iterate_digits in Hi. destruct Hi as [ds [-> [L D]]].
  apply at_end_spec in Hk. unfold Accounts.phone_shape.
  destruct H1 as [H1|H1], H2 as [H2|H2]; cbn [Accounts.matches] in H1, H2; subst.
  - exists (lit "+"), (lit "1"), ds, rest. repeat split; auto; lia.
  - exists (lit "+"), [], ds, rest. repeat split; auto; lia.
  - exists [], (lit "1"), ds, rest. repeat split; auto; lia.
  - exists [], [], ds, rest. repeat split; auto; lia.
Qed.

Lemma phone_regex_complete (value : text) :
  phone_shape value -> phone_regex value = true.
Proof.
  unfold Accounts.phone_regex. rewrite accept_spec. unfold phone_pattern.
  intros [sign [one [ds [tail [-> [Hs [Ho [D [L Ht]]]]]]]]].
  exists tail. split; [|now apply at_end_spec].
  exists (one ++ ds ++ tail). split.
  - destruct Hs as [-> | ->]; cbn [Accounts.matches]; auto.
  - exists (ds ++ tail). split.
    + destruct Ho as [-> | ->]; cbn [Accounts.matches]; auto.
    + exists (List.length ds). split; [exact L|].
      apply iterate_digits. now exists ds.
Qed.

(** X17.  The phone numbers the validator lets through are exactly: an optional
    "+", an optional "1", then 9 to 15 decimal digits (of any script, as
    [\d] matches them), optionally followed by one final line feed. *)
Theorem phone_regex_accepts :
  forall value : text,
    phone_regex value = true <->
    exists sign one digits tail,
      value = sign ++ one ++ digits ++ tail /\
      (sign = [] \/ sign = lit "+") /\
      (one = [] \/ one = lit "1") /\
      all_digits digits = true /\
      9 <= List.length digits <= 15 /\
      (tail = [] \/ tail = [10]).
Proof.
  intros value. split.
  - intros H. exact (phone_regex_sound value H).
  - intros H. apply phone_regex_complete. exact H.
Qed.

(** X18.  Every accepted phone number has between 9 and 17 characters before its
    optional final line feed, so without one it fits the column's
    [max_length=17]. *)
Theorem phone_regex_length :
  forall value : text,
    phone_regex value = true ->
    exists body tail,
      value = body ++ tail /\
      9 <= List.length body <= 17 /\
      (tail = [] \/ tail = [10]).
Proof.
  intros value H. apply phone_regex_sound in H.
  destruct H as [sign [one [ds [tail [-> [Hs [Ho [D [L Ht]]]]]]]]].
  exists (sign ++ one ++ ds), tail. split.
  - now rewrite <- !app_assoc.
  - split; [|exact Ht]. rewrite !length_app.
    destruct Hs as [-> | ->], Ho as [-> | ->]; simpl; lia.
Qed.

Lemma all_digits_app (a b : text) :
  all_digits (a ++ b) = all_digits a && all_digits b.
Proof.
  induction a as [|c a IH]; [reflexivity|].
  cbn [app]. now rewrite !all_digits_cons, IH, andb_assoc.
Qed.

(** X19.  For a value made of digits only: it is accepted exactly when it has 9
    to 15 digits, or 16 digits of which the first is a "1" (the digit the
    optional [1?] takes). *)
Theorem phone_regex_on_digits :
  forall value : text,
    all_digits value = true ->
    (phone_regex value = true <->
     9 <= List.length value <= 15 \/
     (List.length value = 16 /\ exists rest, value = lit "1" ++ rest)).
Proof.
  intros value Hd.
  assert (S : phone_regex value = true <-> phone_shape value)
    by (split; [apply phone_regex_sound|apply phone_regex_complete]).
  rewrite S. unfold Accounts.phone_shape. split.
  - intros [sign [one [ds [tail [-> [Hs [Ho [D [L Ht]]]]]]]]].
    rewrite !all_digits_app in Hd.
    apply andb_true_iff in Hd. destruct Hd as [Hsign Hd].
    apply andb_true_iff in Hd. destruct Hd as [Hone Hd].
    apply andb_true_iff in Hd. destruct Hd as [_ Htail].
    destruct Hs as [-> | ->]; [|discriminate].
    destruct Ht as [-> | ->]; [|discriminate].
    rewrite !length_app. cbn [List.length app]. rewrite app_nil_r.
    destruct Ho as [-> | ->]; cbn [List.length app lit map list_ascii_of_string].
    + left. lia.
    + destruct (Nat.eq_dec (List.length ds) 15) as [E|E].
      * right. split; [lia|]. now exists ds.
      * left. lia.
  - intros [L|[L [rest ->]]].
    + exists [], [], value, []. rewrite app_nil_r. cbn [app].
      repeat split; auto; lia.
    + exists [], (lit "1"), rest, []. rewrite app_nil_r. cbn [app].
      rewrite all_digits_app in Hd. apply andb_true_iff in Hd.
      rewrite length_app in L. simpl in L.
      repeat split; auto; try lia. exact (proj2 Hd).
Qed.

End Text.

(** ** Creating superusers *)

Lemma lookup_kw_app (k : string) (d1 d2 : kwargs) :
  lookup_kw k (d1 ++ d2)%list =
  match lookup_kw k d1 with
  | Some v => Some v
  | None => lookup_kw k d2
  end.
Proof.
  induction d1 as [|[k' v] d IH]; simpl; [reflexivity|].
  destruct (String.eqb k' k); [reflexivity|exact IH].
Qed.

Lemma lookup_setdefault (k k' : string) (v : pyval) (d : kwargs) :
  lookup_kw k (setdefault k' v d) =
  match lookup_kw k d with
  | Some x => Some x
  | None => if String.eqb k' k then Some v else None
  end.
Proof.
  unfold setdefault. destruct (lookup_kw k' d) eqn:E.
  - destruct (lookup_kw k d) eqn:F; [reflexivity|].
    destruct (String.eqb k' k) eqn:K; [|reflexivity].
    apply String.eqb_eq in K. congruence.
  - rewrite lookup_kw_app. simpl. reflexivity.
Qed.

Lemma lookup_with_defaults (k : string) (d : kwargs) :
  lookup_kw k (with_defaults d) =
  match lookup_kw k d with
  | Some x => Some x
  | None =>
      if String.eqb "is_staff" k || String.eqb "is_superuser" k
         || String.eqb "is_active" k || String.eqb "is_email_verified" k
      then Some (PyBool true) else None
  end.
Proof.
  unfold with_defaults. rewrite !lookup_setdefault.
  destruct (lookup_kw k d); [reflexivity|].
  destruct (String.eqb "is_staff" k), (String.eqb "is_superuser" k),
           (String.eqb "is_active" k), (String.eqb "is_email_verified" k);
    reflexivity.
Qed.

Lemma is_not_True_false (v : pyval) : is_not_True v = false <-> v = PyBool true.
Proof. destruct v as [|[|]| |]; simpl; split; congruence. Qed.

Section SuperUsers.

Variable normalize_email : string -> string.

(** X15.  Whenever [create_superuser] gets as far as saving, the saved instance
    has [is_staff] and [is_superuser] set to [True]; every keyword argument
    the caller gave is passed on unchanged, and [is_active] and
    [is_email_verified] are [True] unless the caller gave them. *)
Theorem create_superuser_saves_a_superuser :
  forall (e password : option string) (extra_fields : kwargs) (u : NewUser),
    create_superuser normalize_email e password extra_fields = Saved u ->
    dict_get "is_staff" (new_fields u) = PyBool true /\
    dict_get "is_superuser" (new_fields u) = PyBool true /\
    (forall k v, lookup_kw k extra_fields = Some v ->
                 lookup_kw k (new_fields u) = Some v) /\
    (lookup_kw "is_active" extra_fields = None ->
     dict_get "is_active" (new_fields u) = PyBool true) /\
    (lookup_kw "is_email_verified" extra_fields = None ->
     dict_get "is_email_verified" (new_fields u) = PyBool true) /\
    new_password u = password /\
    exists s, e = Some s /\ s <> EmptyString /\ new_email u = normalize_email s.
Proof.
  intros e password extra_fields u. unfold create_superuser. cbv zeta.
  fold (with_defaults extra_fields).
  destruct (is_not_True (dict_get "is_staff" (with_defaults extra_fields))) eqn:S;
    [discriminate|].
  destruct (is_not_True (dict_get "is_superuser" (with_defaults extra_fields))) eqn:P;
    [discriminate|].
  unfold create_user. destruct (email_missing e) eqn:M; [discriminate|].
  intros H. injection H as <-. simpl.
  apply is_not_True_false in S, P.
  split; [exact S|]. split; [exact P|]. split; [|split; [|split; [|split]]].
  - intros k v Hk. rewrite lookup_with_defaults, Hk. reflexivity.
  - intros Hk. unfold dict_get. rewrite lookup_with_defaults, Hk. reflexivity.
  - intros Hk. unfold dict_get. rewrite lookup_with_defaults, Hk. reflexivity.
  - reflexivity.
  - destruct e as [[|c s]|]; try discriminate.
    exists (String c s). repeat split. discriminate.
Qed.

(** X16.  The errors of [create_superuser], in the order they are checked: an
    [is_staff] given as anything but [True] is refused first, then such an
    [is_superuser], and only then a missing email.  A refused call saves
    nothing. *)
Theorem create_superuser_errors_in_order :
  forall (e password : option string) (extra_fields : kwargs),
    let staff_ok := match lookup_kw "is_staff" extra_fields with
                    | Some v => negb (is_not_True v)
                    | None => true
                    end in
    let super_ok := match lookup_kw "is_superuser" extra_fields with
                    | Some v => negb (is_not_True v)
                    | None => true
                    end in
    create_superuser normalize_email e password extra_fields =
    if negb staff_ok then ValueError "Superuser must have is_staff=True."
    else if negb super_ok then ValueError "Superuser must have is_superuser=True."
    else if email_missing e then ValueError "The Email field must be set"
    else create_user normalize_email e password (with_defaults extra_fields).
Proof.
  intros e password extra_fields. cbv zeta. unfold create_superuser. cbv zeta.
  fold (with_defaults extra_fields). unfold dict_get.
  rewrite !lookup_with_defaults. simpl.
  destruct (lookup_kw "is_staff" extra_fields) as [v|];
    destruct (lookup_kw "is_superuser" extra_fields) as [v'|]; simpl.
  - destruct (is_not_True v); simpl; [reflexivity|].
    destruct (is_not_True v'); simpl; [reflexivity|].
    unfold create_user. now destruct (email_missing e).
  - destruct (is_not_True v); simpl; [reflexivity|].
    unfold create_user. now destruct (email_missing e).
  - destruct (is_not_True v'); simpl; [reflexivity|].
    unfold create_user. now destruct (email_missing e).
  - unfold create_user. now destruct (email_missing e).
Qed.

End SuperUsers.

End AccountFacts.


(** * Properties of login, logout and password change *)

Module SessionFacts.
Import Sessions.

Section Facts.

Variable generate_key : nat -> string.
Variable make_password : string -> string.
Variable user_data : User -> string.

Local Abbreviation login_post := (UserLoginView_post generate_key user_data).
Local Abbreviation password_post :=
  (PasswordChangeView_post generate_key make_password).

Lemma token_owner (uid : nat) (ts : list Token) (t : Token) :
  filter (token_of uid) ts = [t] -> In t ts /\ token_user t = uid.
Proof.
  intros H. assert (In t (filter (token_of uid) ts)) as I by (rewrite H; now left).
  apply filter_In in I. split; [exact (proj1 I)|].
  apply Nat.eqb_eq. exact (proj2 I).
Qed.

(** What [get_or_create] returned is afterwards the one token of the
    user. *)
Lemma token_get_or_create_found (uid : nat) (s s1 : Site) (t : Token) :
  token_get_or_create generate_key uid s = (Return t, s1) ->
  filter (token_of uid) (tokens s1) = [t] /\ session s1 = session s.
Proof.
  unfold token_get_or_create.
  destruct (objects_get (token_of uid) (tokens s)) as [|t0|] eqn:E.
  - unfold token_create.
    destruct (existsb _ (tokens s) || existsb _ (tokens s)); [discriminate|].
    intros H. injection H as <- <-. simpl. apply objects_get_missing in E.
    rewrite filter_app, E. simpl. unfold token_of at 1. simpl.
    now rewrite Nat.eqb_refl.
  - intros H. injection H as <- <-. split; [now apply objects_get_found|reflexivity].
  - discriminate.
Qed.

(** X20.  A user with the 2FA flag set is not logged in by [UserLoginView.post]:
    the session is left as it was.  But the [temp_token] of the response is
    the key of the user's one stored token, and a full login of the same
    user afterwards hands out that very key. *)
Theorem login_with_2fa_hands_out_the_stored_token :
  forall (user : User) (s s1 : Site) (body : LoginBody),
    is_2fa_enabled user = true ->
    login_post user s = (Return (200, body), s1) ->
    session s1 = session s /\
    exists t,
      body = Requires2FA "Please enter your 2FA code." (key t) /\
      filter (token_of (user_id user)) (tokens s1) = [t] /\
      forall user',
        user_id user' = user_id user -> is_2fa_enabled user' = false ->
        login_post user' s1
        = (Return (200, LoggedIn (user_data user') (key t) "Login successful."),
           login (user_id user) s1).
Proof.
  intros user s s1 body Hflag. unfold UserLoginView_post. rewrite Hflag.
  destruct (token_get_or_create generate_key (user_id user) s) as [[t|e] s'] eqn:G;
    [|discriminate].
  intros H. injection H as <- <-.
  destruct (token_get_or_create_found _ _ _ _ G) as [F S].
  split; [exact S|]. exists t. split; [reflexivity|]. split; [exact F|].
  intros user' Hid Hflag'. rewrite Hflag', Hid.
  unfold token_get_or_create. simpl.
  rewrite (objects_get_one _ _ _ F). reflexivity.
Qed.

(** X21.  [UserLogoutView.post] always answers 200 and never raises.  It logs
    the session out and leaves the 2FA world alone.  When the user has one
    token, no row with that key remains and the user has no token any
    more; when the user has none, the token table is unchanged. *)
Theorem logout_revokes_the_token :
  forall (user : User) (s : Site),
    let s1 := snd (UserLogoutView_post user s) in
    fst (UserLogoutView_post user s) = (200, "Logout successful.") /\
    session s1 = None /\
    world s1 = world s /\
    (forall t,
       objects_get (token_of (user_id user)) (tokens s) = Found t ->
       filter (token_of (user_id user)) (tokens s1) = [] /\
       forall x, In x (tokens s1) -> key x <> key t) /\
    (objects_get (token_of (user_id user)) (tokens s) = DoesNotExist ->
     tokens s1 = tokens s).
Proof.
  intros user s. unfold UserLogoutView_post, delete_auth_token. simpl.
  split; [reflexivity|].
  destruct (objects_get (token_of (user_id user)) (tokens s)) as [|t|] eqn:E;
    simpl; (split; [reflexivity|]); (split; [reflexivity|]); split;
    try discriminate; try reflexivity.
  - intros t0 H. injection H as <-. apply objects_get_found in E. split.
    + apply filter_nil_iff. intros x Hx. unfold objects_delete in Hx.
      apply filter_In in Hx. destruct Hx as [Hx Hk].
      destruct (token_of (user_id user) x) eqn:P; [|reflexivity].
      assert (In x (filter (token_of (user_id user)) (tokens s))) as I
        by (apply filter_In; now split).
      rewrite E in I. destruct I as [<-|[]].
      rewrite String.eqb_refl in Hk. discriminate.
    + intros x Hx Hk. unfold objects_delete in Hx. apply filter_In in Hx.
      destruct Hx as [_ Hx]. rewrite Hk, String.eqb_refl in Hx. discriminate.
Qed.

(** X22.  [PasswordChangeView.post] replaces the user's tokens.  The new key is
    the next key drawn.  If no other user's token has that key, the view
    answers 200 with it, the user's only token is the new one, and the
    stored password is the hash of the new one.  If another user's token
    has that key, the view raises [IntegrityError] after the password was
    changed and the old tokens deleted, leaving the user without a token.
    Other users' tokens are untouched either way. *)
Theorem password_change_replaces_the_token :
  forall (user : User) (new_password : string) (s : Site),
    let k := generate_key (draws (world s)) in
    let taken :=
      existsb (fun t => String.eqb (key t) k)
              (objects_delete (token_of (user_id user)) (tokens s)) in
    let s3 := snd (password_post user new_password s) in
    fst (password_post user new_password s)
      = (if taken then Raise IntegrityError
         else Return (200, ("Password changed successfully."%string, k))) /\
    filter (token_of (user_id user)) (tokens s3)
      = (if taken then [] else [mkToken k (user_id user)]) /\
    find (fun p => fst p =? user_id user) (passwords s3)
      = Some (user_id user, make_password new_password) /\
    request_user (user_id user) (world s3) = Some user /\
    forall other, other <> user_id user ->
      filter (token_of other) (tokens s3) = filter (token_of other) (tokens s).
Proof.
  intros user new_password s. cbv zeta.
  unfold PasswordChangeView_post, token_create, set_password_and_save. simpl.
  assert (N : existsb (token_of (user_id user))
                (objects_delete (token_of (user_id user)) (tokens s)) = false).
  { destruct (existsb _ _) eqn:E; [|reflexivity].
    apply existsb_exists in E. destruct E as [x [Hx Px]].
    unfold objects_delete in Hx. apply filter_In in Hx.
    rewrite Px in Hx. now destruct Hx. }
  rewrite N, orb_false_r.
  assert (P : find (fun p : nat * string => fst p =? user_id user)
                (save_row fst (user_id user, make_password new_password) (passwords s))
              = Some (user_id user, make_password new_password)).
  { exact (find_save_row fst (user_id user, make_password new_password) (passwords s)). }
  assert (U : request_user (user_id user)
                (set_users (save_row user_id user (users (world s))) (world s))
              = Some user).
  { unfold request_user. simpl. apply (find_save_row user_id user). }
  assert (O : forall other, other <> user_id user ->
                filter (token_of other)
                       (objects_delete (token_of (user_id user)) (tokens s))
                = filter (token_of other) (tokens s)).
  { intros other Hne. apply filter_delete_other. intros t Ht.
    unfold token_of in *. apply Nat.eqb_eq in Ht. rewrite Ht. now apply Nat.eqb_neq. }
  destruct (existsb (fun t : Token => String.eqb (key t)
                                        (generate_key (draws (world s))))
                    (objects_delete (token_of (user_id user)) (tokens s))) eqn:T;
    simpl.
  - split; [reflexivity|]. split; [apply filter_delete_same|].
    split; [exact P|]. split; [exact U|exact O].
  - split; [reflexivity|]. split.
    + rewrite filter_app, filter_delete_same. simpl. unfold token_of at 1. simpl.
      now rewrite Nat.eqb_refl.
    + split; [exact P|]. split; [exact U|].
      intros other Hne. rewrite filter_app, (O other Hne). simpl.
      unfold token_of at 2. simpl.
      assert (E : (user_id user =? other) = false).
      { apply Nat.eqb_neq. congruence. }
      rewrite E. apply app_nil_r.
Qed.

End Facts.

End SessionFacts.


(** * Worked instances *)

Module Instances.
Import Sample.

Local Abbreviation verify_known := (verify_2fa_token upper totp_check).
Local Abbreviation verify_none := (verify_2fa_token upper rejects_all).
Local Abbreviation post_verify_known :=
  (Verify2FAView_post upper totp_check delivers).
Local Abbreviation enroll :=
  (enable_2fa upper Sample.default_key Sample.token_hex Sample.config_url
              Sample.qr_png).
Local Abbreviation happen_known :=
  (happen upper totp_check Sample.default_key Sample.token_hex
          Sample.config_url Sample.qr_png delivers Sample.b64encode).

(** C1.  Alice's device is unconfirmed, the TOTP check rejects her token,
    and the token is one of her unused backup codes.  [verify_2fa_token]
    returns [True] and spends the code, but the device stays unconfirmed
    and her stored flag stays false; the view nevertheless answers that
    2FA was verified and enabled, and sends the mail. *)
Theorem backup_code_in_pending_does_not_confirm :
  state_of 1 pending = Some PENDING /\
  fst (verify_none alice "0000000abc" pending) = Return true /\
  state_of 1 (snd (verify_none alice "0000000abc" pending)) = Some PENDING /\
  request_user 1 (snd (verify_none alice "0000000abc" pending))
    = Some (mkUser 1 false) /\
  unused_codes 1 (snd (verify_none alice "0000000abc" pending)) = ["0000000ABD"] /\
  fst (Verify2FAView_post upper rejects_all delivers alice "0000000abc" pending)
    = Return (mkResponse 200 (Message "2FA verified and enabled successfully.")) /\
  outbox (snd (Verify2FAView_post upper rejects_all delivers alice "0000000abc"
                 pending))
    = [mail_2fa_enabled alice].
Proof. repeat split; vm_compute; reflexivity. Qed.

(** The TOTP path from the same world does confirm. *)
Example totp_in_pending_confirms :
  fst (verify_known alice "123456" pending) = Return true /\
  state_of 1 (snd (verify_known alice "123456" pending)) = Some ENABLED /\
  request_user 1 (snd (verify_known alice "123456" pending)) = Some (mkUser 1 true).
Proof. repeat split; vm_compute; reflexivity. Qed.

(** C2, refuted.  Two requests submit the same unused code and the
    database serves them alternately: both SELECTs see the unused row, both
    UPDATEs mark it, both requests return [True]. *)
Lemma two_requests_both_succeed :
  objects_get (by_user_code_used 1 (upper "0000000abc") false) (backup_codes enabled)
    = Found (mkCode 0 1 "0000000ABC" false 90 None) /\
  fst (run upper [0; 1; 0; 1]
           [before_get alice "0000000abc"; before_get alice "0000000abc"]
           enabled)
    = [finished (Return true); finished (Return true)].
Proof. split; vm_compute; reflexivity. Qed.

(** C3, refuted.  A count of zero is not rejected: the call returns the
    empty list and Alice's two codes are gone.  A count of 101 is not
    rejected either: 101 codes are returned and stored. *)
Lemma count_is_not_checked :
  List.length (backup_codes pending) = 2 /\
  generate_backup_codes upper Sample.token_hex alice 0 pending
    = (Return [], set_backup_codes [] pending) /\
  (exists codes w',
     generate_backup_codes upper Sample.token_hex alice 101 pending
       = (Return codes, w') /\
     List.length codes = 101 /\
     List.length (backup_codes w') = 101).
Proof.
  split; [reflexivity|]. split; [reflexivity|].
  eexists. eexists. split; [vm_compute; reflexivity|].
  split; vm_compute; reflexivity.
Qed.

(** C4.  Alice, enrolled and unconfirmed, verifies with the good token:
    her device is confirmed, her state becomes ENABLED and the view sends
    the 2FA-enabled mail.  Forty seconds later, her state being ENABLED,
    she verifies again with the token of the next time step.  No
    transition takes place now (state, flag and every column of the device
    row this repository owns are as before), and the view answers once
    more that 2FA was verified and enabled and sends the mail a second
    time. *)
Theorem enabled_user_is_mailed_on_every_verification :
  state_of 1 pending = Some PENDING /\
  outbox pending = [] /\
  fst (post_verify_known alice "123456" pending)
    = Return (mkResponse 200 (Message "2FA verified and enabled successfully.")) /\
  (let w1 := happen_known (time_passes 40)
               (snd (post_verify_known alice "123456" pending)) in
   state_of 1 w1 = Some ENABLED /\
   request_user 1 w1 = Some (mkUser 1 true) /\
   outbox w1 = [mail_2fa_enabled alice] /\
   fst (post_verify_known (mkUser 1 true) "654321" w1)
     = Return (mkResponse 200 (Message "2FA verified and enabled successfully.")) /\
   let w2 := snd (post_verify_known (mkUser 1 true) "654321" w1) in
   state_of 1 w2 = Some ENABLED /\
   request_user 1 w2 = Some (mkUser 1 true) /\
   map service_columns (devices w2) = map service_columns (devices w1) /\
   backup_codes w2 = backup_codes w1 /\
   outbox w2 = [mail_2fa_enabled alice; mail_2fa_enabled (mkUser 1 true)] /\
   mail_2fa_enabled (mkUser 1 true) = mail_2fa_enabled alice).
Proof. repeat split; vm_compute; reflexivity. Qed.

(** C5, refuted.  Alice has an unconfirmed device, so her flag is still
    false: the view refuses to disable and leaves the device in place.
    And the service, asked to disable a user who has nothing, returns
    normally. *)
Lemma pending_user_cannot_disable :
  state_of 1 pending = Some PENDING /\
  request_user 1 pending = Some alice /\
  Disable2FAView_post alice pending
    = (Return (mkResponse 400 (Message "2FA is not enabled.")), pending) /\
  state_of 1 empty = Some DISABLED /\
  fst (disable_2fa alice empty) = Return tt.
Proof. repeat split; vm_compute; reflexivity. Qed.

(** ** The theorems at concrete inputs *)

Lemma upper_ascii_idem (c : ascii) : upper_ascii (upper_ascii c) = upper_ascii c.
Proof. destruct c as [[] [] [] [] [] [] [] []]; reflexivity. Qed.

Lemma upper_idem (s : string) : upper (upper s) = upper s.
Proof.
  induction s as [|c s IH]; simpl; [reflexivity|].
  now rewrite upper_ascii_idem, IH.
Qed.

(** What [upper] made it leaves alone. *)
Lemma batch_upper (source : nat -> string) (k n : nat) (c : string) :
  In c (batch upper source k n) -> upper c = c.
Proof.
  unfold batch. intros H. apply in_map_iff in H. destruct H as [i [<- _]].
  apply upper_idem.
Qed.

Lemma enabled_consistent : codes_consistent enabled.
Proof.
  unfold codes_consistent, used_at_iff_is_used. simpl.
  repeat constructor; simpl; try discriminate; try (intros K; now elim K).
Qed.

Lemma enabled_keys_ok : keys_ok enabled.
Proof.
  unfold keys_ok. simpl. split.
  - repeat constructor; simpl; intros H; repeat destruct H as [H|H];
      try discriminate; exact H.
  - repeat constructor.
Qed.

Lemma verify_2fa_token_without_device_witness :
  filter (device_of (user_id alice)) (devices empty) = [] /\
  verify_known alice "123456" empty = (Return false, empty).
Proof.
  split; [reflexivity|].
  apply (verify_2fa_token_without_device upper totp_check alice "123456" empty).
  reflexivity.
Defined.

Lemma disable_2fa_then_verify_fails_witness :
  user_id alice = user_id (mkUser 1 true) /\
  filter (device_of 1) (devices (snd (disable_2fa (mkUser 1 true) enabled))) = [] /\
  verify_known alice "123456" (snd (disable_2fa (mkUser 1 true) enabled))
    = (Return false, snd (disable_2fa (mkUser 1 true) enabled)).
Proof.
  split; [reflexivity|].
  pose proof (disable_2fa_then_verify_fails upper totp_check (mkUser 1 true)
                alice "123456" enabled eq_refl) as H.
  simpl in H. destruct H as [_ [Hd [_ [_ Hv]]]].
  split; [exact Hd|exact Hv].
Defined.

Lemma verify_backup_code_at_most_once_witness :
  ~ In (upper "zzz") (unused_codes (user_id alice) pending) /\
  _verify_backup_code upper alice "zzz" pending = (Return false, pending) /\
  objects_get (by_user_code_used (user_id alice) (upper "0000000abc") false)
              (backup_codes pending)
    = Found (mkCode 0 1 "0000000ABC" false 90 None) /\
  _verify_backup_code upper alice "0000000abc" pending
    = (Return true, snd (mark_as_used (mkCode 0 1 "0000000ABC" false 90 None) pending)) /\
  upper "0000000ABC" = upper "0000000abc" /\
  _verify_backup_code upper alice "0000000ABC"
      (snd (mark_as_used (mkCode 0 1 "0000000ABC" false 90 None) pending))
    = (Return false,
       snd (mark_as_used (mkCode 0 1 "0000000ABC" false 90 None) pending)).
Proof.
  assert (H0 : ~ In (upper "zzz") (unused_codes (user_id alice) pending)).
  { vm_compute. intros [H|[H|[]]]; discriminate. }
  pose proof (verify_backup_code_at_most_once upper alice "zzz" pending) as Z.
  pose proof (verify_backup_code_at_most_once upper alice "0000000abc" pending) as A.
  destruct A as [_ [A2 A3]].
  pose proof (A3 _ eq_refl) as T.
  split; [exact H0|]. split; [exact (proj1 Z H0)|].
  split; [reflexivity|]. split; [exact T|]. split; [reflexivity|].
  exact (A2 _ T "0000000ABC" eq_refl).
Defined.

Lemma used_at_iff_is_used_invariant_witness :
  codes_consistent enabled /\ keys_ok enabled /\
  let w := enabled in
  let w' := fold_left (fun w e => happen_known e w) sample_events enabled in
  codes_consistent w' /\
  (forall b b',
     In b (backup_codes w) -> is_used b = true ->
     In b' (backup_codes w') -> bc_id b' = bc_id b -> is_used b' = true) /\
  (forall user c w'',
     _verify_backup_code upper user c w' = (Return true, w'') ->
     exists b',
       In b' (backup_codes w') /\
       bc_user b' = user_id user /\ code b' = upper c /\
       is_used b' = false /\ used_at b' = None /\
       (forall b, In b (backup_codes w) -> is_used b = true ->
                  bc_id b' <> bc_id b) /\
       w'' = snd (mark_as_used b' w') /\
       find (fun x => bc_id x =? bc_id b') (backup_codes w'')
         = Some (mkCode (bc_id b') (bc_user b') (code b') true (created_at b')
                        (Some (clock w'))) /\
       codes_consistent w'') /\
  (forall user c,
     (forall b', In b' (backup_codes w') -> bc_user b' = user_id user ->
                 code b' = upper c -> is_used b' = true) ->
     _verify_backup_code upper user c w' = (Return false, w') /\
     ((forall d now, fst (totp_check d c now) = false) ->
      fst (verify_known user c w') <> Return true)) /\
  (forall user c b',
     objects_get (by_user_code_used (user_id user) (upper c) false)
                 (backup_codes w') = Found b' ->
     _verify_backup_code upper user c w' = (Return true, snd (mark_as_used b' w'))) /\
  (forall user count,
     let rows := filter (code_of (user_id user))
                        (backup_codes
                           (snd (generate_backup_codes upper Sample.token_hex
                                   user count w'))) in
     Forall (fun b => is_used b = false /\ used_at b = None) rows /\
     (fresh_codes (batch upper Sample.token_hex (draws w') (Z.to_nat count))
                  (objects_delete (code_of (user_id user)) (backup_codes w')) = true ->
      rows = new_rows (next_code_id w') (user_id user) (clock w')
                      (batch upper Sample.token_hex (draws w') (Z.to_nat count)) /\
      List.length rows = Z.to_nat count)).
Proof.
  split; [exact enabled_consistent|]. split; [exact enabled_keys_ok|].
  exact (used_at_iff_is_used_invariant upper totp_check Sample.default_key
           Sample.token_hex Sample.config_url Sample.qr_png delivers
           Sample.b64encode sample_events enabled enabled_consistent
           enabled_keys_ok).
Defined.

Lemma generate_backup_codes_takes_any_count_witness :
  fresh_codes (batch upper Sample.token_hex (draws pending) (Z.to_nat 3))
              (objects_delete (code_of (user_id alice)) (backup_codes pending)) = true /\
  generate_backup_codes upper Sample.token_hex alice 3 pending
    = (Return (batch upper Sample.token_hex (draws pending) (Z.to_nat 3)),
       after_generation upper Sample.token_hex (user_id alice) (Z.to_nat 3)
                        (delete_codes_of (user_id alice) pending)).
Proof.
  split; [reflexivity|].
  exact (proj1 (generate_backup_codes_takes_any_count upper Sample.token_hex alice 3
                  pending eq_refl)).
Defined.

Lemma enable_2fa_twice_witness :
  (state_of (user_id alice) empty = Some DISABLED \/
   state_of (user_id alice) empty = Some PENDING) /\
  fresh_codes (batch upper Sample.token_hex (first_draw (user_id alice) empty) 20)
              (objects_delete (code_of (user_id alice)) (backup_codes empty)) = true /\
  (forall c,
     In c (batch upper Sample.token_hex (first_draw (user_id alice) empty) 20) ->
     upper c = c) /\
  exists e1 w1 e2 w2 d,
    enroll alice empty = (Return e1, w1) /\
    enroll alice w1 = (Return e2, w2) /\
    secret_key e1 = secret_key e2 /\
    objects_get (by_user_name (user_id alice) "default") (devices w2) = Found d /\
    dev_key d = secret_key e1 /\ dev_confirmed d = false /\
    state_of (user_id alice) w1 = Some PENDING /\
    state_of (user_id alice) w2 = Some PENDING /\
    enrolled_backup_codes e1
      = batch upper Sample.token_hex (first_draw (user_id alice) empty) 10 /\
    enrolled_backup_codes e2
      = batch upper Sample.token_hex (first_draw (user_id alice) empty + 10) 10 /\
    List.length (enrolled_backup_codes e1) = 10 /\
    List.length (enrolled_backup_codes e2) = 10 /\
    NoDup (enrolled_backup_codes e1 ++ enrolled_backup_codes e2) /\
    unused_codes (user_id alice) w1 = enrolled_backup_codes e1 /\
    unused_codes (user_id alice) w2 = enrolled_backup_codes e2 /\
    (forall c, In c (enrolled_backup_codes e1) ->
       fst (_verify_backup_code upper alice c w1) = Return true /\
       ~ In c (enrolled_backup_codes e2) /\
       _verify_backup_code upper alice c w2 = (Return false, w2) /\
       ((forall d' now, fst (rejects_all d' c now) = false) ->
        fst (verify_none alice c w2) = Return false)) /\
    (forall c, In c (enrolled_backup_codes e2) ->
       fst (_verify_backup_code upper alice c w2) = Return true).
Proof.
  split; [left; reflexivity|]. split; [reflexivity|].
  split; [apply batch_upper|].
  exact (enable_2fa_twice_same_secret_fresh_codes upper rejects_all
           Sample.default_key Sample.token_hex Sample.config_url Sample.qr_png
           alice empty (or_introl eq_refl) eq_refl
           (batch_upper Sample.token_hex _ 20)).
Defined.

(** The two batches of that run. *)
Example enable_2fa_twice_batches :
  enrolled_backup_codes
    (match fst (enroll alice empty) with
     | Return e => e
     | Raise _ => mkEnrollment EmptyString EmptyString []
     end)
  = ["0000000ABD"; "0000000ABE"; "0000000ABF"; "0000000AC0"; "0000000AC1";
     "0000000AC2"; "0000000AC3"; "0000000AC4"; "0000000AC5"; "0000000AC6"] /\
  unused_codes 1 (snd (enroll alice (snd (enroll alice empty))))
  = ["0000000AC7"; "0000000AC8"; "0000000AC9"; "0000000ACA"; "0000000ACB";
     "0000000ACC"; "0000000ACD"; "0000000ACE"; "0000000ACF"; "0000000AD0"].
Proof. split; vm_compute; reflexivity. Qed.

Lemma serial_requests_one_success_witness :
  objects_get (by_user_code_used (user_id alice) (upper "0000000abc") false)
              (backup_codes pending)
    = Found (mkCode 0 1 "0000000ABC" false 90 None) /\
  run upper (serial 0 3) (repeat (before_get alice "0000000abc") 3) pending
    = ([finished (Return true); finished (Return false); finished (Return false)],
       snd (mark_as_used (mkCode 0 1 "0000000ABC" false 90 None) pending)).
Proof.
  split; [reflexivity|].
  exact (serial_requests_one_success upper alice "0000000abc" 2 pending _ eq_refl).
Defined.

End Instances.

(** * Worked instances of the further properties *)

Module MoreInstances.
Import Sample MoreSample.

Local Abbreviation verify_known := (verify_2fa_token upper totp_check).

Lemma two_users_coherent : coherent two_users.
Proof.
  unfold coherent. split; [|split].
  - simpl. repeat constructor; simpl; intros H; repeat destruct H as [H|H];
      try discriminate; exact H.
  - simpl. repeat constructor.
  - intros [|[|[|uid]]]; vm_compute; reflexivity.
Qed.

Lemma two_users_codes_unique : codes_unique two_users.
Proof.
  unfold codes_unique. simpl.
  repeat constructor; simpl; intros H; repeat destruct H as [H|H];
    try discriminate; exact H.
Qed.

Lemma two_users_keys_ok : keys_ok two_users.
Proof.
  unfold keys_ok. simpl. split.
  - repeat constructor; simpl; intros H; repeat destruct H as [H|H];
      try discriminate; exact H.
  - repeat constructor.
Qed.

Lemma pending_device_keys : NoDup (map dev_id (devices pending)).
Proof. simpl. repeat constructor. intros []. Qed.

(** A wrong token: the attempt is counted on Alice's device, and nothing
    else changes. *)
Lemma verify_2fa_token_failure_keeps_service_data_witness :
  NoDup (map dev_id (devices pending)) /\
  fst (verify_known alice "999999" pending) <> Return true /\
  (let w' := snd (verify_known alice "999999" pending) in
   w' = set_devices (devices w') pending /\
   map service_columns (devices w') = map service_columns (devices pending) /\
   (forall x, In x (devices w') -> dev_user x <> user_id alice ->
              In x (devices pending))) /\
  map dev_otp (devices (snd (verify_known alice "999999" pending)))
    = [mkOtp (-1) 0 1 (Some 100) None].
Proof.
  assert (H : fst (verify_known alice "999999" pending) <> Return true)
    by (vm_compute; discriminate).
  split; [exact pending_device_keys|]. split; [exact H|].
  split; [|reflexivity].
  exact (verify_2fa_token_failure_keeps_service_data upper totp_check alice "999999"
           pending pending_device_keys H).
Defined.

Lemma verify_2fa_token_confirms_pending_device_witness :
  NoDup (map dev_id (devices pending)) /\
  fst (totp_check (new_device 0 1 "00000000000000000000000000000000cafe")
                      "123456" (clock pending)) = true /\
  state_of 1 (snd (verify_known alice "123456" pending)) = Some ENABLED.
Proof.
  split; [exact pending_device_keys|]. split; [reflexivity|].
  exact (proj1 (proj2 (verify_2fa_token_confirms_pending_device upper totp_check
                         alice "123456" pending _ pending_device_keys
                         eq_refl eq_refl eq_refl))).
Defined.

Lemma disable_2fa_spares_other_users_witness :
  2 <> user_id (mkUser 1 true) /\
  filter (device_of 2) (devices (snd (disable_2fa (mkUser 1 true) two_users)))
    = filter (device_of 2) (devices two_users) /\
  request_user 2 (snd (disable_2fa (mkUser 1 true) two_users))
    = request_user 2 two_users.
Proof.
  assert (H : 2 <> user_id (mkUser 1 true)) by (simpl; lia).
  split; [exact H|].
  destruct (disable_2fa_spares_other_users (mkUser 1 true) two_users 2 H)
    as [A [_ B]].
  split; [exact A|exact B].
Defined.

Lemma generated_code_is_accepted_once_witness :
  fresh_codes (batch upper Sample.token_hex (draws pending) (Z.to_nat 3))
              (objects_delete (code_of (user_id alice)) (backup_codes pending)) = true /\
  In "0000000ABF"%string (batch upper Sample.token_hex (draws pending) (Z.to_nat 3)) /\
  upper "0000000abf" = "0000000ABF"%string /\
  fst (_verify_backup_code upper alice "0000000abf"
         (snd (generate_backup_codes upper Sample.token_hex alice 3 pending)))
    = Return true.
Proof.
  assert (I : In "0000000ABF"%string
                 (batch upper Sample.token_hex (draws pending) (Z.to_nat 3)))
    by (left; reflexivity).
  split; [reflexivity|]. split; [exact I|]. split; [reflexivity|].
  exact (proj1 (proj2 (generated_code_is_accepted_once upper Sample.token_hex alice 3
                         pending "0000000ABF" "0000000abf" eq_refl I eq_refl))).
Defined.

Lemma generate_backup_codes_collision_raises_witness :
  fresh_codes (batch upper stuck (draws pending) (Z.to_nat 2))
              (objects_delete (code_of (user_id alice)) (backup_codes pending)) = false /\
  exists k,
    k < Z.to_nat 2 /\
    fst (generate_backup_codes upper stuck alice 2 pending) = Raise IntegrityError /\
    unused_codes (user_id alice)
                 (snd (generate_backup_codes upper stuck alice 2 pending))
      = batch upper stuck (draws pending) k.
Proof.
  split; [reflexivity|].
  exact (generate_backup_codes_collision_raises upper stuck alice 2 pending eq_refl).
Defined.

Lemma enable_2fa_over_confirmed_device_locks_out_witness :
  objects_get (by_user_name (user_id alice) "default") (devices enabled)
    = Found (mkDevice 0 1 "default" "00000000000000000000000000000000cafe" true
                      (succeeded otp_defaults 60)) /\
  fresh_codes (batch upper Sample.token_hex (S (draws enabled)) 10)
              (objects_delete (code_of (user_id alice)) (backup_codes enabled)) = true /\
  exists e w',
    enable_2fa upper Sample.default_key Sample.token_hex Sample.config_url
               Sample.qr_png alice enabled = (Return e, w') /\
    forall token,
      verify_known alice token w' = (Raise MultipleObjectsReturned, w').
Proof.
  split; [reflexivity|]. split; [reflexivity|].
  destruct (enable_2fa_over_confirmed_device_locks_out upper totp_check
              Sample.default_key Sample.token_hex Sample.config_url Sample.qr_png
              alice enabled _ eq_refl eq_refl eq_refl)
    as [e [w' [H1 [_ [_ H2]]]]].
  exists e, w'. split; [exact H1|exact H2].
Defined.

Lemma requests_keep_flag_and_device_coherent_witness :
  coherent two_users /\
  coherent (fold_left
              (fun w r => handle upper totp_check Sample.default_key
                                 Sample.token_hex Sample.config_url Sample.qr_png
                                 delivers Sample.b64encode r w)
              some_requests two_users).
Proof.
  split; [exact two_users_coherent|].
  exact (requests_keep_flag_and_device_coherent upper totp_check
           Sample.default_key Sample.token_hex Sample.config_url Sample.qr_png
           delivers Sample.b64encode some_requests two_users two_users_coherent).
Defined.

Lemma verify_backup_code_never_ambiguous_witness :
  codes_unique two_users /\ keys_ok two_users /\
  exists r,
    fst (_verify_backup_code upper alice "0000000abc"
           (fold_left
              (fun w c => exec upper totp_check Sample.default_key
                               Sample.token_hex Sample.config_url Sample.qr_png
                               delivers Sample.b64encode c w)
              sample_calls two_users))
    = Return r.
Proof.
  split; [exact two_users_codes_unique|]. split; [exact two_users_keys_ok|].
  exact (proj2 (proj2 (verify_backup_code_never_ambiguous upper totp_check
                         Sample.default_key Sample.token_hex Sample.config_url
                         Sample.qr_png delivers Sample.b64encode sample_calls
                         two_users alice "0000000abc" two_users_codes_unique
                         two_users_keys_ok))).
Defined.

(** With the mail backend down, a successful verification ends in the
    error of [send_mail]; the device has been confirmed all the same. *)
Lemma Verify2FAView_post_fails_only_on_mail_witness :
  coherent two_users /\ codes_unique two_users /\
  fst (verify_known (mkUser 2 false) "123456" two_users) = Return true /\
  Verify2FAView_post upper totp_check mail_down (mkUser 2 false) "123456"
                     two_users
    = (Raise EmailError, snd (verify_known (mkUser 2 false) "123456" two_users)) /\
  state_of 2 (snd (verify_known (mkUser 2 false) "123456" two_users))
    = Some ENABLED.
Proof.
  split; [exact two_users_coherent|]. split; [exact two_users_codes_unique|].
  destruct (Verify2FAView_post_fails_only_on_mail upper totp_check mail_down
              (mkUser 2 false) "123456" two_users two_users_coherent
              two_users_codes_unique) as [is_valid [V P]].
  assert (E : is_valid = true).
  { assert (T : fst (verify_known (mkUser 2 false) "123456" two_users) = Return true)
      by reflexivity.
    rewrite T in V. now injection V. }
  subst is_valid. split; [exact V|]. split; [exact P|reflexivity].
Defined.

Lemma get_full_name_of_trimmed_names_witness :
  Accounts.trimmed unicode_space (Accounts.first_name ann) /\
  Accounts.trimmed unicode_space (Accounts.last_name ann) /\
  Accounts.get_full_name unicode_space ann = Accounts.lit "Ann Lee".
Proof.
  split; [reflexivity|]. split; [reflexivity|].
  exact (AccountFacts.get_full_name_of_trimmed_names unicode_space ann
           eq_refl eq_refl).
Defined.

(** A no-break space after the first name is white space to [strip]: the
    name is not trimmed, and the full name comes without it. *)
Example get_full_name_strips_no_break_space :
  Accounts.strip unicode_space (Accounts.lit "Ann" ++ [160])%list
    = Accounts.lit "Ann" /\
  Accounts.get_full_name unicode_space
    (Accounts.mkNames (Accounts.lit "ann@example.org") [] (Accounts.lit "Ann" ++ [160])%list)
    = Accounts.lit "Ann" /\
  Accounts.get_full_name unicode_space
    (Accounts.mkNames (Accounts.lit "ann@example.org") [160] [])
    = Accounts.lit "ann@example.org".
Proof. repeat split; reflexivity. Qed.

Lemma get_short_name_keeps_blank_first_name_witness :
  Accounts.first_name
    (Accounts.mkNames (Accounts.lit "ann@example.org") (Accounts.lit " ") []) <> [] /\
  Accounts.get_short_name
    (Accounts.mkNames (Accounts.lit "ann@example.org") (Accounts.lit " ") [])
    = Accounts.lit " " /\
  Accounts.get_full_name unicode_space
    (Accounts.mkNames (Accounts.lit "ann@example.org") (Accounts.lit " ") [])
    = Accounts.lit "ann@example.org".
Proof.
  assert (H : Accounts.first_name
                (Accounts.mkNames (Accounts.lit "ann@example.org")
                                  (Accounts.lit " ") []) <> [])
    by discriminate.
  split; [exact H|].
  exact (AccountFacts.get_short_name_keeps_blank_first_name unicode_space
           (Accounts.mkNames (Accounts.lit "ann@example.org") (Accounts.lit " ") [])
           H eq_refl eq_refl).
Defined.

Lemma create_superuser_saves_a_superuser_witness :
  Accounts.create_superuser (fun s => s) (Some "Root@Example.org"%string)
    (Some "secret"%string) [("is_active"%string, Accounts.PyBool false)]
  = Accounts.Saved
      (Accounts.mkNewUser "Root@Example.org" (Some "secret"%string)
         [("is_active"%string, Accounts.PyBool false);
          ("is_staff"%string, Accounts.PyBool true);
          ("is_superuser"%string, Accounts.PyBool true);
          ("is_email_verified"%string, Accounts.PyBool true)]) /\
  Accounts.dict_get "is_staff"
    [("is_active"%string, Accounts.PyBool false);
     ("is_staff"%string, Accounts.PyBool true);
     ("is_superuser"%string, Accounts.PyBool true);
     ("is_email_verified"%string, Accounts.PyBool true)] = Accounts.PyBool true.
Proof.
  split; [reflexivity|].
  exact (proj1 (AccountFacts.create_superuser_saves_a_superuser (fun s => s)
                  (Some "Root@Example.org"%string) (Some "secret"%string)
                  [("is_active"%string, Accounts.PyBool false)] _ eq_refl)).
Defined.

(** Nine Arabic-Indic digits pass the validator. *)
Example phone_regex_takes_digits_of_any_script :
  Accounts.phone_regex unicode_digit
    [1633; 1634; 1635; 1636; 1637; 1638; 1639; 1640; 1641] = true /\
  Accounts.phone_regex unicode_digit (Accounts.lit "12345678") = false.
Proof. split; reflexivity. Qed.

Lemma phone_regex_length_witness :
  Accounts.phone_regex unicode_digit (Accounts.lit "+12025550123") = true /\
  exists body tail,
    Accounts.lit "+12025550123" = (body ++ tail)%list /\
    9 <= List.length body <= 17 /\
    (tail = [] \/ tail = [10]).
Proof.
  split; [reflexivity|].
  exact (AccountFacts.phone_regex_length unicode_digit
           (Accounts.lit "+12025550123") eq_refl).
Defined.

Lemma phone_regex_on_digits_witness :
  Accounts.all_digits unicode_digit (Accounts.lit "1234567890123456") = true /\
  Accounts.phone_regex unicode_digit (Accounts.lit "1234567890123456") = true.
Proof.
  split; [reflexivity|].
  apply (AccountFacts.phone_regex_on_digits unicode_digit
           (Accounts.lit "1234567890123456") eq_refl).
  right. split; [reflexivity|]. now exists (Accounts.lit "234567890123456").
Defined.

Lemma login_with_2fa_hands_out_the_stored_token_witness :
  is_2fa_enabled (mkUser 1 true) = true /\
  Sessions.UserLoginView_post key_of_draw shown (mkUser 1 true) site
    = (Return (200, Sessions.Requires2FA "Please enter your 2FA code."
                      "000000000000000000000000000000000000feed"), site) /\
  Sessions.session site = None /\
  Sessions.UserLoginView_post key_of_draw shown alice site
    = (Return (200, Sessions.LoggedIn (shown alice)
                      "000000000000000000000000000000000000feed"
                      "Login successful."),
       Sessions.login 1 site).
Proof.
  split; [reflexivity|]. split; [reflexivity|]. split; [reflexivity|].
  destruct (SessionFacts.login_with_2fa_hands_out_the_stored_token key_of_draw shown
              (mkUser 1 true) site site _ eq_refl eq_refl)
    as [_ [t [Hb [_ Hnext]]]].
  injection Hb as Hk. rewrite Hk. exact (Hnext alice eq_refl eq_refl).
Defined.

End MoreInstances.
